(** * Test-result service: a shallow embedding of the route handlers, the
      server entry point and the browser client, with the properties of the
      specification stated over it.

    Sources embedded here:
    - backend/src/routes/testResults.ts : the permissive router (module
      [Permissive]), mounted by the server entry point;
    - backend/src/models/TestResult.ts  : the strict router (module [Strict]),
      whose import of the model resolves to the router itself;
    - the server entry point            : route table, the handlers of the
      application and the masking of the logged connection string (module
      [Server]);
    - frontend/src/utils/api.ts         : the submission client and its two
      tools (module [Client]).

    Module [Deployment] relates what the server sends to what the client
    receives, and what the client sends to what the server receives.

    JavaScript values are modelled by [JSValue]; doubles are modelled by exact
    rationals extended with NaN and the two infinities (rounding and the sign
    of zero are abstracted away: the handlers only compare with zero, test
    truthiness and do the pagination arithmetic).  What the language runtime
    and the database driver decide on their own (string-to-number parsing,
    date parsing, the schema casters on ill-typed values, the local calendar)
    is taken as a parameter through the classes [Builtins] and [Driver]. *)

From Stdlib Require Import ZArith QArith Qround List String Ascii Bool Lia.
From Stdlib Require Import DecimalString.
From Stdlib Require Import Sorting.Sorted Sorting.Permutation.
Import ListNotations.
Local Open Scope string_scope.
Local Open Scope Z_scope.

(* ================================================================== *)
(** ** JavaScript values *)
(* ================================================================== *)

Module JS.

(** A JavaScript number. *)
Inductive number : Type :=
| Num (q : Q)
| NaN
| PosInf
| NegInf.

Definition num_of_Z (z : Z) : number := Num (inject_Z z).

Definition num_isNaN (n : number) : bool :=
  match n with NaN => true | _ => false end.

Definition num_isZero (n : number) : bool :=
  match n with Num q => Qnum q =? 0 | _ => false end.

(** [n > 0] *)
Definition num_gt0 (n : number) : bool :=
  match n with
  | Num q => 0 <? Qnum q
  | PosInf => true
  | NaN | NegInf => false
  end.

(** [a - b] *)
Definition num_sub (a b : number) : number :=
  match a, b with
  | NaN, _ | _, NaN => NaN
  | Num x, Num y => Num (Qminus x y)
  | PosInf, PosInf | NegInf, NegInf => NaN
  | PosInf, _ => PosInf
  | NegInf, _ => NegInf
  | Num _, PosInf => NegInf
  | Num _, NegInf => PosInf
  end.

Definition signed_inf (positive : bool) : number :=
  if positive then PosInf else NegInf.

(** [a * b] *)
Definition num_mul (a b : number) : number :=
  match a, b with
  | NaN, _ | _, NaN => NaN
  | Num x, Num y => Num (Qmult x y)
  | Num x, inf | inf, Num x =>
      if Qnum x =? 0 then NaN
      else signed_inf (Bool.eqb (0 <? Qnum x) (num_gt0 inf))
  | x, y => signed_inf (Bool.eqb (num_gt0 x) (num_gt0 y))
  end.

(** [a / b] *)
Definition num_div (a b : number) : number :=
  match a, b with
  | NaN, _ | _, NaN => NaN
  | Num x, Num y =>
      if Qnum y =? 0 then
        (if Qnum x =? 0 then NaN else signed_inf (0 <? Qnum x))
      else Num (Qdiv x y)
  | Num _, _ => Num (inject_Z 0)
  | inf, Num y => signed_inf (Bool.eqb (num_gt0 inf) (0 <=? Qnum y))
  | _, _ => NaN
  end.

(** [Math.ceil] *)
Definition Math_ceil (n : number) : number :=
  match n with
  | Num q => Num (inject_Z (Qceiling q))
  | other => other
  end.


(** The value of the number when it is a natural number. *)
Definition num_to_nat (n : number) : option nat :=
  match n with
  | Num q =>
      if (0 <=? Qnum q) && (Qnum q mod Zpos (Qden q) =? 0)
      then Some (Z.to_nat (Qnum q / Zpos (Qden q)))
      else None
  | _ => None
  end.

(** A JavaScript value, as the handlers meet them: what [JSON.parse] yields,
    plus [undefined] and [Date] objects ([JDate None] is the invalid date).
    An object is the list of its own properties in insertion order. *)
#[warnings="-register-all"]
Inductive JSValue : Type :=
| JUndefined
| JNull
| JBool (b : bool)
| JNum (n : number)
| JStr (s : string)
| JDate (t : option Z)
| JArr (items : list JSValue)
| JObj (fields : list (string * JSValue)).

Definition JInt (z : Z) : JSValue := JNum (num_of_Z z).

(** Truthiness: what [!v], [v || w] and [v ? a : b] test. *)
Definition truthy (v : JSValue) : bool :=
  match v with
  | JUndefined | JNull => false
  | JBool b => b
  | JNum n => negb (num_isNaN n || num_isZero n)
  | JStr s => negb (String.eqb s "")
  | JDate _ | JArr _ | JObj _ => true
  end.

(** [a || b] *)
Definition or_else (a b : JSValue) : JSValue :=
  if truthy a then a else b.

Definition isNullish (v : JSValue) : bool :=
  match v with JUndefined | JNull => true | _ => false end.

Fixpoint lookup (k : string) (fields : list (string * JSValue)) : JSValue :=
  match fields with
  | [] => JUndefined
  | (k', v) :: rest => if String.eqb k k' then v else lookup k rest
  end.

(** [v.k] for the property names the handlers read ([userId], [results],
    [maleComputer], [dScore], [message], ...): none of them is a property of
    an array, a string, a number, a boolean or a date, nor inherited from
    [Object.prototype], so only own properties of objects answer.  On [null]
    and [undefined] the access throws; see [getPropChecked]. *)
Definition getProp (v : JSValue) (k : string) : JSValue :=
  match v with
  | JObj fields => lookup k fields
  | _ => JUndefined
  end.

(** [v?.k] *)
Definition optChain (v : JSValue) (k : string) : JSValue :=
  if isNullish v then JUndefined else getProp v k.

(** [Array.isArray(v)] *)
Definition Array_isArray (v : JSValue) : bool :=
  match v with JArr _ => true | _ => false end.

(** [Object.keys(o)] *)
Definition Object_keys (v : JSValue) : list string :=
  match v with
  | JObj fields => map fst fields
  | _ => []
  end.

(** An exception value; the catch blocks read [name], [code], [message],
    [errors] and [keyValue]. *)
Record JSError : Type := mkError {
  err_name : string;
  err_code : JSValue;
  err_message : string;
  err_errors : JSValue;
  err_keyValue : JSValue
}.

Definition TypeError (msg : string) : JSError :=
  mkError "TypeError" JUndefined msg JUndefined JUndefined.

(** Numeric equality of two numbers, whatever fractions represent them. *)
Definition num_eq (a b : number) : Prop :=
  match a, b with
  | Num x, Num y => Qeq x y
  | NaN, NaN | PosInf, PosInf | NegInf, NegInf => True
  | _, _ => False
  end.

(** The same value: the same number, or the same value of another type. *)
Definition sameValue (a b : JSValue) : Prop :=
  match a, b with
  | JNum x, JNum y => num_eq x y
  | _, _ => a = b
  end.

(** Result of evaluating a block: a value, or a thrown exception. *)
Inductive Completion (A : Type) : Type :=
| Normal (a : A)
| Throw (e : JSError).
Arguments Normal {A} a.
Arguments Throw {A} e.

(** Code that reads and writes a state of type [S] and may throw. *)
Definition Eff (S A : Type) : Type := S -> Completion A * S.

Definition ret {S A} (a : A) : Eff S A := fun st => (Normal a, st).

Definition throw {S A} (e : JSError) : Eff S A := fun st => (Throw e, st).

Definition bind {S A B} (m : Eff S A) (k : A -> Eff S B) : Eff S B :=
  fun st =>
    match m st with
    | (Normal a, st') => k a st'
    | (Throw e, st') => (Throw e, st')
    end.

(** [try { m } catch (e) { h e }] *)
Definition tryCatch {S A} (m : Eff S A) (h : JSError -> Eff S A) : Eff S A :=
  fun st =>
    match m st with
    | (Normal a, st') => (Normal a, st')
    | (Throw e, st') => h e st'
    end.

Definition liftOption {S A} (o : option A) (e : JSError) : Eff S A :=
  match o with
  | Some a => ret a
  | None => throw e
  end.

(** Code that touches no state, run inside code that has one. *)
Definition pure {S A} (m : Eff unit A) : Eff S A :=
  fun st => (fst (m tt), st).

(** Code that leaves the state as it found it. *)
Definition steady {S A} (m : Eff S A) : Prop :=
  forall st, snd (m st) = st.

(** [v.k] where [v] may be [null] or [undefined]. *)
Definition getPropChecked {S} (v : JSValue) (k : string) : Eff S JSValue :=
  if isNullish v
  then throw (TypeError ("Cannot read properties of undefined (reading '" ++ k ++ "')"))
  else ret (getProp v k).

(** What the language runtime decides. *)
Class Builtins : Type := {
  (** [Number(s)] on a string. *)
  StringToNumber : string -> number;
  (** [Number(v)] on an array or an object: [ToPrimitive] then
      [StringToNumber]; [None] when [ToPrimitive] throws a [TypeError]. *)
  ObjectToNumber : JSValue -> option number;
  (** [new Date(v)]: the time value ([None] inside for the invalid date);
      [None] outside when the conversion throws. *)
  DateFromValue : JSValue -> option (option Z);
  (** The string a template literal makes of a value that is not a string;
      [None] when the conversion throws. *)
  ToStringValue : JSValue -> option string;
  (** [d.setHours(0, 0, 0, 0)]: start of the local calendar day of a time. *)
  startOfDay : Z -> Z;
  (** [JSON.parse(text)]; [None] when it throws a [SyntaxError]. *)
  JSON_parse : string -> option JSValue;
  (** [JSON.stringify(v)] *)
  JSON_stringify : JSValue -> string;
  (** [d.toJSON()] of a valid date: its ISO string. *)
  Date_toJSON : Z -> string
}.

Section Conversions.
Context {B : Builtins}.

(** [Number(v)]; [None] when the conversion throws. *)
Definition ToNumber (v : JSValue) : option number :=
  match v with
  | JUndefined => Some NaN
  | JNull => Some (num_of_Z 0)
  | JBool b => Some (num_of_Z (if b then 1 else 0))
  | JNum n => Some n
  | JStr s => Some (StringToNumber s)
  | JDate (Some t) => Some (num_of_Z t)
  | JDate None => Some NaN
  | JArr _ | JObj _ => ObjectToNumber v
  end.

(** [n || 0] on a number. *)
Definition orZero (n : number) : number :=
  if num_isNaN n || num_isZero n then num_of_Z 0 else n.

(** [new Date(v)] *)
Definition newDate (v : JSValue) : option JSValue :=
  option_map JDate (DateFromValue v).

(** [`${v}`] *)
Definition ToString (v : JSValue) : option string :=
  match v with
  | JStr s => Some s
  | other => ToStringValue other
  end.

End Conversions.

End JS.
Export JS.

(* ================================================================== *)
(** ** The document store behind the Mongoose model *)
(* ================================================================== *)

Module Mongo.

(** The object literal [testResultData] that both routers hand to
    [new TestResult(...)]; every path of the schema is always given. *)
Record ResultsData : Type := mkResults {
  maleComputer : JSValue;
  femaleSkincare : JSValue;
  femaleComputer : JSValue;
  maleSkincare : JSValue
}.

Record AnalysisData : Type := mkAnalysis {
  dScore : JSValue;
  biasType : JSValue;
  biasLevel : JSValue;
  biasDirection : JSValue;
  d1Score : JSValue;
  d2Score : JSValue;
  d3Score : JSValue;
  d4Score : JSValue
}.

Record TestResultData : Type := mkData {
  userId : JSValue;
  testDate : JSValue;
  results : ResultsData;
  analysis : AnalysisData;
  surveyResponses : JSValue;
  deviceInfo : JSValue
}.

(** A stored document: the cast data, the identifier and the timestamps the
    schema option [timestamps: true] maintains (milliseconds since the
    epoch). *)
Record Doc : Type := mkDoc {
  doc_id : string;
  doc_data : TestResultData;
  createdAt : Z;
  updatedAt : Z
}.

(** The collection, in insertion order. *)
Definition Store : Type := list Doc.

(** The types the schema [testResultSchema] declares. *)
Inductive SchemaType : Type := TString | TNumber | TDate | TNumberArray.

(** The database operations the handlers await. *)
Inductive DbOp : Type :=
| SaveOp | VerifyOp | FindByIdOp | FindOp | CountOp | CountSinceOp.

(** What surrounds one request: the connection state, the clock at the
    handler's [new Date()], the clock at the write, the identifier the model
    constructor draws, the storage faults that strike each operation, and
    whether [NODE_ENV] is ['development']. *)
Record Env : Type := mkEnv {
  readyState : Z;
  now : Z;
  writeTime : Z;
  newId : string;
  fault : DbOp -> option JSError;
  development : bool
}.

(** What the database driver decides. *)
Class Driver : Type := {
  (** The schema caster on a value that is not already of the declared
      type: the cast value, or the message of the cast error. *)
  castOther : SchemaType -> JSValue -> JSValue + string;
  (** A [userId] query condition that is not a string (an operator object,
      an array): the documents it selects, or the message of the error. *)
  conditionOther : JSValue -> (Doc -> bool) + string;
  (** [skip(s).limit(l)] when [s] is not negative and [s] is not a natural
      number or [l] is not a positive natural number. *)
  windowOther : number -> number -> list Doc -> list Doc + string;
  (** The message of the cast error on a malformed identifier. *)
  idCastMessage : string -> string;
  (** The identifier a string of twelve bytes or more that is not 24
      hexadecimal digits is cast to, if any (versions of the driver differ on
      strings of twelve bytes). *)
  castIdOther : string -> option string;
  (** [sort({ createdAt: -1 })] orders on [createdAt] alone: the rank that
      decides, for the query of one request, which of two documents of equal
      [createdAt] the database returns first. *)
  tieRank : Env -> Doc -> Z
}.

(** Handler code: reads and writes the collection, may throw. *)
Definition M (A : Type) : Type := Eff Store A.

End Mongo.
Export Mongo.

Declare Scope js_scope.
Notation "x <- m ;; k" := (bind m (fun x => k))
  (at level 100, m at next level, right associativity) : js_scope.
Notation "m ;;; k" := (bind m (fun _ => k))
  (at level 100, right associativity) : js_scope.
Local Open Scope js_scope.

(* ================================================================== *)
(** ** The Mongoose model [TestResult] *)
(* ================================================================== *)

Module TestResult.

Definition isHexDigit (c : ascii) : bool :=
  let n := nat_of_ascii c in
  ((48 <=? n) && (n <=? 57) || (65 <=? n) && (n <=? 70)
   || (97 <=? n) && (n <=? 102))%nat.

(** A string the driver casts to an identifier: 24 hexadecimal digits. *)
Definition isObjectIdString (s : string) : bool :=
  (String.length s =? 24)%nat && forallb isHexDigit (list_ascii_of_string s).

(** The driver reads the hexadecimal digits of an identifier whatever their
    case: two strings name the same identifier when they agree up to the case
    of the letters A to F. *)
Definition lowerHex (c : ascii) : ascii :=
  let n := nat_of_ascii c in
  if ((65 <=? n) && (n <=? 70))%nat then ascii_of_nat (n + 32) else c.

Fixpoint canonical (s : string) : string :=
  match s with
  | EmptyString => EmptyString
  | String c rest => String (lowerHex c) (canonical rest)
  end.

Definition ValidationError (errors : list (string * JSValue)) : JSError :=
  mkError "ValidationError" JUndefined "TestResult validation failed"
          (JObj errors) JUndefined.

Definition DuplicateKeyError (id : string) : JSError :=
  mkError "MongoServerError" (JInt 11000) "E11000 duplicate key error"
          JUndefined (JObj [("_id", JStr id)]).

Definition CastError (msg : string) : JSError :=
  mkError "CastError" JUndefined msg JUndefined JUndefined.

Definition QueryError (msg : string) : JSError :=
  mkError "MongoServerError" JUndefined msg JUndefined JUndefined.

Definition isNumberValue (v : JSValue) : bool :=
  match v with JNum n => negb (num_isNaN n) | _ => false end.

Section Operations.
Context {D : Driver}.

(** The caster of a schema type: a value of the declared type is kept as it
    is ([null] is kept by the string caster); the driver decides the rest. *)
Definition cast (t : SchemaType) (v : JSValue) : JSValue + string :=
  match t, v with
  | TString, JNull | TString, JStr _ => inl v
  | TNumber, JNum n => if num_isNaN n then castOther t v else inl v
  | TDate, JDate (Some _) => inl v
  | TNumberArray, JArr items =>
      if forallb isNumberValue items then inl v else castOther t v
  | _, _ => castOther t v
  end.

(** Cast of one path: the value to store and the entries the path adds to
    the [errors] of the validation error. *)
Definition castPath (path : string) (t : SchemaType) (v : JSValue)
  : JSValue * list (string * JSValue) :=
  match cast t v with
  | inl w => (w, [])
  | inr msg => (JUndefined, [(path, JObj [("message", JStr msg)])])
  end.

(** [required: true] on a string path. *)
Definition requiredString (path : string) (cast_result : JSValue * list (string * JSValue))
  : list (string * JSValue) :=
  match cast_result with
  | (w, []) =>
      if isNullish w || negb (truthy w) then
        [(path, JObj [("message", JStr ("Path `" ++ path ++ "` is required."))])]
      else []
  | (_, errs) => errs
  end.

(** Document construction and validation against [testResultSchema]:
    [userId] is a required string, [testDate] a date, the four result paths
    arrays of numbers, the analysis paths numbers or strings, the two maps
    are of mixed type and stored as given. *)
Definition validate (data : TestResultData) : TestResultData + list (string * JSValue) :=
  let r := results data in
  let a := analysis data in
  let c_userId := castPath "userId" TString (userId data) in
  let c_testDate := castPath "testDate" TDate (testDate data) in
  let c_mc := castPath "results.maleComputer" TNumberArray (maleComputer r) in
  let c_fs := castPath "results.femaleSkincare" TNumberArray (femaleSkincare r) in
  let c_fc := castPath "results.femaleComputer" TNumberArray (femaleComputer r) in
  let c_ms := castPath "results.maleSkincare" TNumberArray (maleSkincare r) in
  let c_dScore := castPath "analysis.dScore" TNumber (dScore a) in
  let c_biasType := castPath "analysis.biasType" TString (biasType a) in
  let c_biasLevel := castPath "analysis.biasLevel" TString (biasLevel a) in
  let c_biasDirection := castPath "analysis.biasDirection" TString (biasDirection a) in
  let c_d1 := castPath "analysis.d1Score" TNumber (d1Score a) in
  let c_d2 := castPath "analysis.d2Score" TNumber (d2Score a) in
  let c_d3 := castPath "analysis.d3Score" TNumber (d3Score a) in
  let c_d4 := castPath "analysis.d4Score" TNumber (d4Score a) in
  let errors :=
    (requiredString "userId" c_userId ++ snd c_testDate
     ++ snd c_mc ++ snd c_fs ++ snd c_fc ++ snd c_ms
     ++ snd c_dScore ++ snd c_biasType ++ snd c_biasLevel
     ++ snd c_biasDirection ++ snd c_d1 ++ snd c_d2 ++ snd c_d3 ++ snd c_d4)%list in
  match errors with
  | [] =>
      inl (mkData (fst c_userId) (fst c_testDate)
             (mkResults (fst c_mc) (fst c_fs) (fst c_fc) (fst c_ms))
             (mkAnalysis (fst c_dScore) (fst c_biasType) (fst c_biasLevel)
                (fst c_biasDirection) (fst c_d1) (fst c_d2) (fst c_d3) (fst c_d4))
             (surveyResponses data) (deviceInfo data))
  | _ => inr errors
  end.

(** The paths of a validated document, one by one. *)
Definition castOf (data stored : TestResultData) : Prop :=
  cast TString (userId data) = inl (userId stored)
  /\ truthy (userId stored) = true
  /\ cast TDate (testDate data) = inl (testDate stored)
  /\ cast TNumberArray (maleComputer (results data))
     = inl (maleComputer (results stored))
  /\ cast TNumberArray (femaleSkincare (results data))
     = inl (femaleSkincare (results stored))
  /\ cast TNumberArray (femaleComputer (results data))
     = inl (femaleComputer (results stored))
  /\ cast TNumberArray (maleSkincare (results data))
     = inl (maleSkincare (results stored))
  /\ cast TNumber (dScore (analysis data)) = inl (dScore (analysis stored))
  /\ cast TString (biasType (analysis data)) = inl (biasType (analysis stored))
  /\ cast TString (biasLevel (analysis data)) = inl (biasLevel (analysis stored))
  /\ cast TString (biasDirection (analysis data))
     = inl (biasDirection (analysis stored))
  /\ cast TNumber (d1Score (analysis data)) = inl (d1Score (analysis stored))
  /\ cast TNumber (d2Score (analysis data)) = inl (d2Score (analysis stored))
  /\ cast TNumber (d3Score (analysis data)) = inl (d3Score (analysis stored))
  /\ cast TNumber (d4Score (analysis data)) = inl (d4Score (analysis stored))
  /\ surveyResponses stored = surveyResponses data
  /\ deviceInfo stored = deviceInfo data.

(** Data whose every path already has the type the schema declares. *)
Definition isStringValue (v : JSValue) : Prop :=
  exists s, v = JStr s.

Definition isNumberArray (v : JSValue) : Prop :=
  exists items, v = JArr items /\ forallb isNumberValue items = true.

Definition wellTyped (data : TestResultData) : Prop :=
  (exists s, userId data = JStr s /\ s <> "")
  /\ (exists t, testDate data = JDate (Some t))
  /\ isNumberArray (maleComputer (results data))
  /\ isNumberArray (femaleSkincare (results data))
  /\ isNumberArray (femaleComputer (results data))
  /\ isNumberArray (maleSkincare (results data))
  /\ isNumberValue (dScore (analysis data)) = true
  /\ (biasType (analysis data) = JNull \/ isStringValue (biasType (analysis data)))
  /\ isStringValue (biasLevel (analysis data))
  /\ isStringValue (biasDirection (analysis data))
  /\ isNumberValue (d1Score (analysis data)) = true
  /\ isNumberValue (d2Score (analysis data)) = true
  /\ isNumberValue (d3Score (analysis data)) = true
  /\ isNumberValue (d4Score (analysis data)) = true.

(** The document has the identifier [id], whatever the case in which the
    two are spelled. *)
Definition hasId (id : string) (d : Doc) : bool :=
  String.eqb (canonical (doc_id d)) (canonical id).

(** The document has the identifier [id] that the constructor has drawn:
    the test of the unique index on [_id] at an insert.  The identifiers the
    constructor draws are compared as the driver prints them, which is with
    the letters in lower case. *)
Definition hasDrawnId (id : string) (d : Doc) : bool :=
  String.eqb (doc_id d) id.

(** The document a successful save writes: identifier drawn by the
    constructor, both timestamps set at the write. *)
Definition newDoc (env : Env) (stored : TestResultData) : Doc :=
  mkDoc (newId env) stored (writeTime env) (writeTime env).

(** [new TestResult(data).save()]: validation first; then the insert, which
    a storage fault or an identifier already in the collection rejects. *)
Definition save (env : Env) (data : TestResultData) : M Doc :=
  fun st =>
    match validate data with
    | inr errors => (Throw (ValidationError errors), st)
    | inl stored =>
        match fault env SaveOp with
        | Some e => (Throw e, st)
        | None =>
            if existsb (hasDrawnId (newId env)) st
            then (Throw (DuplicateKeyError (newId env)), st)
            else (Normal (newDoc env stored), (st ++ [newDoc env stored])%list)
        end
    end.

(** [TestResult.findById(oid)] on an identifier object. *)
Definition findByObjectId (env : Env) (op : DbOp) (id : string) : M (option Doc) :=
  fun st =>
    match fault env op with
    | Some e => (Throw e, st)
    | None => (Normal (List.find (hasId id) st), st)
    end.

(** The cast of a string of the request to the identifier type of the
    schema: 24 hexadecimal digits are an identifier; a string of fewer than
    twelve bytes is none; the driver decides the rest. *)
Definition castId (id : string) : option string :=
  if isObjectIdString id then Some id
  else if (12 <=? String.length id)%nat then castIdOther id
  else None.

(** [TestResult.findById(s)] on a string of the request.  Mongoose casts
    the [_id] condition before it queries: when the cast fails, the query
    rejects with a cast error instead of resolving with [null]. *)
Definition findById (env : Env) (id : string) : M (option Doc) :=
  match castId id with
  | Some oid => findByObjectId env FindByIdOp oid
  | None => throw (CastError (idCastMessage id))
  end.

(** The condition [{ userId: s }] for a string [s]. *)
Definition ofUser (s : string) (d : Doc) : bool :=
  match userId (doc_data d) with
  | JStr s' => String.eqb s' s
  | _ => false
  end.


(** The documents a filter selects: all of them for the empty filter, those
    of a user for a string condition on [userId]. *)
Definition condition (filterUserId : option JSValue) : (Doc -> bool) + string :=
  match filterUserId with
  | None => inl (fun _ => true)
  | Some (JStr s) => inl (ofUser s)
  | Some other => conditionOther other
  end.

(** Whether [a] comes before [b] in the answer of a query sorted by
    [{ createdAt: -1 }]: the newer document first, and of two documents of
    equal [createdAt] the one the database ranks first for this query. *)
Definition precedes (rank : Doc -> Z) (a b : Doc) : bool :=
  (createdAt b <? createdAt a)
  || ((createdAt b =? createdAt a) && (rank a <=? rank b)).

(** [sort({ createdAt: -1 })], by insertion. *)
Fixpoint insertDesc (rank : Doc -> Z) (d : Doc) (l : list Doc) : list Doc :=
  match l with
  | [] => [d]
  | x :: rest =>
      if precedes rank d x then d :: l else x :: insertDesc rank d rest
  end.

Definition sortDesc (rank : Doc -> Z) (l : list Doc) : list Doc :=
  fold_right (insertDesc rank) [] l.

(** [n < 0] *)
Definition isNegative (n : number) : bool :=
  match n with
  | Num q => Qnum q <? 0
  | NegInf => true
  | NaN | PosInf => false
  end.

(** [skip(s).limit(l)]: the database rejects a negative [skip]. *)
Definition window (s l : number) (docs : list Doc) : list Doc + string :=
  match num_to_nat s, num_to_nat l with
  | Some s', Some (S l') => inl (firstn (S l') (skipn s' docs))
  | _, _ =>
      if isNegative s then inr "Skip value must be non-negative"
      else windowOther s l docs
  end.

(** [TestResult.find(filter).sort({createdAt: -1}).skip(s).limit(l)] *)
Definition find (env : Env) (filterUserId : option JSValue) (s l : number)
  : M (list Doc) :=
  fun st =>
    match fault env FindOp with
    | Some e => (Throw e, st)
    | None =>
        match condition filterUserId with
        | inr msg => (Throw (CastError msg), st)
        | inl selects =>
            match window s l (sortDesc (tieRank env) (filter selects st)) with
            | inr msg => (Throw (QueryError msg), st)
            | inl page => (Normal page, st)
            end
        end
    end.

(** [TestResult.countDocuments(filter)] *)
Definition countDocuments (env : Env) (filterUserId : option JSValue) : M Z :=
  fun st =>
    match fault env CountOp with
    | Some e => (Throw e, st)
    | None =>
        match condition filterUserId with
        | inr msg => (Throw (CastError msg), st)
        | inl selects => (Normal (Z.of_nat (List.length (filter selects st))), st)
        end
    end.

(** The condition [{ createdAt: { $gte: since } }]. *)
Definition createdSince (since : Z) (d : Doc) : bool := since <=? createdAt d.

(** [TestResult.countDocuments({ createdAt: { $gte: since } })] *)
Definition countSince (env : Env) (since : Z) : M Z :=
  fun st =>
    match fault env CountSinceOp with
    | Some e => (Throw e, st)
    | None => (Normal (Z.of_nat (List.length (filter (createdSince since) st))), st)
    end.

End Operations.

(** The JSON of a document. *)
Definition resultsJSON (r : ResultsData) : JSValue :=
  JObj [("maleComputer", maleComputer r); ("femaleSkincare", femaleSkincare r);
        ("femaleComputer", femaleComputer r); ("maleSkincare", maleSkincare r)].

Definition analysisJSON (a : AnalysisData) : JSValue :=
  JObj [("dScore", dScore a); ("biasType", biasType a);
        ("biasLevel", biasLevel a); ("biasDirection", biasDirection a);
        ("d1Score", d1Score a); ("d2Score", d2Score a);
        ("d3Score", d3Score a); ("d4Score", d4Score a)].

(** The schema option [minimize], which is on by default: an object without
    properties is neither stored nor serialised, and so for the objects
    inside an object; a property that is undefined is left out.  [None] is
    the value that is left out. *)
Fixpoint minimize (v : JSValue) : option JSValue :=
  match v with
  | JUndefined => None
  | JObj fields =>
      let fix properties (fs : list (string * JSValue)) : list (string * JSValue) :=
        match fs with
        | [] => []
        | (k, x) :: rest =>
            match minimize x with
            | Some y => (k, y) :: properties rest
            | None => properties rest
            end
        end in
      match properties fields with
      | [] => None
      | kept => Some (JObj kept)
      end
  | other => Some other
  end.

(** A path of mixed type in the JSON of a document. *)
Definition mixedField (k : string) (v : JSValue) : list (string * JSValue) :=
  match minimize v with
  | Some w => [(k, w)]
  | None => []
  end.

Definition docFields (d : Doc) : list (string * JSValue) :=
  let data := doc_data d in
  ([("_id", JStr (doc_id d)); ("userId", userId data);
    ("testDate", testDate data); ("results", resultsJSON (results data));
    ("analysis", analysisJSON (analysis data))]
   ++ mixedField "surveyResponses" (surveyResponses data)
   ++ mixedField "deviceInfo" (deviceInfo data)
   ++ [("createdAt", JDate (Some (createdAt d)));
       ("updatedAt", JDate (Some (updatedAt d))); ("__v", JInt 0)])%list.

Definition toJSON (d : Doc) : JSValue := JObj (docFields d).

(** The names of the four result sequences and of the numeric analysis
    paths. *)
Definition resultNames : list string :=
  ["maleComputer"; "femaleSkincare"; "femaleComputer"; "maleSkincare"].

Definition scoreNames : list string :=
  ["dScore"; "d1Score"; "d2Score"; "d3Score"; "d4Score"].

Definition analysisNames : list string :=
  ["dScore"; "biasType"; "biasLevel"; "biasDirection";
   "d1Score"; "d2Score"; "d3Score"; "d4Score"].

(** A path of a stored document, by its names. *)
Definition resultOf (d : Doc) (name : string) : JSValue :=
  getProp (resultsJSON (results (doc_data d))) name.

Definition analysisOf (d : Doc) (name : string) : JSValue :=
  getProp (analysisJSON (analysis (doc_data d))) name.

(** [select('-surveyResponses -deviceInfo')]: the document without the
    excluded paths. *)
Definition excluded (k : string) : bool :=
  String.eqb k "surveyResponses" || String.eqb k "deviceInfo".

Definition selected (d : Doc) : JSValue :=
  JObj (filter (fun kv => negb (excluded (fst kv))) (docFields d)).

End TestResult.

(* ================================================================== *)
(** ** HTTP responses *)
(* ================================================================== *)

Module Http.

(** What [res.status(code).json(payload)] sends; [res.json(payload)] sends
    it with status 200. *)
Record Response : Type := mkResponse {
  status : Z;
  body : JSValue
}.

Definition json (payload : JSValue) : Response := mkResponse 200 payload.

(** The [data] of a response body. *)
Definition recordOf (r : Response) : JSValue := getProp (body r) "data".

(** The [error] code of a response body. *)
Definition errorCode (r : Response) : JSValue := getProp (body r) "error".

(** [v === 11000] *)
Definition is11000 (v : JSValue) : bool :=
  match v with
  | JNum (Num q) => Qeq_bool q (inject_Z 11000)
  | _ => false
  end.

(** Destructuring [const { ... } = v] throws on [null] and [undefined]. *)
Definition destructure {S} (v : JSValue) : Eff S unit :=
  if isNullish v then throw (TypeError "Cannot destructure property of undefined or null")
  else ret tt.

(** The destructuring default [{ k = dflt }]: used when the property is
    [undefined]. *)
Definition withDefault (v dflt : JSValue) : JSValue :=
  match v with JUndefined => dflt | _ => v end.

Section Shared.
Context {B : Builtins}.

(** Expressions the two routers have in common. *)

(** [Number(v) || 0] *)
Definition numberOrZero {S} (v : JSValue) : Eff S JSValue :=
  n <- liftOption (ToNumber v) (TypeError "Cannot convert object to primitive value") ;;
  ret (JNum (orZero n)).

(** [testDate ? new Date(testDate) : new Date()] *)
Definition dateOrNow {S} (env : Env) (testDate : JSValue) : Eff S JSValue :=
  if truthy testDate
  then liftOption (newDate testDate) (TypeError "Cannot convert object to primitive value")
  else ret (JDate (Some (now env))).

Definition created (savedResult : Doc) : Response :=
  mkResponse 201
    (JObj [("success", JBool true);
           ("message", JStr "測試結果儲存成功");
           ("data", JObj [("id", JStr (doc_id savedResult));
                          ("userId", userId (doc_data savedResult));
                          ("testDate", testDate (doc_data savedResult));
                          ("createdAt", JDate (Some (createdAt savedResult)))])]).

Definition toNumber {S} (v : JSValue) : Eff S number :=
  liftOption (ToNumber v) (TypeError "Cannot convert object to primitive value").

End Shared.

End Http.
Export Http.

(* ================================================================== *)
(** ** The permissive router (routes/testResults.ts) *)
(* ================================================================== *)

Module Permissive.

(** The callback of the four filters:
    [(time) => typeof time === 'number' && time > 0]. *)
Definition isPositiveTime (time : JSValue) : bool :=
  match time with
  | JNum n => num_gt0 n
  | _ => false
  end.

(** [v.filter(p)]: only an array has the method. *)
Definition callFilter {S} (v : JSValue) (p : JSValue -> bool) : Eff S JSValue :=
  match v with
  | JArr items => ret (JArr (filter p items))
  | _ => throw (TypeError "filter is not a function")
  end.

Definition noBiasLabel : string := "無或極弱偏見".

Section Router.
Context {B : Builtins} {D : Driver}.

(** The object literal [const testResultData = { ... }]. *)
Definition testResultData (env : Env) (reqBody : JSValue) : Eff unit TestResultData :=
  let userId := getProp reqBody "userId" in
  let testDate := getProp reqBody "testDate" in
  let results := getProp reqBody "results" in
  let analysis := getProp reqBody "analysis" in
  let surveyResponses := getProp reqBody "surveyResponses" in
  let deviceInfo := getProp reqBody "deviceInfo" in
  date <- dateOrNow env testDate ;;
  mc <- callFilter (or_else (optChain results "maleComputer") (JArr [])) isPositiveTime ;;
  fs <- callFilter (or_else (optChain results "femaleSkincare") (JArr [])) isPositiveTime ;;
  fc <- callFilter (or_else (optChain results "femaleComputer") (JArr [])) isPositiveTime ;;
  ms <- callFilter (or_else (optChain results "maleSkincare") (JArr [])) isPositiveTime ;;
  ds <- numberOrZero (optChain analysis "dScore") ;;
  let bt := or_else (optChain analysis "biasType") JNull in
  let bl := or_else (optChain analysis "biasLevel") (JStr noBiasLabel) in
  let bd := or_else (optChain analysis "biasDirection") (JStr "") in
  d1 <- numberOrZero (optChain analysis "d1Score") ;;
  d2 <- numberOrZero (optChain analysis "d2Score") ;;
  d3 <- numberOrZero (optChain analysis "d3Score") ;;
  d4 <- numberOrZero (optChain analysis "d4Score") ;;
  ret (mkData userId date
         (mkResults mc fs fc ms)
         (mkAnalysis ds bt bl bd d1 d2 d3 d4)
         (or_else surveyResponses (JObj []))
         (or_else deviceInfo (JObj []))).

Definition notConnected (env : Env) : Response :=
  mkResponse 503
    (JObj [("success", JBool false);
           ("message", JStr "MongoDB Atlas 未連接");
           ("error", JStr "DATABASE_NOT_CONNECTED");
           ("connectionState", JInt (readyState env))]).

Definition missingUserId : Response :=
  mkResponse 400
    (JObj [("success", JBool false);
           ("message", JStr "缺少用戶 ID");
           ("error", JStr "MISSING_USER_ID")]).

(** The [try] block of [router.post('/')]. *)
Definition postTry (env : Env) (reqBody : JSValue) : M Response :=
  if negb (readyState env =? 1) then ret (notConnected env)
  else
    destructure reqBody ;;;
    if negb (truthy (getProp reqBody "userId")) then ret missingUserId
    else
      data <- pure (testResultData env reqBody) ;;
      savedResult <- TestResult.save env data ;;
      tryCatch (TestResult.findByObjectId env VerifyOp (doc_id savedResult) ;;; ret tt)
               (fun verifyError => ret tt) ;;;
      ret (created savedResult).

(** [details] of the validation answer:
    [Object.keys(error.errors || {}).map(key => ({ field: key, message:
    error.errors[key]?.message || 'Unknown validation error' }))]. *)
Definition validationDetails (error : JSError) : JSValue :=
  JArr (map (fun key =>
               JObj [("field", JStr key);
                     ("message",
                      or_else (optChain (getProp (err_errors error) key) "message")
                              (JStr "Unknown validation error"))])
            (Object_keys (or_else (err_errors error) (JObj [])))).

(** The answer of the [catch] block of [router.post('/')]. *)
Definition errorResponse (env : Env) (error : JSError) : Response :=
  if String.eqb (err_name error) "ValidationError" then
    mkResponse 400
      (JObj [("success", JBool false);
             ("message", JStr "資料驗證失敗");
             ("error", JStr "VALIDATION_ERROR");
             ("details", validationDetails error)])
  else if is11000 (err_code error) then
    mkResponse 409
      (JObj [("success", JBool false);
             ("message", JStr "重複的測試記錄");
             ("error", JStr "DUPLICATE_ENTRY");
             ("details", err_keyValue error)])
  else if String.eqb (err_name error) "MongoNetworkError"
          || String.eqb (err_name error) "MongooseServerSelectionError" then
    mkResponse 503
      (JObj [("success", JBool false);
             ("message", JStr "MongoDB Atlas 連接失敗");
             ("error", JStr "ATLAS_CONNECTION_ERROR")])
  else
    mkResponse 500
      (JObj [("success", JBool false);
             ("message", JStr "儲存失敗");
             ("error", JStr "ATLAS_SAVE_ERROR");
             ("details",
              if development env
              then JObj [("message", JStr (err_message error));
                         ("name", JStr (err_name error));
                         ("code", err_code error)]
              else JStr "Internal server error")]).

(** The [catch] block of [router.post('/')]. *)
Definition postCatch (env : Env) (error : JSError) : M Response :=
  ret (errorResponse env error).

(** [router.post('/')] *)
Definition post (env : Env) (reqBody : JSValue) : M Response :=
  tryCatch (postTry env reqBody) (postCatch env).

Definition queryError : Response :=
  mkResponse 500
    (JObj [("success", JBool false);
           ("message", JStr "查詢失敗");
           ("error", JStr "QUERY_ERROR")]).

Definition listed (results : list Doc) (numPage numLimit : number) (total : Z)
  : Response :=
  json
    (JObj [("success", JBool true);
           ("data", JArr (map TestResult.selected results));
           ("pagination",
            JObj [("page", JNum numPage);
                  ("limit", JNum numLimit);
                  ("total", JInt total);
                  ("pages", JNum (Math_ceil (num_div (num_of_Z total) numLimit)))])]).

(** The [try] block of [router.get('/')]. *)
Definition getListTry (env : Env) (query : JSValue) : M Response :=
  let page := withDefault (getProp query "page") (JInt 1) in
  let limit := withDefault (getProp query "limit") (JInt 20) in
  let userId := getProp query "userId" in
  let filter := if truthy userId then Some userId else None in
  numPage <- toNumber page ;;
  numLimit <- toNumber limit ;;
  let skip := num_mul (num_sub numPage (num_of_Z 1)) numLimit in
  results <- TestResult.find env filter skip numLimit ;;
  total <- TestResult.countDocuments env filter ;;
  ret (listed results numPage numLimit total).

(** [router.get('/')] *)
Definition getList (env : Env) (query : JSValue) : M Response :=
  tryCatch (getListTry env query) (fun error => ret queryError).

Definition notFound : Response :=
  mkResponse 404
    (JObj [("success", JBool false);
           ("message", JStr "找不到指定的測試結果")]).

Definition found (d : Doc) : Response :=
  json (JObj [("success", JBool true); ("data", TestResult.toJSON d)]).

(** The [try] block of [router.get('/:id')]. *)
Definition getByIdTry (env : Env) (id : string) : M Response :=
  result <- TestResult.findById env id ;;
  match result with
  | None => ret notFound
  | Some d => ret (found d)
  end.

(** [router.get('/:id')] *)
Definition getById (env : Env) (id : string) : M Response :=
  tryCatch (getByIdTry env id) (fun error => ret queryError).

Definition counted (total todayCount : Z) : Response :=
  json
    (JObj [("success", JBool true);
           ("data", JObj [("total", JInt total); ("today", JInt todayCount)])]).

(** The [try] block of [router.get('/count/all')]. *)
Definition countAllTry (env : Env) : M Response :=
  total <- TestResult.countDocuments env None ;;
  let today := startOfDay (now env) in
  todayCount <- TestResult.countSince env today ;;
  ret (counted total todayCount).

(** [router.get('/count/all')] *)
Definition statsError : Response :=
  mkResponse 500
    (JObj [("success", JBool false);
           ("message", JStr "統計查詢失敗");
           ("error", JStr "STATS_ERROR")]).

Definition countAll (env : Env) : M Response :=
  tryCatch (countAllTry env) (fun error => ret statsError).

(** Create requests served one after the other, each in its own
    environment. *)
Fixpoint createAll (requests : list (Env * JSValue)) : M (list Response) :=
  match requests with
  | [] => ret []
  | (env, reqBody) :: rest =>
      r <- post env reqBody ;;
      rs <- createAll rest ;;
      ret (r :: rs)
  end.

(** What the object literal [testResultData] holds when its evaluation
    completes, path by path. *)
Definition filtered (results : JSValue) (name : string) (value : JSValue) : Prop :=
  exists items,
    or_else (optChain results name) (JArr []) = JArr items
    /\ value = JArr (filter isPositiveTime items).

Definition coerced (analysis : JSValue) (name : string) (value : JSValue) : Prop :=
  exists n,
    ToNumber (optChain analysis name) = Some n /\ value = JNum (orZero n).

Definition dated (env : Env) (given value : JSValue) : Prop :=
  (truthy given = false /\ value = JDate (Some (now env)))
  \/ (truthy given = true
      /\ exists t, DateFromValue given = Some t /\ value = JDate t).

Definition prepared (env : Env) (reqBody : JSValue) (data : TestResultData) : Prop :=
  userId data = getProp reqBody "userId"
  /\ dated env (getProp reqBody "testDate") (testDate data)
  /\ filtered (getProp reqBody "results") "maleComputer" (maleComputer (results data))
  /\ filtered (getProp reqBody "results") "femaleSkincare" (femaleSkincare (results data))
  /\ filtered (getProp reqBody "results") "femaleComputer" (femaleComputer (results data))
  /\ filtered (getProp reqBody "results") "maleSkincare" (maleSkincare (results data))
  /\ coerced (getProp reqBody "analysis") "dScore" (dScore (analysis data))
  /\ biasType (analysis data)
     = or_else (optChain (getProp reqBody "analysis") "biasType") JNull
  /\ biasLevel (analysis data)
     = or_else (optChain (getProp reqBody "analysis") "biasLevel") (JStr noBiasLabel)
  /\ biasDirection (analysis data)
     = or_else (optChain (getProp reqBody "analysis") "biasDirection") (JStr "")
  /\ coerced (getProp reqBody "analysis") "d1Score" (d1Score (analysis data))
  /\ coerced (getProp reqBody "analysis") "d2Score" (d2Score (analysis data))
  /\ coerced (getProp reqBody "analysis") "d3Score" (d3Score (analysis data))
  /\ coerced (getProp reqBody "analysis") "d4Score" (d4Score (analysis data))
  /\ surveyResponses data = or_else (getProp reqBody "surveyResponses") (JObj [])
  /\ deviceInfo data = or_else (getProp reqBody "deviceInfo") (JObj []).

(** A payload the object literal is evaluated for without exception: a
    [testDate] that is absent or converts to a valid date, result fields that
    are each absent or an array, scores whose coercion does not throw.
    Absent means falsy; [results] and [analysis] themselves may be absent or
    may be any value. *)
Definition preparable (reqBody : JSValue) : Prop :=
  (truthy (getProp reqBody "testDate") = false
   \/ exists t, DateFromValue (getProp reqBody "testDate") = Some (Some t))
  /\ (forall name, In name TestResult.resultNames ->
        truthy (optChain (getProp reqBody "results") name) = false
        \/ Array_isArray (optChain (getProp reqBody "results") name) = true)
  /\ (forall name, In name TestResult.scoreNames ->
        exists n, ToNumber (optChain (getProp reqBody "analysis") name) = Some n).

(** A shape the handler accepts whatever else the payload holds: a
    preparable payload with a non-empty string [userId] and labels that are
    absent or strings. *)
Definition acceptable (reqBody : JSValue) : Prop :=
  (exists s, getProp reqBody "userId" = JStr s /\ s <> "")
  /\ preparable reqBody
  /\ (forall name, In name ["biasType"; "biasLevel"; "biasDirection"] ->
        truthy (optChain (getProp reqBody "analysis") name) = false
        \/ exists s, optChain (getProp reqBody "analysis") name = JStr s).

(** A valid payload: a non-empty string [userId]; [results] with four
    sequences of positive numbers; an [analysis] object whose scores, when
    given, are numbers, whose [biasType], when given, is a string or null,
    and whose [biasLevel] and [biasDirection], when given, are strings; a
    [testDate] that is absent or a valid date. *)
Definition validPayload (reqBody : JSValue) : Prop :=
  (exists s, getProp reqBody "userId" = JStr s /\ s <> "")
  /\ (truthy (getProp reqBody "testDate") = false
      \/ exists t, DateFromValue (getProp reqBody "testDate") = Some (Some t))
  /\ (forall name, In name TestResult.resultNames ->
        exists items,
          getProp (getProp reqBody "results") name = JArr items
          /\ forallb isPositiveTime items = true)
  /\ (exists fields, getProp reqBody "analysis" = JObj fields)
  /\ (forall name, In name TestResult.scoreNames ->
        getProp (getProp reqBody "analysis") name = JUndefined
        \/ TestResult.isNumberValue (getProp (getProp reqBody "analysis") name) = true)
  /\ (getProp (getProp reqBody "analysis") "biasType" = JUndefined
      \/ getProp (getProp reqBody "analysis") "biasType" = JNull
      \/ TestResult.isStringValue (getProp (getProp reqBody "analysis") "biasType"))
  /\ (forall name, In name ["biasLevel"; "biasDirection"] ->
        getProp (getProp reqBody "analysis") name = JUndefined
        \/ TestResult.isStringValue (getProp (getProp reqBody "analysis") name)).

(** The labels [biasType] and [biasLevel] are not the empty string. *)
Definition nonEmptyLabels (reqBody : JSValue) : Prop :=
  getProp (getProp reqBody "analysis") "biasType" <> JStr ""
  /\ getProp (getProp reqBody "analysis") "biasLevel" <> JStr "".

End Router.

(** The sequence a payload submits under a name of [results]: the array
    found there; the empty sequence when there is none. *)
Definition submittedSequence (reqBody : JSValue) (name : string) : list JSValue :=
  match optChain (getProp reqBody "results") name with
  | JArr items => items
  | _ => []
  end.

End Permissive.

(* ================================================================== *)
(** ** The server entry point *)
(* ================================================================== *)

Module Server.

Inductive Method : Type := GET | POST | PUT | DELETE | OPTIONS | HEAD | PATCH.

(** A request: the method, the segments of the path (the texts between the
    slashes, none of them empty), the parsed query string and the parsed
    body. *)
Record Request : Type := mkRequest {
  method : Method;
  path : list string;
  query : JSValue;
  reqBody : JSValue
}.

(** [express.json({ limit: '10mb' })]: the largest body, in bytes, that the
    parser reads; the handlers see the bodies it has read. *)
Definition bodyLimit : Z := 10 * 1024 * 1024.

(** A route without a handler for [HEAD] answers a [HEAD] request with its
    handler for [GET]. *)
Definition routed (m : Method) : Method :=
  match m with
  | HEAD => GET
  | other => other
  end.

(** Routes match whatever the case of the letters (the setting
    ['case sensitive routing'] is off unless switched on). *)
Definition lowerCase (c : ascii) : ascii :=
  let n := nat_of_ascii c in
  if ((65 <=? n) && (n <=? 90))%nat then ascii_of_nat (n + 32) else c.

Fixpoint lower (s : string) : string :=
  match s with
  | EmptyString => EmptyString
  | String c rest => String (lowerCase c) (lower rest)
  end.

Section App.
Context {B : Builtins} {D : Driver}.

(** [import testResultRoutes from './routes/testResults']: the routes the
    permissive router registers, in order: [post('/')], [get('/')],
    [get('/:id')], [get('/count/all')].  The argument is the path below the
    mount point; the parameter [id] is the segment as the request spells
    it. *)
Definition testResultRoutes (env : Env) (req : Request) (below : list string)
  : option (M Response) :=
  match routed (method req), below with
  | POST, [] => Some (Permissive.post env (reqBody req))
  | GET, [] => Some (Permissive.getList env (query req))
  | GET, [id] => Some (Permissive.getById env id)
  | GET, [first; second] =>
      if String.eqb (lower first) "count" && String.eqb (lower second) "all"
      then Some (Permissive.countAll env)
      else None
  | _, _ => None
  end.

(** The handlers of the application that sit outside the router. *)
Inductive AppHandler : Type :=
| TestAtlas | TestDb | ApiRoot | Health | NotFound.

(** The route table of the application, in registration order:
    [get('/api/test-atlas')], [get('/api/test-db')],
    [use('/api/test-results', testResultRoutes)], [get('/api')],
    [get('/api/health')], [use('*')].  The answer is the handler of the
    router when the router takes the request, and the name of the handler of
    the application otherwise. *)
Definition app (env : Env) (req : Request) : M Response + AppHandler :=
  match routed (method req), map lower (path req) with
  | GET, ["api"; "test-atlas"] => inr TestAtlas
  | GET, ["api"; "test-db"] => inr TestDb
  | _, "api" :: "test-results" :: _ =>
      match testResultRoutes env req (skipn 2 (path req)) with
      | Some handler => inl handler
      | None => inr NotFound
      end
  | GET, ["api"] => inr ApiRoot
  | GET, ["api"; "health"] => inr Health
  | _, _ => inr NotFound
  end.

(** The create endpoint as deployed: [POST /api/test-results]. *)
Definition createRequest (payload : JSValue) : Request :=
  mkRequest POST ["api"; "test-results"] (JObj []) payload.

End App.

(** *** The handlers of the application *)

(** A document of one of the two collections the probes write: the
    identifier the driver draws, and the object inserted. *)
Record ProbeDoc : Type := mkProbe {
  probe_id : string;
  probe_data : JSValue
}.

Inductive Collection : Type := AtlasConnectionTest | ConnectionTest.

(** The database: the collection of the model, and the collections
    ['atlas_connection_test'] and ['connection_test']. *)
Record Database : Type := mkDatabase {
  testresults : Store;
  atlas_connection_test : list ProbeDoc;
  connection_test : list ProbeDoc
}.

(** The driver operations the probes await. *)
Inductive ProbeOp : Type := InsertOneOp | FindOneOp | DeleteOneOp.

(** What the handlers of the application read besides [Env]:
    [mongoose.connection.db] by its [databaseName] ([None] when it is
    undefined), [mongoose.connection.host] and [.name], the identifier the
    driver draws for an inserted document, the faults that strike the driver
    operations, [process.uptime()] and [new Date().toISOString()]. *)
Record Process : Type := mkProcess {
  connection_db : option string;
  connection_host : JSValue;
  connection_name : JSValue;
  insertedId : string;
  probeFault : ProbeOp -> option JSError;
  uptime : number;
  isoNow : string
}.

(** Handler code of the application: reads and writes the database, may
    throw. *)
Definition E (A : Type) : Type := Eff Database A.

Definition cluster : string := "huihui0.ps2xz32.mongodb.net".

Definition docsOf (c : Collection) (d : Database) : list ProbeDoc :=
  match c with
  | AtlasConnectionTest => atlas_connection_test d
  | ConnectionTest => connection_test d
  end.

Definition withDocs (c : Collection) (docs : list ProbeDoc) (d : Database) : Database :=
  match c with
  | AtlasConnectionTest => mkDatabase (testresults d) docs (connection_test d)
  | ConnectionTest => mkDatabase (testresults d) (atlas_connection_test d) docs
  end.

(** The filter [{ _id: id }]. *)
Definition hasProbeId (id : JSValue) (p : ProbeDoc) : bool :=
  match id with
  | JStr s => String.eqb (probe_id p) s
  | _ => false
  end.

(** [collection(c).insertOne(doc)]: the driver draws an identifier and
    appends the document; a fault or an identifier already in the collection
    rejects.  The value is [insertResult.insertedId]. *)
Definition insertOne (proc : Process) (c : Collection) (doc : JSValue) : E string :=
  fun d =>
    match probeFault proc InsertOneOp with
    | Some e => (Throw e, d)
    | None =>
        if existsb (hasProbeId (JStr (insertedId proc))) (docsOf c d)
        then (Throw (TestResult.DuplicateKeyError (insertedId proc)), d)
        else (Normal (insertedId proc),
              withDocs c (docsOf c d ++ [mkProbe (insertedId proc) doc])%list d)
    end.

(** [collection(c).findOne({ _id: id })] *)
Definition findOne (proc : Process) (c : Collection) (id : JSValue)
  : E (option ProbeDoc) :=
  fun d =>
    match probeFault proc FindOneOp with
    | Some e => (Throw e, d)
    | None => (Normal (List.find (hasProbeId id) (docsOf c d)), d)
    end.

(** The collection without the first document a filter selects. *)
Fixpoint removeFirst (selects : ProbeDoc -> bool) (docs : list ProbeDoc)
  : list ProbeDoc :=
  match docs with
  | [] => []
  | p :: rest => if selects p then rest else p :: removeFirst selects rest
  end.

(** [collection(c).deleteOne({ _id: id })] *)
Definition deleteOne (proc : Process) (c : Collection) (id : JSValue) : E unit :=
  fun d =>
    match probeFault proc DeleteOneOp with
    | Some e => (Throw e, d)
    | None => (Normal tt, withDocs c (removeFirst (hasProbeId id) (docsOf c d)) d)
    end.

(** [mongoose.connection.db?.collection(c).op(...)]: [undefined], and no
    call, when [db] is undefined. *)
Definition whenDb {A} (proc : Process) (m : E A) : E (option A) :=
  match connection_db proc with
  | None => ret None
  | Some _ => a <- m ;; ret (Some a)
  end.

(** [o?.k] on a value that may be undefined. *)
Definition undefinedOr {A} (inj : A -> JSValue) (o : option A) : JSValue :=
  match o with
  | Some a => inj a
  | None => JUndefined
  end.

Definition databaseNotConnected (isConnected : bool) : Response :=
  mkResponse 500
    (JObj [("success", JBool false);
           ("message", JStr "資料庫未連接");
           ("connectionState", JBool isConnected)]).

(** The answer of [get('/api/test-atlas')] when the three operations
    complete. *)
Definition atlasTested (proc : Process) (isConnected : bool)
  (insertResult : option string) (readResult : option (option ProbeDoc)) : Response :=
  json
    (JObj [("success", JBool true);
           ("message", JStr "MongoDB Atlas 連接正常，讀寫測試成功");
           ("database", undefinedOr JStr (connection_db proc));
           ("cluster", JStr cluster);
           ("connectionState", JBool isConnected);
           ("testInsertId", undefinedOr JStr insertResult);
           ("testReadSuccess",
            JBool match readResult with Some (Some _) => true | _ => false end);
           ("timestamp", JStr (isoNow proc))]).

(** The [try] block of [get('/api/test-atlas')]. *)
Definition testAtlasTry (env : Env) (proc : Process) : E Response :=
  let isConnected := readyState env =? 1 in
  if negb isConnected then ret (databaseNotConnected isConnected)
  else
    let testData :=
      JObj [("test", JBool true);
            ("timestamp", JDate (Some (now env)));
            ("message", JStr "MongoDB Atlas connection test");
            ("server", JStr cluster)] in
    insertResult <- whenDb proc (insertOne proc AtlasConnectionTest testData) ;;
    readResult <-
      whenDb proc (findOne proc AtlasConnectionTest (undefinedOr JStr insertResult)) ;;
    whenDb proc (deleteOne proc AtlasConnectionTest (undefinedOr JStr insertResult)) ;;;
    ret (atlasTested proc isConnected insertResult readResult).

Definition atlasTestFailed (env : Env) (error : JSError) : Response :=
  mkResponse 500
    (JObj [("success", JBool false);
           ("message", JStr "MongoDB Atlas 測試失敗");
           ("error", JStr (err_message error));
           ("connectionState", JInt (readyState env))]).

(** [app.get('/api/test-atlas')] *)
Definition testAtlas (env : Env) (proc : Process) : E Response :=
  tryCatch (testAtlasTry env proc) (fun error => ret (atlasTestFailed env error)).

Definition dbTested (proc : Process) (isConnected : bool) : Response :=
  json
    (JObj [("success", JBool true);
           ("message", JStr "資料庫連接正常，可以正常讀寫");
           ("database", undefinedOr JStr (connection_db proc));
           ("connectionState", JBool isConnected);
           ("timestamp", JStr (isoNow proc))]).

(** The [try] block of [get('/api/test-db')]. *)
Definition testDbTry (env : Env) (proc : Process) : E Response :=
  let isConnected := readyState env =? 1 in
  if isConnected then
    let testData :=
      JObj [("test", JBool true);
            ("timestamp", JDate (Some (now env)));
            ("message", JStr "Database connection test")] in
    whenDb proc (insertOne proc ConnectionTest testData) ;;;
    ret (dbTested proc isConnected)
  else ret (databaseNotConnected isConnected).

Definition dbTestFailed (error : JSError) : Response :=
  mkResponse 500
    (JObj [("success", JBool false);
           ("message", JStr "資料庫測試失敗");
           ("error", JStr (err_message error))]).

(** [app.get('/api/test-db')] *)
Definition testDb (env : Env) (proc : Process) : E Response :=
  tryCatch (testDbTry env proc) (fun error => ret (dbTestFailed error)).

(** [mongoose.connection.db?.databaseName || '未知'] *)
Definition dbNameOrUnknown (proc : Process) : JSValue :=
  or_else (undefinedOr JStr (connection_db proc)) (JStr "未知").

(** [app.get('/api')] *)
Definition apiRoot (env : Env) (proc : Process) : Response :=
  json
    (JObj [("message", JStr "性別與商品偏見測試 API 正常運作中");
           ("timestamp", JStr (isoNow proc));
           ("database", JStr (if readyState env =? 1 then "已連接" else "未連接"));
           ("databaseName", dbNameOrUnknown proc);
           ("cluster", JStr ("MongoDB Atlas - " ++ cluster))]).

(** [app.get('/api/health')] *)
Definition health (env : Env) (proc : Process) : Response :=
  json
    (JObj [("status", JStr "OK");
           ("database", JStr (if readyState env =? 1 then "正常" else "異常"));
           ("databaseName", dbNameOrUnknown proc);
           ("cluster", JStr cluster);
           ("uptime", JNum (uptime proc));
           ("timestamp", JStr (isoNow proc));
           ("mongodb",
            JObj [("readyState", JInt (readyState env));
                  ("host", connection_host proc);
                  ("name", connection_name proc)])]).

(** [app.use('*')]: the answer to a request no route takes. *)
Definition notFoundHandler (originalUrl : string) : Response :=
  mkResponse 404
    (JObj [("message", JStr "找不到請求的資源");
           ("path", JStr originalUrl)]).

(** A handler of the router, run on the collection of the model. *)
Definition onStore {A} (m : M A) : E A :=
  fun d =>
    (fst (m (testresults d)),
     mkDatabase (snd (m (testresults d)))
       (atlas_connection_test d) (connection_test d)).

Section Serve.
Context {B : Builtins} {D : Driver}.

(** The handler the route table selects, run on the database. *)
Definition route (env : Env) (proc : Process) (originalUrl : string) (req : Request)
  : E Response :=
  match app env req with
  | inl handler => onStore handler
  | inr TestAtlas => testAtlas env proc
  | inr TestDb => testDb env proc
  | inr ApiRoot => ret (apiRoot env proc)
  | inr Health => ret (health env proc)
  | inr NotFound => ret (notFoundHandler originalUrl)
  end.

(** [app.use(cors({ ... }))], registered before every route: the middleware
    ends an [OPTIONS] request itself, with status 204 and no body, and passes
    any other request on. *)
Definition corsPreflight : Response := mkResponse 204 JUndefined.

(** The answer of the application to a request whose body has been
    parsed. *)
Definition serve (env : Env) (proc : Process) (originalUrl : string) (req : Request)
  : E Response :=
  match method req with
  | OPTIONS => ret corsPreflight
  | _ => route env proc originalUrl req
  end.

End Serve.

(** *** The connection string in the log *)

(** Strings of printable ASCII characters, as a connection string is. *)
Definition printable (s : string) : bool :=
  forallb (fun c => (32 <=? nat_of_ascii c)%nat && (nat_of_ascii c <? 127)%nat)
          (list_ascii_of_string s).

(** A string without the character [c]. *)
Definition lacks (c : ascii) (s : string) : bool :=
  forallb (fun x => negb (Ascii.eqb x c)) (list_ascii_of_string s).

(** A line terminator, which [.] does not match. *)
Definition isLineTerminator (c : ascii) : bool :=
  (nat_of_ascii c =? 10)%nat || (nat_of_ascii c =? 13)%nat.

(** Greedy [.*] followed by the rest [k] of the pattern: the longest run of
    characters other than line terminators after which [k] matches.  The
    value is what is left of the string after the whole match. *)
Fixpoint dotStar (s : string) (k : string -> option string) : option string :=
  match s with
  | EmptyString => k s
  | String c rest =>
      if isLineTerminator c then k s
      else match dotStar rest k with
           | Some remainder => Some remainder
           | None => k s
           end
  end.

(** The pattern from a position on: [@], [:.*@], [//.*:.*@]. *)
Definition atSign (s : string) : option string :=
  match s with
  | String c rest => if Ascii.eqb c "@" then Some rest else None
  | EmptyString => None
  end.

Definition colonOn (s : string) : option string :=
  match s with
  | String c rest => if Ascii.eqb c ":" then dotStar rest atSign else None
  | EmptyString => None
  end.

(** A match of [/\/\/.*:.*@/] at the start of [s]: what follows the match. *)
Definition matchHere (s : string) : option string :=
  match s with
  | String a (String b rest) =>
      if Ascii.eqb a "/" && Ascii.eqb b "/" then dotStar rest colonOn else None
  | _ => None
  end.

(** [MONGO_URI.replace(/\/\/.*:.*@/, '//*****:*****@')]: the leftmost match
    replaced, the string as it is when there is none. *)
Fixpoint maskCredentials (s : string) : string :=
  match matchHere s with
  | Some remainder => "//*****:*****@" ++ remainder
  | None =>
      match s with
      | EmptyString => EmptyString
      | String c rest => String c (maskCredentials rest)
      end
  end.

End Server.

(* ================================================================== *)
(** ** The strict router (models/TestResult.ts) *)
(* ================================================================== *)

Module Strict.

Definition requiredArrays : list string :=
  ["maleComputer"; "femaleSkincare"; "femaleComputer"; "maleSkincare"].

(** The loop [for (const arrayName of requiredArrays)]: the first name
    whose property of [results] is not an array, where the loop answers. *)
Definition firstNonArray (results : JSValue) : option string :=
  find (fun arrayName => negb (Array_isArray (getProp results arrayName)))
       requiredArrays.

Definition invalidStructure (arrayName : string) : Response :=
  mkResponse 400
    (JObj [("success", JBool false);
           ("message", JStr ("測試結果中的 " ++ arrayName ++ " 必須是陣列"));
           ("error", JStr "INVALID_RESULTS_STRUCTURE")]).

Definition badRequest (message code : string) : Response :=
  mkResponse 400
    (JObj [("success", JBool false);
           ("message", JStr message);
           ("error", JStr code)]).

Section Router.
Context {B : Builtins} {D : Driver}.

(** [import TestResult from '../models/TestResult'] (line 2): seen from
    the directory of this file, [models], the path names this file.  The
    [TestResult] of the handlers is therefore the default export of this
    module, the router, and no Mongoose model: called as a constructor it
    throws, and it has no method [find], [findById] or [countDocuments]; the
    handlers use it through [(TestResult as any)]. *)

(** [new (TestResult as any)(testResultData)] followed by [.save()]: the
    router, called as a constructor, dispatches its argument as a request;
    the argument has no [url], and the dispatch ends with a call of the
    callback [out], which is undefined.  The exception is a [TypeError];
    [save] is not reached and nothing is written. *)
Definition model_save (env : Env) (data : TestResultData) : M Doc :=
  throw (TypeError "Cannot read properties of undefined (reading 'apply')").

(** [(TestResult as any).name(...)] for a name the router does not have. *)
Definition notAFunction {A} (name : string) : M A :=
  throw (TypeError ("TestResult." ++ name ++ " is not a function")).

(** [(TestResult as any).findById(savedResult._id)] *)
Definition model_findById (env : Env) (op : DbOp) (id : string) : M (option Doc) :=
  notAFunction "findById".

(** The object literal [const testResultData: TestResultData = { ... }]. *)
Definition testResultData (env : Env) (reqBody : JSValue) : Eff unit TestResultData :=
  let userId := getProp reqBody "userId" in
  let testDate := getProp reqBody "testDate" in
  let results := getProp reqBody "results" in
  let analysis := getProp reqBody "analysis" in
  let surveyResponses := getProp reqBody "surveyResponses" in
  let deviceInfo := getProp reqBody "deviceInfo" in
  date <- dateOrNow env testDate ;;
  let mc := or_else (getProp results "maleComputer") (JArr []) in
  let fs := or_else (getProp results "femaleSkincare") (JArr []) in
  let fc := or_else (getProp results "femaleComputer") (JArr []) in
  let ms := or_else (getProp results "maleSkincare") (JArr []) in
  ds <- numberOrZero (getProp analysis "dScore") ;;
  let bt := or_else (getProp analysis "biasType") JNull in
  let bl := or_else (getProp analysis "biasLevel") (JStr "") in
  let bd := or_else (getProp analysis "biasDirection") (JStr "") in
  d1 <- numberOrZero (getProp analysis "d1Score") ;;
  d2 <- numberOrZero (getProp analysis "d2Score") ;;
  d3 <- numberOrZero (getProp analysis "d3Score") ;;
  d4 <- numberOrZero (getProp analysis "d4Score") ;;
  ret (mkData userId date
         (mkResults mc fs fc ms)
         (mkAnalysis ds bt bl bd d1 d2 d3 d4)
         (or_else surveyResponses (JObj []))
         (or_else deviceInfo (JObj []))).

(** The [try] block of [router.post('/')].  The handler is stated over the
    runtime and the driver as that of the permissive router is, though with
    this import no operation of the driver is reached. *)
#[using="B D"]
Definition postTry (env : Env) (reqBody : JSValue) : M Response :=
  destructure reqBody ;;;
  let userId := getProp reqBody "userId" in
  let results := getProp reqBody "results" in
  let analysis := getProp reqBody "analysis" in
  if negb (truthy userId) then
    ret (badRequest "缺少用戶 ID" "MISSING_USER_ID")
  else if negb (truthy results) then
    ret (badRequest "缺少測試結果" "MISSING_RESULTS")
  else if negb (truthy analysis) then
    ret (badRequest "缺少分析資料" "MISSING_ANALYSIS")
  else
    match firstNonArray results with
    | Some arrayName => ret (invalidStructure arrayName)
    | None =>
        data <- pure (testResultData env reqBody) ;;
        savedResult <- model_save env data ;;
        verifyResult <- model_findById env VerifyOp (doc_id savedResult) ;;
        ret (created savedResult)
    end.

(** [Object.keys(error.errors).map(key => ({ field: key, message:
    error.errors[key].message }))]: throws when [error.errors] or one of its
    entries is [null] or [undefined] ([error.errors] is an object when the
    driver sets it). *)
Fixpoint detailEntries (fields : list (string * JSValue)) : M (list JSValue) :=
  match fields with
  | [] => ret []
  | (key, entry) :: rest =>
      (if isNullish entry
       then throw (TypeError "Cannot read properties of undefined (reading 'message')")
       else ret tt) ;;;
      others <- detailEntries rest ;;
      ret (JObj [("field", JStr key); ("message", getProp entry "message")] :: others)
  end.

Definition validationDetails (error : JSError) : M JSValue :=
  match err_errors error with
  | JUndefined | JNull =>
      throw (TypeError "Cannot convert undefined or null to object")
  | JObj fields => entries <- detailEntries fields ;; ret (JArr entries)
  | _ => ret (JArr [])
  end.

(** The [catch] block of [router.post('/')]. *)
Definition postCatch (env : Env) (error : JSError) : M Response :=
  if is11000 (err_code error) then
    ret (mkResponse 409
           (JObj [("success", JBool false);
                  ("message", JStr "重複的測試記錄");
                  ("error", JStr "DUPLICATE_ENTRY");
                  ("details", err_keyValue error)]))
  else if String.eqb (err_name error) "ValidationError" then
    details <- validationDetails error ;;
    ret (mkResponse 400
           (JObj [("success", JBool false);
                  ("message", JStr "資料驗證失敗");
                  ("error", JStr "VALIDATION_ERROR");
                  ("details", details)]))
  else if String.eqb (err_name error) "MongoNetworkError"
          || String.eqb (err_name error) "MongooseServerSelectionError" then
    ret (mkResponse 503
           (JObj [("success", JBool false);
                  ("message", JStr "MongoDB Atlas 連接失敗");
                  ("error", JStr "ATLAS_CONNECTION_ERROR")]))
  else
    ret (mkResponse 500
           (JObj [("success", JBool false);
                  ("message", JStr "伺服器內部錯誤");
                  ("error", JStr "INTERNAL_SERVER_ERROR");
                  ("details",
                   if development env then JStr (err_message error) else JUndefined)])).

(** [router.post('/')] *)
#[using="B D"]
Definition post (env : Env) (reqBody : JSValue) : M Response :=
  tryCatch (postTry env reqBody) (postCatch env).

(** What the object literal [testResultData] holds when its evaluation
    completes, path by path. *)
Definition coerced (analysis : JSValue) (name : string) (value : JSValue) : Prop :=
  exists n,
    ToNumber (getProp analysis name) = Some n /\ value = JNum (orZero n).

Definition prepared (env : Env) (reqBody : JSValue) (data : TestResultData) : Prop :=
  userId data = getProp reqBody "userId"
  /\ Permissive.dated env (getProp reqBody "testDate") (testDate data)
  /\ maleComputer (results data)
     = or_else (getProp (getProp reqBody "results") "maleComputer") (JArr [])
  /\ femaleSkincare (results data)
     = or_else (getProp (getProp reqBody "results") "femaleSkincare") (JArr [])
  /\ femaleComputer (results data)
     = or_else (getProp (getProp reqBody "results") "femaleComputer") (JArr [])
  /\ maleSkincare (results data)
     = or_else (getProp (getProp reqBody "results") "maleSkincare") (JArr [])
  /\ coerced (getProp reqBody "analysis") "dScore" (dScore (analysis data))
  /\ biasType (analysis data)
     = or_else (getProp (getProp reqBody "analysis") "biasType") JNull
  /\ biasLevel (analysis data)
     = or_else (getProp (getProp reqBody "analysis") "biasLevel") (JStr "")
  /\ biasDirection (analysis data)
     = or_else (getProp (getProp reqBody "analysis") "biasDirection") (JStr "")
  /\ coerced (getProp reqBody "analysis") "d1Score" (d1Score (analysis data))
  /\ coerced (getProp reqBody "analysis") "d2Score" (d2Score (analysis data))
  /\ coerced (getProp reqBody "analysis") "d3Score" (d3Score (analysis data))
  /\ coerced (getProp reqBody "analysis") "d4Score" (d4Score (analysis data))
  /\ surveyResponses data = or_else (getProp reqBody "surveyResponses") (JObj [])
  /\ deviceInfo data = or_else (getProp reqBody "deviceInfo") (JObj []).

(** The queries the three read handlers call on [TestResult], which is the
    router: none of them is a function. *)
Definition model_find (env : Env) (filter : option JSValue) (skip limit : number)
  : M (list Doc) :=
  notAFunction "find".

Definition model_countDocuments (env : Env) (filter : option JSValue) : M Z :=
  notAFunction "countDocuments".

Definition model_countSince (env : Env) (since : Z) : M Z :=
  notAFunction "countDocuments".

Definition model_findByIdString (env : Env) (id : string) : M (option Doc) :=
  notAFunction "findById".

(** The answer of the [catch] block of the three read handlers:
    [error: NODE_ENV === 'development' ? error.message :
    'INTERNAL_SERVER_ERROR']. *)
Definition internalError (env : Env) (error : JSError) : Response :=
  mkResponse 500
    (JObj [("success", JBool false);
           ("message", JStr "伺服器內部錯誤");
           ("error",
            if development env then JStr (err_message error)
            else JStr "INTERNAL_SERVER_ERROR")]).

(** The [try] block of [router.get('/')]; the body of the answer is the
    literal of the permissive router. *)
Definition getListTry (env : Env) (query : JSValue) : M Response :=
  let page := withDefault (getProp query "page") (JInt 1) in
  let limit := withDefault (getProp query "limit") (JInt 20) in
  let userId := getProp query "userId" in
  let filter := if truthy userId then Some userId else None in
  numPage <- toNumber page ;;
  numLimit <- toNumber limit ;;
  let skip := num_mul (num_sub numPage (num_of_Z 1)) numLimit in
  results <- model_find env filter skip numLimit ;;
  total <- model_countDocuments env filter ;;
  ret (Permissive.listed results numPage numLimit total).

(** [router.get('/')] *)
Definition getList (env : Env) (query : JSValue) : M Response :=
  tryCatch (getListTry env query) (fun error => ret (internalError env error)).

(** The [try] block of [router.get('/:id')]. *)
Definition getByIdTry (env : Env) (id : string) : M Response :=
  result <- model_findByIdString env id ;;
  match result with
  | None => ret Permissive.notFound
  | Some d => ret (Permissive.found d)
  end.

(** [router.get('/:id')] *)
Definition getById (env : Env) (id : string) : M Response :=
  tryCatch (getByIdTry env id) (fun error => ret (internalError env error)).

(** The [try] block of [router.get('/count/all')]. *)
Definition countAllTry (env : Env) : M Response :=
  total <- model_countDocuments env None ;;
  let today := startOfDay (now env) in
  todayCount <- model_countSince env today ;;
  ret (Permissive.counted total todayCount).

(** [router.get('/count/all')] *)
Definition countAll (env : Env) : M Response :=
  tryCatch (countAllTry env) (fun error => ret (internalError env error)).

End Router.

End Strict.

(* ================================================================== *)
(** ** The submission client (frontend/src/utils/api.ts) *)
(* ================================================================== *)

Module Client.

Definition API_BASE_URL : string := "http://localhost:5000/api".

(** A request handed to [fetch]. *)
Record FetchRequest : Type := mkFetch {
  fetch_method : string;
  fetch_url : string;
  fetch_body : option string
}.

(** What [fetch] resolves with. *)
Record FetchResponse : Type := mkFetchResponse {
  resp_status : Z;
  resp_statusText : string;
  resp_text : string
}.

(** [response.ok] *)
Definition resp_ok (r : FetchResponse) : bool :=
  (200 <=? resp_status r) && (resp_status r <=? 299).

(** The outcome of [fetch]: rejected with a [TypeError] of the given message
    when no response arrives, fulfilled with the response otherwise. *)
Inductive FetchResult : Type :=
| Rejected (message : string)
| Fulfilled (r : FetchResponse).

(** What the browser provides: the network, the identifier
    [`user_${Date.now()}_${Math.random()...}`] that would be generated, the
    device metadata and the current time as an ISO string. *)
Record Browser : Type := mkBrowser {
  network : FetchRequest -> FetchResult;
  generatedUserId : string;
  deviceInfo : JSValue;
  isoNow : string
}.

(** What the client changes: the requests issued so far, oldest first, and
    the [userId] entry of [localStorage]. *)
Record ClientState : Type := mkClientState {
  requests : list FetchRequest;
  localStorage_userId : option string
}.

Definition C (A : Type) : Type := Eff ClientState A.

(** The parameter [data] of [saveTestResults]. *)
Record TestResults : Type := mkTestResults {
  maleComputer : list number;
  femaleSkincare : list number;
  femaleComputer : list number;
  maleSkincare : list number
}.

Record TestResultData : Type := mkTestResultData {
  testResults : TestResults;
  dScore : number;
  biasType : option string;
  biasLevel : string;
  biasDirection : option string;
  d1Score : option number;
  d2Score : option number;
  d3Score : option number;
  d4Score : option number;
  surveyResponses : option JSValue
}.

Definition optional {A} (inj : A -> JSValue) (o : option A) : JSValue :=
  match o with
  | Some a => inj a
  | None => JUndefined
  end.

Definition numbers (l : list number) : JSValue := JArr (map JNum l).

Definition ErrorOf (msg : string) : JSError :=
  mkError "Error" JUndefined msg JUndefined JUndefined.

Definition SyntaxError (msg : string) : JSError :=
  mkError "SyntaxError" JUndefined msg JUndefined JUndefined.

(** [s.includes(needle)] *)
Definition includes (needle s : string) : bool :=
  match String.index 0 needle s with
  | Some _ => true
  | None => false
  end.

(** [`${n}`] for an integer. *)
Definition showStatus (n : Z) : string :=
  DecimalString.NilZero.string_of_int (Z.to_int n).

Definition healthUnreachable : string :=
  "後端 API 服務無法連接，請確認伺服器是否在 http://localhost:5000 運行".

Definition atlasUnreachable : string :=
  "MongoDB Atlas 無法連接，請檢查：" ++ String (ascii_of_nat 10) "• 網路連接"
  ++ String (ascii_of_nat 10) "• Atlas IP 白名單設定"
  ++ String (ascii_of_nat 10) "• 叢集狀態".

Definition networkFailure : string :=
  "網路連接失敗，請檢查：" ++ String (ascii_of_nat 10)
    "• 後端伺服器是否在 http://localhost:5000 運行"
  ++ String (ascii_of_nat 10) "• 本地網路連接是否正常".

Section Api.
Context {B : Builtins}.
Variable browser : Browser.

(** [await fetch(url, { method, body })] *)
Definition fetch (req : FetchRequest) : C FetchResponse :=
  fun st =>
    let st' := mkClientState (requests st ++ [req])%list (localStorage_userId st) in
    match network browser req with
    | Rejected msg => (Throw (TypeError msg), st')
    | Fulfilled r => (Normal r, st')
    end.

(** [await response.json()] *)
Definition responseJson (r : FetchResponse) : C JSValue :=
  liftOption (JSON_parse (resp_text r)) (SyntaxError "Unexpected token in JSON").

Definition healthRequest : FetchRequest :=
  mkFetch "GET" (API_BASE_URL ++ "/health") None.

Definition atlasRequest : FetchRequest :=
  mkFetch "GET" (API_BASE_URL ++ "/test-atlas") None.

Definition createRequest (payload : JSValue) : FetchRequest :=
  mkFetch "POST" (API_BASE_URL ++ "/test-results") (Some (JSON_stringify payload)).

(** [testAtlasConnection()] *)
Definition testAtlasConnection : C bool :=
  tryCatch
    (response <- fetch atlasRequest ;;
     if resp_ok response then
       result <- responseJson response ;;
       getPropChecked result "database" ;;;
       getPropChecked result "cluster" ;;;
       ret true
     else ret false)
    (fun error => ret false).

(** [checkApiHealth()] *)
Definition checkApiHealth : C bool :=
  tryCatch
    (response <- fetch healthRequest ;;
     if resp_ok response then
       result <- responseJson response ;;
       ret true
     else ret false)
    (fun error => ret false).

(** The user identifier: the one [localStorage] holds, or a generated one
    that is then stored. *)
Definition getOrCreateUserId : C string :=
  fun st =>
    match localStorage_userId st with
    | Some u =>
        if truthy (JStr u) then (Normal u, st)
        else (Normal (generatedUserId browser),
              mkClientState (requests st) (Some (generatedUserId browser)))
    | None =>
        (Normal (generatedUserId browser),
         mkClientState (requests st) (Some (generatedUserId browser)))
    end.

Definition buildPayload (userId : string) (data : TestResultData) : JSValue :=
  JObj [("userId", JStr userId);
        ("testDate", JStr (isoNow browser));
        ("results",
         JObj [("maleComputer", numbers (maleComputer (testResults data)));
               ("femaleSkincare", numbers (femaleSkincare (testResults data)));
               ("femaleComputer", numbers (femaleComputer (testResults data)));
               ("maleSkincare", numbers (maleSkincare (testResults data)))]);
        ("analysis",
         JObj [("dScore", JNum (dScore data));
               ("biasType", match biasType data with Some s => JStr s | None => JNull end);
               ("biasLevel", JStr (biasLevel data));
               ("biasDirection", optional JStr (biasDirection data));
               ("d1Score", optional JNum (d1Score data));
               ("d2Score", optional JNum (d2Score data));
               ("d3Score", optional JNum (d3Score data));
               ("d4Score", optional JNum (d4Score data))]);
        ("surveyResponses",
         or_else (optional (fun v => v) (surveyResponses data)) (JObj []));
        ("deviceInfo", deviceInfo browser)].

(** [`${errorData.message || fallback}`] *)
Definition detail (errorData : JSValue) (fallback : string) : C string :=
  message <- getPropChecked errorData "message" ;;
  liftOption (ToString (or_else message (JStr fallback)))
             (TypeError "Cannot convert object to primitive value").

(** The error thrown for a response that is not [ok]. *)
Definition statusError (response : FetchResponse) (errorData : JSValue) : C string :=
  if resp_status response =? 400 then
    d <- detail errorData "請檢查資料格式" ;;
    ret ("資料驗證失敗: " ++ d)
  else if resp_status response =? 409 then
    d <- detail errorData "此測試結果已存在" ;;
    ret ("重複資料: " ++ d)
  else if resp_status response =? 503 then
    d <- detail errorData "MongoDB Atlas 服務不可用" ;;
    ret ("Atlas 連接失敗: " ++ d)
  else
    d <- detail errorData (resp_statusText response) ;;
    ret ("Atlas 儲存錯誤 (" ++ showStatus (resp_status response) ++ "): " ++ d).

(** The [try] block of [saveTestResults]. *)
Definition saveTry (data : TestResultData) : C JSValue :=
  userId <- getOrCreateUserId ;;
  let payload := buildPayload userId data in
  isApiHealthy <- checkApiHealth ;;
  if negb isApiHealthy then throw (ErrorOf healthUnreachable)
  else
    isAtlasConnected <- testAtlasConnection ;;
    if negb isAtlasConnected then throw (ErrorOf atlasUnreachable)
    else
      response <- fetch (createRequest payload) ;;
      if negb (resp_ok response) then
        let errorText := resp_text response in
        let errorData :=
          match JSON_parse errorText with
          | Some parsed => parsed
          | None => JObj [("message", JStr errorText)]
          end in
        msg <- statusError response errorData ;;
        throw (ErrorOf msg)
      else
        result <- responseJson response ;;
        getPropChecked result "success" ;;;
        ret result.

(** The [catch] block of [saveTestResults]. *)
Definition saveCatch (error : JSError) : C JSValue :=
  if String.eqb (err_name error) "TypeError" && includes "fetch" (err_message error)
  then throw (ErrorOf networkFailure)
  else throw (ErrorOf ("Atlas 儲存失敗: " ++ err_message error)).

(** [saveTestResults(data)] *)
Definition saveTestResults (data : TestResultData) : C JSValue :=
  tryCatch (saveTry data) saveCatch.

(** The state after one more request. *)
Definition sent (req : FetchRequest) (st : ClientState) : ClientState :=
  mkClientState (requests st ++ [req])%list (localStorage_userId st).

(** What the two probes return, read off the network. *)
Definition healthProbe : bool :=
  match network browser healthRequest with
  | Rejected _ => false
  | Fulfilled r =>
      resp_ok r && match JSON_parse (resp_text r) with
                   | Some _ => true
                   | None => false
                   end
  end.

Definition atlasProbe : bool :=
  match network browser atlasRequest with
  | Rejected _ => false
  | Fulfilled r =>
      resp_ok r && match JSON_parse (resp_text r) with
                   | Some v => negb (isNullish v)
                   | None => false
                   end
  end.

(** The user identifier the submission uses, and the payload it sends. *)
Definition userIdOf (st : ClientState) : string :=
  match localStorage_userId st with
  | Some u => if truthy (JStr u) then u else generatedUserId browser
  | None => generatedUserId browser
  end.

(** The body of an error response, as the client reads it:
    [JSON.parse(errorText)], or [{ message: errorText }] when that throws. *)
Definition errorDataOf (r : FetchResponse) : JSValue :=
  match JSON_parse (resp_text r) with
  | Some parsed => parsed
  | None => JObj [("message", JStr (resp_text r))]
  end.





Definition statsRequest : FetchRequest :=
  mkFetch "GET" (API_BASE_URL ++ "/test-results/count/all") None.

(** [getTestResultsStats()] *)
Definition getTestResultsStats : C JSValue :=
  tryCatch
    (response <- fetch statsRequest ;;
     if resp_ok response then
       result <- responseJson response ;;
       ret result
     else ret JNull)
    (fun error => ret JNull).

Definition rootRequest : FetchRequest := mkFetch "GET" API_BASE_URL None.

(** [debugAtlasConnection()] *)
Definition debugAtlasConnection : C unit :=
  tryCatch
    (apiResponse <- fetch rootRequest ;;
     if resp_ok apiResponse then
       apiData <- responseJson apiResponse ;;
       healthCheck <- checkApiHealth ;;
       if negb healthCheck then ret tt
       else
         atlasCheck <- testAtlasConnection ;;
         if negb atlasCheck then ret tt
         else
           stats <- getTestResultsStats ;;
           ret tt
     else ret tt)
    (fun error => ret tt).

(** What [getTestResultsStats] returns, read off the network. *)
Definition statsOf : JSValue :=
  match network browser statsRequest with
  | Rejected _ => JNull
  | Fulfilled r =>
      if resp_ok r then
        match JSON_parse (resp_text r) with
        | Some v => v
        | None => JNull
        end
      else JNull
  end.

(** Whether the first step of [debugAtlasConnection] passes. *)
Definition rootProbe : bool :=
  match network browser rootRequest with
  | Rejected _ => false
  | Fulfilled r =>
      resp_ok r && match JSON_parse (resp_text r) with
                   | Some _ => true
                   | None => false
                   end
  end.

(** The requests [debugAtlasConnection] issues, in order. *)
Definition debugIssued : list FetchRequest :=
  rootRequest
  :: (if rootProbe
      then healthRequest
           :: (if healthProbe
               then atlasRequest :: (if atlasProbe then [statsRequest] else [])
               else [])
      else []).

End Api.

End Client.

(* ================================================================== *)
(** ** The client in front of the server *)
(* ================================================================== *)

Module Deployment.

Section Wire.
Context {B : Builtins}.

(** What [fetch] resolves with for an answer of the server:
    [res.status(code).json(payload)] sends the status and
    [JSON.stringify(payload)]. *)
Definition wire (statusText : string) (r : Response) : Client.FetchResult :=
  Client.Fulfilled
    (Client.mkFetchResponse (status r) statusText (JSON_stringify (body r))).

(** A browser whose two probes reach the server: the answers it gets are
    those of [get('/api/health')] and [get('/api/test-atlas')]. *)
Definition probesReach (browser : Client.Browser)
  (env : Env) (proc : Server.Process) (d : Server.Database) : Prop :=
  (exists statusText,
     Client.network browser Client.healthRequest
     = wire statusText (Server.health env proc))
  /\ (exists statusText r d',
        Server.testAtlas env proc d = (Normal r, d')
        /\ Client.network browser Client.atlasRequest = wire statusText r).

(** [JSON.parse(JSON.stringify(v))]: what arrives of a value that is sent as
    JSON, as the create request sends its payload and [express.json()] reads
    it.  A number that is not finite arrives as [null], a date as the string
    its [toJSON] gives, an element of an array that is undefined as [null], a
    property that is undefined not at all.  [None] is the value that does not
    arrive. *)
Fixpoint arrives (v : JSValue) : option JSValue :=
  match v with
  | JUndefined => None
  | JNum (Num _) => Some v
  | JNum _ => Some JNull
  | JDate (Some t) => Some (JStr (Date_toJSON t))
  | JDate None => Some JNull
  | JArr items =>
      let fix elements (l : list JSValue) : list JSValue :=
        match l with
        | [] => []
        | x :: rest =>
            match arrives x with
            | Some y => y :: elements rest
            | None => JNull :: elements rest
            end
        end in
      Some (JArr (elements items))
  | JObj fields =>
      let fix properties (fs : list (string * JSValue)) : list (string * JSValue) :=
        match fs with
        | [] => []
        | (k, x) :: rest =>
            match arrives x with
            | Some y => (k, y) :: properties rest
            | None => properties rest
            end
        end in
      Some (JObj (properties fields))
  | other => Some other
  end.

(** The body of a request as the handler reads it; what has not arrived is
    [undefined] there. *)
Definition received (sent : JSValue) : JSValue :=
  match arrives sent with
  | Some body => body
  | None => JUndefined
  end.

(** [JSON.parse(JSON.stringify(o))] of an object is an object. *)
Definition objectsSurvive : Prop :=
  forall fields,
    exists fields', JSON_parse (JSON_stringify (JObj fields)) = Some (JObj fields').

End Wire.

End Deployment.

(* ================================================================== *)
(** ** A concrete runtime and driver, and the example of the specification *)
(* ================================================================== *)

Module Reference.

(** Decimal digits only. *)
Fixpoint digits (s : string) (acc : Z) : option Z :=
  match s with
  | EmptyString => Some acc
  | String c rest =>
      let n := nat_of_ascii c in
      if ((48 <=? n) && (n <=? 57))%nat
      then digits rest (10 * acc + Z.of_nat (n - 48))
      else None
  end.

(** A runtime in the UTC time zone that reads strings of decimal digits as
    numbers and any other string as NaN, numbers as dates, and parses the
    JSON texts [{}] and [null] only. *)
Definition runtime : Builtins := {|
  StringToNumber := fun s =>
    match digits s 0 with Some z => num_of_Z z | None => NaN end;
  ObjectToNumber := fun _ => Some NaN;
  DateFromValue := fun v =>
    match v with
    | JNum (Num q) => Some (Some (Qfloor q))
    | _ => Some None
    end;
  ToStringValue := fun _ => Some "[object Object]";
  startOfDay := fun t => t - t mod 86400000;
  JSON_parse := fun text =>
    if String.eqb text "{}" then Some (JObj [])
    else if String.eqb text "null" then Some JNull
    else None;
  JSON_stringify := fun _ => "{}";
  Date_toJSON := fun _ => "1970-01-01T00:00:00.000Z"
|}.

(** A driver that rejects whatever is left to it, and returns documents of
    equal [createdAt] in the order of their insertion. *)
Definition driver : Driver := {|
  castOther := fun _ _ => inr "Cast failed";
  conditionOther := fun _ => inr "Cast to string failed";
  windowOther := fun _ _ _ => inr "bad skip or limit";
  idCastMessage := fun _ => "Cast to ObjectId failed";
  castIdOther := fun _ => None;
  tieRank := fun _ _ => 0
|}.

(** A healthy environment: connected, no storage fault. *)
Definition healthy (id : string) (clock : Z) : Env :=
  mkEnv 1 clock clock id (fun _ => None) false.

Definition id1 : string := "65f0a1b2c3d4e5f6a7b8c9d0".
Definition id2 : string := "65f0a1b2c3d4e5f6a7b8c9d1".


(** The example payload of section 8 of the specification. *)
Definition examplePayload : JSValue :=
  JObj [("userId", JStr "u1");
        ("results",
         JObj [("maleComputer", JArr [JInt 500; JInt 620]);
               ("femaleSkincare", JArr [JInt 480]);
               ("femaleComputer", JArr []);
               ("maleSkincare", JArr [])]);
        ("analysis",
         JObj [("dScore", JNum (Num (35 # 100)));
               ("biasType", JStr "male-tech");
               ("biasLevel", JStr "weak")])].

(** The document the example payload leaves in the collection when the
    identifier [id1] is drawn at time 1000. *)
Definition exampleDoc : Doc :=
  mkDoc id1
    (mkData (JStr "u1") (JDate (Some 1000))
       (mkResults (JArr [JInt 500; JInt 620]) (JArr [JInt 480]) (JArr []) (JArr []))
       (mkAnalysis (JNum (Num (35 # 100))) (JStr "male-tech") (JStr "weak")
          (JStr "") (JInt 0) (JInt 0) (JInt 0) (JInt 0))
       (JObj []) (JObj []))
    1000 1000.

(** A payload with the four sequences and an analysis that gives no
    [biasLevel], no [biasType] and no score, and the document the permissive
    router stores for it. *)
Definition bareAnalysisPayload : JSValue :=
  JObj [("userId", JStr "u1");
        ("results",
         JObj [("maleComputer", JArr [JInt 500]);
               ("femaleSkincare", JArr []);
               ("femaleComputer", JArr []);
               ("maleSkincare", JArr [])]);
        ("analysis", JObj [("biasDirection", JStr "none")])].

Definition bareAnalysisDoc : Doc :=
  mkDoc id1
    (mkData (JStr "u1") (JDate (Some 1000))
       (mkResults (JArr [JInt 500]) (JArr []) (JArr []) (JArr []))
       (mkAnalysis (JInt 0) JNull (JStr Permissive.noBiasLabel) (JStr "none")
          (JInt 0) (JInt 0) (JInt 0) (JInt 0))
       (JObj []) (JObj []))
    1000 1000.

(** The example payload with an empty [biasLevel], and the document the
    permissive router stores for it. *)
Definition emptyLevelPayload : JSValue :=
  JObj [("userId", JStr "u1");
        ("results",
         JObj [("maleComputer", JArr [JInt 500; JInt 620]);
               ("femaleSkincare", JArr [JInt 480]);
               ("femaleComputer", JArr []);
               ("maleSkincare", JArr [])]);
        ("analysis",
         JObj [("dScore", JNum (Num (35 # 100)));
               ("biasType", JStr "male-tech");
               ("biasLevel", JStr "")])].

Definition emptyLevelDoc : Doc :=
  mkDoc id1
    (mkData (JStr "u1") (JDate (Some 1000))
       (mkResults (JArr [JInt 500; JInt 620]) (JArr [JInt 480]) (JArr []) (JArr []))
       (mkAnalysis (JNum (Num (35 # 100))) (JStr "male-tech")
          (JStr Permissive.noBiasLabel)
          (JStr "") (JInt 0) (JInt 0) (JInt 0) (JInt 0))
       (JObj []) (JObj []))
    1000 1000.

(** A payload whose [results.maleComputer] is a number. *)
Definition scalarResultPayload : JSValue :=
  JObj [("userId", JStr "u1");
        ("results", JObj [("maleComputer", JInt 5)])].

(** A payload with a [userId] and nothing else, and the document the
    permissive router stores for it. *)
Definition userOnlyPayload : JSValue := JObj [("userId", JStr "u1")].

Definition userOnlyDoc : Doc :=
  mkDoc id1
    (mkData (JStr "u1") (JDate (Some 1000))
       (mkResults (JArr []) (JArr []) (JArr []) (JArr []))
       (mkAnalysis (JInt 0) JNull (JStr Permissive.noBiasLabel) (JStr "")
          (JInt 0) (JInt 0) (JInt 0) (JInt 0))
       (JObj []) (JObj []))
    1000 1000.

(** A payload whose [results] lacks [maleSkincare]; the fields it has are
    arrays. *)
Definition threeArraysPayload : JSValue :=
  JObj [("userId", JStr "u1");
        ("results",
         JObj [("maleComputer", JArr [JInt 500; JInt 620]);
               ("femaleSkincare", JArr [JInt 480]);
               ("femaleComputer", JArr [])]);
        ("analysis",
         JObj [("dScore", JNum (Num (35 # 100)));
               ("biasType", JStr "male-tech");
               ("biasLevel", JStr "weak")])].

(** A browser whose network answers every request 200 with the body [{}],
    except the create request, which it answers 409 with the body [{}]. *)
Definition duplicateBrowser : Client.Browser :=
  Client.mkBrowser
    (fun req =>
       if String.eqb (Client.fetch_method req) "POST"
       then Client.Fulfilled (Client.mkFetchResponse 409 "Conflict" "{}")
       else Client.Fulfilled (Client.mkFetchResponse 200 "OK" "{}"))
    "user_1000_abc1234" (JObj []) "2024-01-01T00:00:00.000Z".

(** A browser whose network answers the health probe 200 and the storage
    probe 500. *)
Definition noStorageBrowser : Client.Browser :=
  Client.mkBrowser
    (fun req =>
       if String.eqb (Client.fetch_url req) (Client.API_BASE_URL ++ "/health")
       then Client.Fulfilled (Client.mkFetchResponse 200 "OK" "{}")
       else Client.Fulfilled (Client.mkFetchResponse 500 "Internal Server Error" "{}"))
    "user_1000_abc1234" (JObj []) "2024-01-01T00:00:00.000Z".

Definition exampleData : Client.TestResultData :=
  Client.mkTestResultData
    (Client.mkTestResults [num_of_Z 500; num_of_Z 620] [num_of_Z 480] [] [])
    (Num (35 # 100)) (Some "male-tech") "weak" None None None None None None.

(** The example data with an infinite time in the first sequence and an
    infinite score. *)
Definition nonFiniteData : Client.TestResultData :=
  Client.mkTestResultData
    (Client.mkTestResults [num_of_Z 500; PosInf] [num_of_Z 480] [] [])
    PosInf (Some "male-tech") "weak" None None None None None None.

Definition freshClient : Client.ClientState := Client.mkClientState [] None.

(** A browser whose network answers the two probes 200 and drops the create
    request. *)
Definition offlineBrowser : Client.Browser :=
  Client.mkBrowser
    (fun req =>
       if String.eqb (Client.fetch_method req) "POST"
       then Client.Rejected "Failed to fetch"
       else Client.Fulfilled (Client.mkFetchResponse 200 "OK" "{}"))
    "user_1000_abc1234" (JObj []) "2024-01-01T00:00:00.000Z".

(** An environment whose verification lookup meets a network error. *)
Definition networkError : JSError :=
  mkError "MongoNetworkError" JUndefined "connection closed" JUndefined JUndefined.

Definition verifyFails (id : string) (clock : Z) : Env :=
  mkEnv 1 clock clock id
    (fun op => match op with VerifyOp => Some networkError | _ => None end)
    false.



(** The runtime [runtime], which in addition reads the time stamp of the
    example browsers as a date. *)
Definition isoRuntime : Builtins := {|
  StringToNumber := StringToNumber (Builtins := runtime);
  ObjectToNumber := ObjectToNumber (Builtins := runtime);
  DateFromValue := fun v =>
    match v with
    | JStr s =>
        if String.eqb s "2024-01-01T00:00:00.000Z"
        then Some (Some 1704067200000)
        else Some None
    | other => DateFromValue (Builtins := runtime) other
    end;
  ToStringValue := ToStringValue (Builtins := runtime);
  startOfDay := startOfDay (Builtins := runtime);
  JSON_parse := JSON_parse (Builtins := runtime);
  JSON_stringify := JSON_stringify (Builtins := runtime);
  Date_toJSON := Date_toJSON (Builtins := runtime)
|}.

(** A process with a database handle and no fault, an empty database, and
    an environment whose connection is not ready. *)
Definition process : Server.Process :=
  Server.mkProcess (Some "gender-bias-test") (JStr Server.cluster)
    (JStr "gender-bias-test") "65f0a1b2c3d4e5f6a7b8c9e0" (fun _ => None)
    (num_of_Z 12) "2024-01-01T00:00:00.000Z".

Definition emptyDatabase : Server.Database := Server.mkDatabase [] [] [].

Definition disconnected : Env := mkEnv 0 1000 1000 id1 (fun _ => None) false.

(** A browser whose network answers the two probes 200 and the create
    request 201, each with the body [{}]. *)
Definition createdBrowser : Client.Browser :=
  Client.mkBrowser
    (fun req =>
       if String.eqb (Client.fetch_method req) "POST"
       then Client.Fulfilled (Client.mkFetchResponse 201 "Created" "{}")
       else Client.Fulfilled (Client.mkFetchResponse 200 "OK" "{}"))
    "user_1000_abc1234" (JObj []) "2024-01-01T00:00:00.000Z".

End Reference.

(* ================================================================== *)
(** * Properties *)
(* ================================================================== *)

(** ** Effectful code *)

Section EffFacts.
Context {S A B : Type}.

Lemma bind_normal (m : Eff S A) (k : A -> Eff S B) st a st1 :
  m st = (Normal a, st1) -> bind m k st = k a st1.
Proof. intros H. unfold bind. rewrite H. reflexivity. Qed.

Lemma bind_inv (m : Eff S A) (k : A -> Eff S B) st c st' :
  bind m k st = (c, st') ->
  (exists a st1, m st = (Normal a, st1) /\ k a st1 = (c, st'))
  \/ (exists e, m st = (Throw e, st') /\ c = Throw e).
Proof.
  unfold bind. destruct (m st) as [[a | e] st1]; intros H.
  - left. exists a, st1. split; [reflexivity | exact H].
  - right. exists e. inversion H; subst. split; reflexivity.
Qed.

Lemma bind_normal_inv (m : Eff S A) (k : A -> Eff S B) st b st' :
  bind m k st = (Normal b, st') ->
  exists a st1, m st = (Normal a, st1) /\ k a st1 = (Normal b, st').
Proof.
  intros H. apply bind_inv in H. destruct H as [H | [e [_ H]]].
  - exact H.
  - discriminate H.
Qed.

Lemma pure_fst (m : Eff unit A) (st : S) : pure m st = (fst (m tt), st).
Proof. reflexivity. Qed.

End EffFacts.

(** The steps of the object literal, when they complete. *)
Lemma callFilter_normal v p w (u u' : unit) :
  Permissive.callFilter v p u = (Normal w, u') ->
  exists items, v = JArr items /\ w = JArr (filter p items).
Proof.
  destruct v; simpl; intros H; try discriminate H.
  inversion H; subst. eexists; split; reflexivity.
Qed.

Lemma numberOrZero_normal {B : Builtins} v w (u u' : unit) :
  numberOrZero v u = (Normal w, u') ->
  exists n, ToNumber v = Some n /\ w = JNum (orZero n).
Proof.
  unfold numberOrZero, toNumber, liftOption, bind.
  destruct (ToNumber v) as [n |]; simpl; intros H; inversion H; subst.
  exists n. split; reflexivity.
Qed.

Lemma dateOrNow_normal {B : Builtins} env v w (u u' : unit) :
  dateOrNow env v u = (Normal w, u') ->
  (truthy v = false /\ w = JDate (Some (now env)))
  \/ (truthy v = true /\ exists t, DateFromValue v = Some t /\ w = JDate t).
Proof.
  unfold dateOrNow, newDate, liftOption.
  destruct (truthy v).
  - destruct (DateFromValue v) as [t |]; simpl; intros H; inversion H; subst.
    right. split; [reflexivity |]. exists t. split; reflexivity.
  - simpl. intros H. inversion H; subst. left. split; reflexivity.
Qed.

(** ** The model: validation and save *)

(** Reduce the projections of the data records, and nothing else. *)
Ltac data_proj :=
  cbn [userId testDate results analysis surveyResponses deviceInfo
       maleComputer femaleSkincare femaleComputer maleSkincare
       dScore biasType biasLevel biasDirection d1Score d2Score d3Score d4Score
       doc_id doc_data createdAt updatedAt] in *.

Section ModelFacts.
Context {D : Driver}.

Lemma castPath_ok path t v :
  snd (TestResult.castPath path t v) = [] ->
  TestResult.cast t v = inl (fst (TestResult.castPath path t v)).
Proof.
  unfold TestResult.castPath. destruct (TestResult.cast t v); simpl.
  - reflexivity.
  - discriminate.
Qed.

Lemma requiredString_ok path c :
  TestResult.requiredString path c = [] ->
  snd c = [] /\ truthy (fst c) = true.
Proof.
  unfold TestResult.requiredString. destruct c as [w [| e errs]]; simpl.
  - destruct (isNullish w || negb (truthy w)) eqn:E; [discriminate |].
    apply orb_false_elim in E. destruct E as [_ E].
    apply negb_false_iff in E. intros _. split; [reflexivity | exact E].
  - discriminate.
Qed.

Lemma validate_inl data stored :
  TestResult.validate data = inl stored -> TestResult.castOf data stored.
Proof.
  unfold TestResult.validate.
  match goal with
  | |- match ?errs with _ => _ end = _ -> _ => destruct errs eqn:E
  end; [| discriminate].
  intros H. inversion H; subst; clear H.
  repeat (apply app_eq_nil in E; let E1 := fresh "E" in destruct E as [E1 E]).
  apply requiredString_ok in E0. destruct E0 as [E0 T0].
  unfold TestResult.castOf; data_proj.
  repeat split; try (apply castPath_ok; assumption); assumption.
Qed.

Lemma save_cases env data st :
  (exists e, TestResult.save env data st = (Throw e, st))
  \/ (exists stored,
        TestResult.validate data = inl stored
        /\ fault env SaveOp = None
        /\ existsb (TestResult.hasDrawnId (newId env)) st = false
        /\ TestResult.save env data st
           = (Normal (TestResult.newDoc env stored),
              (st ++ [TestResult.newDoc env stored])%list)).
Proof.
  unfold TestResult.save.
  destruct (TestResult.validate data) as [stored | errors].
  - destruct (fault env SaveOp) as [e |].
    + left. eexists; reflexivity.
    + destruct (existsb (TestResult.hasDrawnId (newId env)) st) eqn:E.
      * left. eexists; reflexivity.
      * right. exists stored. repeat split; reflexivity.
  - left. eexists; reflexivity.
Qed.

(** An identifier that no document has, whatever the case, is none a
    document has as it is printed. *)
Lemma drawn_fresh id st :
  existsb (TestResult.hasId id) st = false ->
  existsb (TestResult.hasDrawnId id) st = false.
Proof.
  induction st as [| x st IH]; simpl; [reflexivity |].
  intros H. apply orb_false_elim in H. destruct H as [H1 H2].
  rewrite (IH H2), orb_false_r.
  unfold TestResult.hasDrawnId.
  destruct (String.eqb_spec (doc_id x) id) as [E | _]; [| reflexivity].
  unfold TestResult.hasId in H1. rewrite E, String.eqb_refl in H1.
  discriminate H1.
Qed.

End ModelFacts.

(** ** The permissive router: the outcomes of a create request *)

Section PermissiveFacts.
Context {B : Builtins} {D : Driver}.

Lemma verify_swallowed env id (st : Store) :
  tryCatch (TestResult.findByObjectId env VerifyOp id ;;; ret tt)
           (fun _ => ret tt) st = (Normal tt, st).
Proof.
  unfold tryCatch, bind, TestResult.findByObjectId.
  destruct (fault env VerifyOp); reflexivity.
Qed.

(** [router.post('/')] as one expression. *)
Lemma post_eq env payload st :
  Permissive.post env payload st =
  if negb (readyState env =? 1) then (Normal (Permissive.notConnected env), st)
  else if isNullish payload then
    (Normal (Permissive.errorResponse env
               (TypeError "Cannot destructure property of undefined or null")), st)
  else if negb (truthy (getProp payload "userId")) then
    (Normal Permissive.missingUserId, st)
  else
    match fst (Permissive.testResultData env payload tt) with
    | Throw e => (Normal (Permissive.errorResponse env e), st)
    | Normal data =>
        match TestResult.save env data st with
        | (Throw e, st') => (Normal (Permissive.errorResponse env e), st')
        | (Normal d, st') => (Normal (created d), st')
        end
    end.
Proof.
  unfold Permissive.post, Permissive.postCatch. unfold tryCatch at 1.
  unfold Permissive.postTry.
  destruct (negb (readyState env =? 1)); [reflexivity |].
  unfold bind at 1, destructure.
  destruct (isNullish payload); [reflexivity |]. cbn [ret].
  destruct (negb (truthy (getProp payload "userId"))); [reflexivity |].
  unfold bind at 1. rewrite pure_fst.
  destruct (fst (Permissive.testResultData env payload tt)) as [data | e];
    [| reflexivity].
  unfold bind at 1.
  destruct (TestResult.save env data st) as [[d | e] st']; [| reflexivity].
  unfold bind at 1. rewrite verify_swallowed. reflexivity.
Qed.

(** Every path through [router.post('/')]: the five ways it answers, with
    the collection it leaves. *)
Lemma post_cases env payload st :
  (readyState env <> 1
   /\ Permissive.post env payload st = (Normal (Permissive.notConnected env), st))
  \/ (readyState env = 1 /\ isNullish payload = true
      /\ exists e, Permissive.post env payload st
                   = (Normal (Permissive.errorResponse env e), st))
  \/ (readyState env = 1 /\ isNullish payload = false
      /\ truthy (getProp payload "userId") = false
      /\ Permissive.post env payload st = (Normal Permissive.missingUserId, st))
  \/ (readyState env = 1 /\ isNullish payload = false
      /\ truthy (getProp payload "userId") = true
      /\ ((exists e, fst (Permissive.testResultData env payload tt) = Throw e
                     /\ Permissive.post env payload st
                        = (Normal (Permissive.errorResponse env e), st))
          \/ (exists data,
                fst (Permissive.testResultData env payload tt) = Normal data
                /\ ((exists e, TestResult.save env data st = (Throw e, st)
                               /\ Permissive.post env payload st
                                  = (Normal (Permissive.errorResponse env e), st))
                    \/ (exists stored,
                          TestResult.validate data = inl stored
                          /\ fault env SaveOp = None
                          /\ existsb (TestResult.hasDrawnId (newId env)) st = false
                          /\ Permissive.post env payload st
                             = (Normal (created (TestResult.newDoc env stored)),
                                (st ++ [TestResult.newDoc env stored])%list)))))).
Proof.
  rewrite post_eq.
  destruct (Z.eqb_spec (readyState env) 1) as [R | R]; cbn [negb].
  2:{ left. split; [exact R | reflexivity]. }
  right.
  destruct (isNullish payload) eqn:N.
  { left. repeat split; try assumption. eexists. reflexivity. }
  right.
  destruct (truthy (getProp payload "userId")) eqn:U; cbn [negb].
  2:{ left. repeat split; try assumption. }
  right. repeat split; try assumption.
  destruct (fst (Permissive.testResultData env payload tt)) as [data | e].
  2:{ left. exists e. split; reflexivity. }
  right. exists data. split; [reflexivity |].
  destruct (save_cases env data st) as [[e Hs] | [stored [V [F [X Hs]]]]];
    rewrite Hs.
  - left. exists e. split; reflexivity.
  - right. exists stored. repeat split; assumption || reflexivity.
Qed.

Lemma errorResponse_code env e :
  errorCode (Permissive.errorResponse env e) = JStr "VALIDATION_ERROR"
  \/ errorCode (Permissive.errorResponse env e) = JStr "DUPLICATE_ENTRY"
  \/ errorCode (Permissive.errorResponse env e) = JStr "ATLAS_CONNECTION_ERROR"
  \/ errorCode (Permissive.errorResponse env e) = JStr "ATLAS_SAVE_ERROR".
Proof.
  unfold Permissive.errorResponse.
  destruct (String.eqb (err_name e) "ValidationError"); [left; reflexivity |].
  destruct (is11000 (err_code e)); [right; left; reflexivity |].
  destruct (String.eqb (err_name e) "MongoNetworkError"
            || String.eqb (err_name e) "MongooseServerSelectionError");
    [right; right; left; reflexivity | right; right; right; reflexivity].
Qed.


End PermissiveFacts.

(** ** The connection gate of the deployed create handler *)

(** C10. The permissive create handler tests the connection state before it
    looks at the payload: whenever the connection is not ready (readyState
    is not 1) it answers 503 with the error code DATABASE_NOT_CONNECTED and
    leaves the collection as it was, whatever the payload, a payload without
    userId included; with a ready connection a payload without userId is
    answered 400 MISSING_USER_ID; and an answer with the code
    MISSING_USER_ID only ever comes with a ready connection. *)
Theorem connection_gate_precedes_validation {B : Builtins} {D : Driver}
  (env : Env) (payload : JSValue) (st : Store) :
  (readyState env <> 1 ->
   Permissive.post env payload st = (Normal (Permissive.notConnected env), st)
   /\ status (Permissive.notConnected env) = 503
   /\ errorCode (Permissive.notConnected env) = JStr "DATABASE_NOT_CONNECTED")
  /\ (readyState env = 1 -> isNullish payload = false ->
      truthy (getProp payload "userId") = false ->
      Permissive.post env payload st = (Normal Permissive.missingUserId, st)
      /\ status Permissive.missingUserId = 400
      /\ errorCode Permissive.missingUserId = JStr "MISSING_USER_ID")
  /\ (forall r st',
        Permissive.post env payload st = (Normal r, st') ->
        errorCode r = JStr "MISSING_USER_ID" ->
        readyState env = 1 /\ status r = 400 /\ st' = st).
Proof.
  split; [| split].
  - intros R. rewrite post_eq.
    destruct (Z.eqb_spec (readyState env) 1) as [R' | _]; [contradiction |].
    repeat split.
  - intros R N U. rewrite post_eq, R, N, U. repeat split.
  - intros r st' H C.
    destruct (post_cases env payload st)
      as [[_ E] | [[_ [_ [e E]]] | [[R [_ [_ E]]] | [_ [_ [_ [[e [_ E]] | [data [_ [[e [_ E]] | [stored [_ [_ [_ E]]]]]]]]]]]]]];
      rewrite E in H; inversion H; subst; clear H.
    + discriminate C.
    + destruct (errorResponse_code env e) as [X | [X | [X | X]]];
        rewrite X in C; discriminate C.
    + repeat split. exact R.
    + destruct (errorResponse_code env e) as [X | [X | [X | X]]];
        rewrite X in C; discriminate C.
    + destruct (errorResponse_code env e) as [X | [X | [X | X]]];
        rewrite X in C; discriminate C.
    + discriminate C.
Qed.

Lemma connection_gate_witness :
  (Permissive.post (B := Reference.runtime) (D := Reference.driver)
     (mkEnv 0 1000 1000 Reference.id1 (fun _ => None) false) (JObj []) []
   = (Normal (Permissive.notConnected
                (mkEnv 0 1000 1000 Reference.id1 (fun _ => None) false)), [])
   /\ status (Permissive.notConnected
                (mkEnv 0 1000 1000 Reference.id1 (fun _ => None) false)) = 503
   /\ errorCode (Permissive.notConnected
                   (mkEnv 0 1000 1000 Reference.id1 (fun _ => None) false))
      = JStr "DATABASE_NOT_CONNECTED")
  /\ (Permissive.post (B := Reference.runtime) (D := Reference.driver)
        (Reference.healthy Reference.id1 1000) (JObj []) []
      = (Normal Permissive.missingUserId, [])
      /\ status Permissive.missingUserId = 400
      /\ errorCode Permissive.missingUserId = JStr "MISSING_USER_ID").
Proof.
  split.
  - apply (proj1 (connection_gate_precedes_validation
                    (B := Reference.runtime) (D := Reference.driver)
                    (mkEnv 0 1000 1000 Reference.id1 (fun _ => None) false)
                    (JObj []) [])).
    simpl. discriminate.
  - apply (proj1 (proj2 (connection_gate_precedes_validation
                    (B := Reference.runtime) (D := Reference.driver)
                    (Reference.healthy Reference.id1 1000) (JObj []) [])));
      reflexivity.
Defined.

(** ** The strict router: validation of a create request *)

Section StrictFacts.
Context {B : Builtins} {D : Driver}.

(** The [catch] block of the strict router answers with one of four codes,
    or throws while it builds the details; it leaves the collection alone. *)
Lemma strict_postCatch_cases env e st :
  (exists e', Strict.postCatch env e st = (Throw e', st))
  \/ (exists r, Strict.postCatch env e st = (Normal r, st)
                /\ status r <> 201
                /\ (errorCode r = JStr "DUPLICATE_ENTRY"
                    \/ errorCode r = JStr "VALIDATION_ERROR"
                    \/ errorCode r = JStr "ATLAS_CONNECTION_ERROR"
                    \/ errorCode r = JStr "INTERNAL_SERVER_ERROR")).
Proof.
  unfold Strict.postCatch.
  destruct (is11000 (err_code e)).
  { right. eexists. split; [reflexivity |]. split; [simpl; lia | left; reflexivity]. }
  destruct (String.eqb (err_name e) "ValidationError").
  { unfold bind.
    assert (H : exists c, Strict.validationDetails e st = (c, st)).
    { unfold Strict.validationDetails.
      destruct (err_errors e); try (eexists; reflexivity).
      unfold bind.
      assert (G : forall fs, exists c, Strict.detailEntries fs st = (c, st)).
      { induction fs as [| [k v] fs IH]; simpl.
        - eexists; reflexivity.
        - unfold bind. destruct (isNullish v); simpl.
          + eexists; reflexivity.
          + destruct IH as [c IH]. rewrite IH.
            destruct c; eexists; reflexivity. }
      destruct (G fields) as [c G']. rewrite G'.
      destruct c; eexists; reflexivity. }
    destruct H as [c H]. rewrite H. destruct c as [details | e'].
    - right. eexists. split; [reflexivity |].
      split; [simpl; lia | right; left; reflexivity].
    - left. eexists. reflexivity. }
  destruct (String.eqb (err_name e) "MongoNetworkError"
            || String.eqb (err_name e) "MongooseServerSelectionError").
  { right. eexists. split; [reflexivity |].
    split; [simpl; lia | right; right; left; reflexivity]. }
  right. eexists. split; [reflexivity |].
  split; [simpl; lia | right; right; right; reflexivity].
Qed.

(** [router.post('/')] of the strict router as one expression. *)
Lemma strict_post_eq env payload st :
  Strict.post env payload st =
  if isNullish payload then
    Strict.postCatch env
      (TypeError "Cannot destructure property of undefined or null") st
  else if negb (truthy (getProp payload "userId")) then
    (Normal (Strict.badRequest "缺少用戶 ID" "MISSING_USER_ID"), st)
  else if negb (truthy (getProp payload "results")) then
    (Normal (Strict.badRequest "缺少測試結果" "MISSING_RESULTS"), st)
  else if negb (truthy (getProp payload "analysis")) then
    (Normal (Strict.badRequest "缺少分析資料" "MISSING_ANALYSIS"), st)
  else
    match Strict.firstNonArray (getProp payload "results") with
    | Some arrayName => (Normal (Strict.invalidStructure arrayName), st)
    | None =>
        match fst (Strict.testResultData env payload tt) with
        | Throw e => Strict.postCatch env e st
        | Normal data =>
            Strict.postCatch env
              (TypeError "Cannot read properties of undefined (reading 'apply')") st
        end
    end.
Proof.
  unfold Strict.post. unfold tryCatch at 1. unfold Strict.postTry.
  unfold bind at 1, destructure.
  destruct (isNullish payload); [reflexivity |]. cbn [ret].
  destruct (negb (truthy (getProp payload "userId"))); [reflexivity |].
  destruct (negb (truthy (getProp payload "results"))); [reflexivity |].
  destruct (negb (truthy (getProp payload "analysis"))); [reflexivity |].
  destruct (Strict.firstNonArray (getProp payload "results")); [reflexivity |].
  unfold bind at 1. rewrite pure_fst.
  destruct (fst (Strict.testResultData env payload tt)) as [data | e];
    [| reflexivity].
  reflexivity.
Qed.

(** Every answer of the strict create handler, by the path that gives it. *)
Lemma strict_post_cases env payload st r st' :
  isNullish payload = false ->
  Strict.post env payload st = (Normal r, st') ->
  (truthy (getProp payload "userId") = false
   /\ r = Strict.badRequest "缺少用戶 ID" "MISSING_USER_ID" /\ st' = st)
  \/ (truthy (getProp payload "userId") = true
      /\ truthy (getProp payload "results") = false
      /\ r = Strict.badRequest "缺少測試結果" "MISSING_RESULTS" /\ st' = st)
  \/ (truthy (getProp payload "userId") = true
      /\ truthy (getProp payload "results") = true
      /\ truthy (getProp payload "analysis") = false
      /\ r = Strict.badRequest "缺少分析資料" "MISSING_ANALYSIS" /\ st' = st)
  \/ (truthy (getProp payload "userId") = true
      /\ truthy (getProp payload "results") = true
      /\ truthy (getProp payload "analysis") = true
      /\ exists arrayName,
           Strict.firstNonArray (getProp payload "results") = Some arrayName
           /\ r = Strict.invalidStructure arrayName /\ st' = st)
  \/ (Strict.firstNonArray (getProp payload "results") = None
      /\ ((errorCode r = JStr "DUPLICATE_ENTRY"
           \/ errorCode r = JStr "VALIDATION_ERROR"
           \/ errorCode r = JStr "ATLAS_CONNECTION_ERROR"
           \/ errorCode r = JStr "INTERNAL_SERVER_ERROR")
          \/ exists d, r = created d)).
Proof.
  intros N. rewrite strict_post_eq, N.
  destruct (truthy (getProp payload "userId")); cbn [negb].
  2:{ intros H. inversion H. left. repeat split. }
  destruct (truthy (getProp payload "results")); cbn [negb].
  2:{ intros H. inversion H. right; left. repeat split. }
  destruct (truthy (getProp payload "analysis")); cbn [negb].
  2:{ intros H. inversion H. right; right; left. repeat split. }
  destruct (Strict.firstNonArray (getProp payload "results")) as [name |].
  { intros H. inversion H. right; right; right; left. repeat split.
    exists name. repeat split. }
  intros H. right; right; right; right. split; [reflexivity |].
  assert (K : forall e s0, Strict.postCatch env e s0 = (Normal r, st') ->
              errorCode r = JStr "DUPLICATE_ENTRY"
              \/ errorCode r = JStr "VALIDATION_ERROR"
              \/ errorCode r = JStr "ATLAS_CONNECTION_ERROR"
              \/ errorCode r = JStr "INTERNAL_SERVER_ERROR").
  { intros e s0 E.
    destruct (strict_postCatch_cases env e s0) as [[e' X] | [r' [X [_ Y]]]];
      rewrite X in E; inversion E; subst. exact Y. }
  destruct (fst (Strict.testResultData env payload tt)) as [data | e];
    left; eapply K; eassumption.
Qed.




End StrictFacts.

(** C1, as the specification states it, fails on the strict router: a
    payload with userId, results and analysis whose results lacks
    maleSkincare (every field it has is an array) is not accepted with an
    empty default; it is answered 400 INVALID_RESULTS_STRUCTURE and nothing
    is written. *)
Lemma strict_rejects_absent_result_field :
  getProp (getProp Reference.threeArraysPayload "results") "maleSkincare" = JUndefined
  /\ Array_isArray (getProp (getProp Reference.threeArraysPayload "results") "maleComputer") = true
  /\ Array_isArray (getProp (getProp Reference.threeArraysPayload "results") "femaleSkincare") = true
  /\ Array_isArray (getProp (getProp Reference.threeArraysPayload "results") "femaleComputer") = true
  /\ Strict.post (B := Reference.runtime) (D := Reference.driver)
       (Reference.healthy Reference.id1 1000) Reference.threeArraysPayload []
     = (Normal (Strict.invalidStructure "maleSkincare"), [])
  /\ status (Strict.invalidStructure "maleSkincare") = 400
  /\ errorCode (Strict.invalidStructure "maleSkincare") = JStr "INVALID_RESULTS_STRUCTURE".
Proof. repeat split. Qed.

(** C1 (amended). In the strict create variant, for every submitted payload
    the handler answers 400 with MISSING_USER_ID when userId is absent
    (falsy), else MISSING_RESULTS when results is absent, else
    MISSING_ANALYSIS when analysis is absent, else
    INVALID_RESULTS_STRUCTURE when one of the four named fields of results is
    not a sequence, an absent field included; the code
    INVALID_RESULTS_STRUCTURE is answered only in that case; and in each of
    these four cases the status is 400 and the collection is left as it
    was. *)
Theorem strict_validation {B : Builtins} {D : Driver}
  (env : Env) (payload : JSValue) (st : Store) :
  isNullish payload = false ->
  (truthy (getProp payload "userId") = false ->
   Strict.post env payload st
   = (Normal (Strict.badRequest "缺少用戶 ID" "MISSING_USER_ID"), st))
  /\ (truthy (getProp payload "userId") = true ->
      truthy (getProp payload "results") = false ->
      Strict.post env payload st
      = (Normal (Strict.badRequest "缺少測試結果" "MISSING_RESULTS"), st))
  /\ (truthy (getProp payload "userId") = true ->
      truthy (getProp payload "results") = true ->
      truthy (getProp payload "analysis") = false ->
      Strict.post env payload st
      = (Normal (Strict.badRequest "缺少分析資料" "MISSING_ANALYSIS"), st))
  /\ (truthy (getProp payload "userId") = true ->
      truthy (getProp payload "results") = true ->
      truthy (getProp payload "analysis") = true ->
      forall name, In name Strict.requiredArrays ->
      Array_isArray (getProp (getProp payload "results") name) = false ->
      exists first,
        In first Strict.requiredArrays
        /\ Array_isArray (getProp (getProp payload "results") first) = false
        /\ Strict.post env payload st = (Normal (Strict.invalidStructure first), st))
  /\ (forall r st',
        Strict.post env payload st = (Normal r, st') ->
        errorCode r = JStr "INVALID_RESULTS_STRUCTURE" ->
        exists name,
          In name Strict.requiredArrays
          /\ Array_isArray (getProp (getProp payload "results") name) = false
          /\ truthy (getProp payload "userId") = true
          /\ truthy (getProp payload "results") = true
          /\ truthy (getProp payload "analysis") = true)
  /\ (forall r st',
        Strict.post env payload st = (Normal r, st') ->
        errorCode r = JStr "MISSING_USER_ID"
        \/ errorCode r = JStr "MISSING_RESULTS"
        \/ errorCode r = JStr "MISSING_ANALYSIS"
        \/ errorCode r = JStr "INVALID_RESULTS_STRUCTURE" ->
        status r = 400 /\ st' = st).
Proof.
  intros N. repeat apply conj.
  - intros U. rewrite strict_post_eq, N, U. reflexivity.
  - intros U R. rewrite strict_post_eq, N, U, R. reflexivity.
  - intros U R A. rewrite strict_post_eq, N, U, R, A. reflexivity.
  - intros U R A name I X.
    rewrite strict_post_eq, N, U, R, A. cbn [negb].
    destruct (Strict.firstNonArray (getProp payload "results")) as [first |] eqn:F.
    + exists first. unfold Strict.firstNonArray in F.
      apply find_some in F. destruct F as [F1 F2].
      apply negb_true_iff in F2. repeat split; assumption.
    + exfalso. unfold Strict.firstNonArray in F.
      pose proof (find_none _ _ F name I) as G. cbv beta in G.
      rewrite X in G. discriminate G.
  - intros r st' H C.
    destruct (strict_post_cases env payload st r st' N H)
      as [P1 | [P2 | [P3 | [P4 | P5]]]].
    + destruct P1 as [_ [E _]]. subst r. discriminate C.
    + destruct P2 as [_ [_ [E _]]]. subst r. discriminate C.
    + destruct P3 as [_ [_ [_ [E _]]]]. subst r. discriminate C.
    + destruct P4 as [U [R [A [name [F _]]]]].
      exists name. unfold Strict.firstNonArray in F.
      apply find_some in F. destruct F as [F1 F2].
      apply negb_true_iff in F2. repeat split; assumption.
    + destruct P5 as [_ [[E | [E | [E | E]]] | [d E]]];
        rewrite E in C; discriminate C.
  - intros r st' H C.
    destruct (strict_post_cases env payload st r st' N H)
      as [P1 | [P2 | [P3 | [P4 | P5]]]].
    + destruct P1 as [_ [E S0]]. subst r. split; [reflexivity | exact S0].
    + destruct P2 as [_ [_ [E S0]]]. subst r. split; [reflexivity | exact S0].
    + destruct P3 as [_ [_ [_ [E S0]]]]. subst r. split; [reflexivity | exact S0].
    + destruct P4 as [_ [_ [_ [name [_ [E S0]]]]]]. subst r.
      split; [reflexivity | exact S0].
    + exfalso.
      destruct P5 as [_ [[E | [E | [E | E]]] | [d E]]];
        destruct C as [C | [C | [C | C]]];
        rewrite E in C; discriminate C.
Qed.

Lemma strict_validation_witness :
  Strict.post (B := Reference.runtime) (D := Reference.driver)
    (Reference.healthy Reference.id1 1000) (JObj []) []
  = (Normal (Strict.badRequest "缺少用戶 ID" "MISSING_USER_ID"), []).
Proof.
  apply (proj1 (strict_validation (B := Reference.runtime) (D := Reference.driver)
                  (Reference.healthy Reference.id1 1000) (JObj []) []
                  eq_refl)).
  reflexivity.
Defined.

(** ** The permissive router: what a create request stores *)

Section PreparedFacts.
Context {B : Builtins} {D : Driver}.

Lemma permissive_prepared env payload data :
  fst (Permissive.testResultData env payload tt) = Normal data ->
  Permissive.prepared env payload data.
Proof.
  destruct (Permissive.testResultData env payload tt) as [c u] eqn:E.
  cbn [fst]. intros ->. unfold Permissive.testResultData in E.
  repeat match type of E with
         | bind _ _ _ = (Normal _, _) =>
             let a := fresh "a" in
             let u := fresh "u" in
             let H := fresh "H" in
             apply bind_normal_inv in E; destruct E as [a [u [H E]]]
         end.
  inversion E; subst; clear E.
  apply dateOrNow_normal in H.
  apply callFilter_normal in H0, H1, H2, H3.
  apply numberOrZero_normal in H4, H5, H6, H7, H8.
  unfold Permissive.prepared, Permissive.filtered, Permissive.coerced,
    Permissive.dated; data_proj.
  repeat split; assumption.
Qed.

Lemma positive_are_numbers items :
  forallb TestResult.isNumberValue (filter Permissive.isPositiveTime items) = true.
Proof.
  apply forallb_forall. intros x I. apply filter_In in I. destruct I as [_ P].
  destruct x; simpl in P; try discriminate P.
  destruct n; simpl in *; congruence.
Qed.

Lemma cast_filtered items w :
  TestResult.cast TNumberArray (JArr (filter Permissive.isPositiveTime items)) = inl w ->
  w = JArr (filter Permissive.isPositiveTime items).
Proof.
  simpl. rewrite positive_are_numbers. intros H. inversion H. reflexivity.
Qed.

Lemma orZero_number n : num_isNaN (orZero n) = false.
Proof.
  unfold orZero. destruct (num_isNaN n) eqn:E; simpl; [reflexivity |].
  destruct (num_isZero n); [reflexivity | exact E].
Qed.


Lemma errorResponse_status env e :
  status (Permissive.errorResponse env e) <> 201.
Proof.
  unfold Permissive.errorResponse.
  destruct (String.eqb (err_name e) "ValidationError"); [simpl; lia |].
  destruct (is11000 (err_code e)); [simpl; lia |].
  destruct (String.eqb (err_name e) "MongoNetworkError"
            || String.eqb (err_name e) "MongooseServerSelectionError");
    simpl; lia.
Qed.

(** A create request answered 201 wrote exactly one document: the cast of
    the prepared data, under the drawn identifier, at the write time. *)
Lemma post_created env payload st r st' :
  Permissive.post env payload st = (Normal r, st') ->
  status r = 201 ->
  exists data stored,
    Permissive.prepared env payload data
    /\ TestResult.castOf data stored
    /\ readyState env = 1
    /\ truthy (getProp payload "userId") = true
    /\ existsb (TestResult.hasDrawnId (newId env)) st = false
    /\ r = created (TestResult.newDoc env stored)
    /\ st' = (st ++ [TestResult.newDoc env stored])%list.
Proof.
  intros H S.
  destruct (post_cases env payload st) as [P1 | [P2 | [P3 | P4]]].
  - destruct P1 as [_ E]. rewrite E in H. inversion H; subst. discriminate S.
  - destruct P2 as [_ [_ [e E]]]. rewrite E in H. inversion H; subst.
    exfalso. exact (errorResponse_status env e S).
  - destruct P3 as [_ [_ [_ E]]]. rewrite E in H. inversion H; subst.
    discriminate S.
  - destruct P4 as [R [_ [U [[e [_ E]] | [data [P [[e [_ E]] | [stored [V [_ [X E]]]]]]]]]]];
      rewrite E in H; inversion H; subst;
      try (exfalso; exact (errorResponse_status env e S)).
    exists data, stored.
    split; [apply permissive_prepared; exact P |].
    split; [apply validate_inl; exact V |].
    repeat split; assumption.
Qed.

End PreparedFacts.

Section FilterFacts.
Context {B : Builtins}.

Lemma filtered_submitted payload name value :
  Permissive.filtered (getProp payload "results") name value ->
  value = JArr (filter Permissive.isPositiveTime
                  (Permissive.submittedSequence payload name)).
Proof.
  unfold Permissive.filtered, Permissive.submittedSequence, or_else.
  intros [items [E V]]. subst value.
  destruct (optChain (getProp payload "results") name) as [| | b | n | s | t | l | fs];
    simpl in E; try (inversion E; reflexivity).
  - destruct b; [discriminate E | inversion E; reflexivity].
  - destruct (negb (num_isNaN n || num_isZero n));
      [discriminate E | inversion E; reflexivity].
  - destruct (negb (s =? "")%string); [discriminate E | inversion E; reflexivity].
Qed.

End FilterFacts.

(** ** Filtering of the result sequences *)

(** C3. In the permissive create variant, whenever a record is stored (the
    answer is 201), each of its four result sequences is the submitted
    sequence filtered to the entries that are numbers strictly greater than
    zero: its length is at most the submitted length, every entry kept is a
    positive number, and a sequence that was not submitted is stored as the
    empty sequence. *)
Theorem permissive_results_filtered {B : Builtins} {D : Driver}
  (env : Env) (payload : JSValue) (st : Store) (r : Response) (st' : Store) :
  Permissive.post env payload st = (Normal r, st') ->
  status r = 201 ->
  exists d,
    st' = (st ++ [d])%list
    /\ r = created d
    /\ forall name, In name TestResult.resultNames ->
         TestResult.resultOf d name
         = JArr (filter Permissive.isPositiveTime
                   (Permissive.submittedSequence payload name))
         /\ (List.length (filter Permissive.isPositiveTime
                            (Permissive.submittedSequence payload name))
             <= List.length (Permissive.submittedSequence payload name))%nat
         /\ (forall x,
               In x (filter Permissive.isPositiveTime
                       (Permissive.submittedSequence payload name)) ->
               exists n, x = JNum n /\ num_gt0 n = true)
         /\ (Array_isArray (optChain (getProp payload "results") name) = false ->
             TestResult.resultOf d name = JArr []).
Proof.
  intros H S.
  destruct (post_created env payload st r st' H S)
    as [data [stored [P [C [_ [_ [_ [Hr Hs]]]]]]]].
  exists (TestResult.newDoc env stored). split; [exact Hs |]. split; [exact Hr |].
  destruct P as [_ [_ [P1 [P2 [P3 [P4 _]]]]]].
  destruct C as [_ [_ [_ [C1 [C2 [C3 [C4 _]]]]]]].
  apply filtered_submitted in P1, P2, P3, P4.
  rewrite P1 in C1. rewrite P2 in C2. rewrite P3 in C3. rewrite P4 in C4.
  apply cast_filtered in C1, C2, C3, C4.
  assert (G : forall name,
             TestResult.resultOf (TestResult.newDoc env stored) name
             = JArr (filter Permissive.isPositiveTime
                       (Permissive.submittedSequence payload name)) ->
             TestResult.resultOf (TestResult.newDoc env stored) name
             = JArr (filter Permissive.isPositiveTime
                       (Permissive.submittedSequence payload name))
             /\ (List.length (filter Permissive.isPositiveTime
                                (Permissive.submittedSequence payload name))
                 <= List.length (Permissive.submittedSequence payload name))%nat
             /\ (forall x,
                   In x (filter Permissive.isPositiveTime
                           (Permissive.submittedSequence payload name)) ->
                   exists n, x = JNum n /\ num_gt0 n = true)
             /\ (Array_isArray (optChain (getProp payload "results") name) = false ->
                 TestResult.resultOf (TestResult.newDoc env stored) name = JArr [])).
  { intros name E. split; [exact E |]. split; [apply filter_length_le |].
    split.
    - intros x I. apply filter_In in I. destruct I as [_ I].
      destruct x; simpl in I; try discriminate I. exists n. split; [reflexivity | exact I].
    - intros A. rewrite E. unfold Permissive.submittedSequence.
      destruct (optChain (getProp payload "results") name);
        try reflexivity. discriminate A. }
  intros name I. apply G.
  unfold TestResult.resultNames in I. simpl in I.
  destruct I as [I | [I | [I | [I | []]]]]; subst name;
    unfold TestResult.resultOf, TestResult.newDoc; simpl; assumption.
Qed.

Lemma permissive_results_filtered_witness :
  exists d,
    [Reference.exampleDoc] = ([] ++ [d])%list
    /\ created Reference.exampleDoc = created d
    /\ forall name, In name TestResult.resultNames ->
         TestResult.resultOf d name
         = JArr (filter Permissive.isPositiveTime
                   (Permissive.submittedSequence Reference.examplePayload name))
         /\ (List.length (filter Permissive.isPositiveTime
                            (Permissive.submittedSequence Reference.examplePayload name))
             <= List.length (Permissive.submittedSequence Reference.examplePayload name))%nat
         /\ (forall x,
               In x (filter Permissive.isPositiveTime
                       (Permissive.submittedSequence Reference.examplePayload name)) ->
               exists n, x = JNum n /\ num_gt0 n = true)
         /\ (Array_isArray (optChain (getProp Reference.examplePayload "results") name)
             = false ->
             TestResult.resultOf d name = JArr []).
Proof.
  exact (permissive_results_filtered
           (B := Reference.runtime) (D := Reference.driver)
           (Reference.healthy Reference.id1 1000) Reference.examplePayload []
           (created Reference.exampleDoc) [Reference.exampleDoc]
           eq_refl eq_refl).
Defined.

(** ** Defaults of the analysis paths *)

Section DefaultFacts.
Context {B : Builtins} {D : Driver}.

Lemma strict_prepared env payload data :
  fst (Strict.testResultData env payload tt) = Normal data ->
  Strict.prepared env payload data.
Proof.
  destruct (Strict.testResultData env payload tt) as [c u] eqn:E.
  cbn [fst]. intros ->. unfold Strict.testResultData in E.
  repeat match type of E with
         | bind _ _ _ = (Normal _, _) =>
             let a := fresh "a" in
             let u := fresh "u" in
             let H := fresh "H" in
             apply bind_normal_inv in E; destruct E as [a [u [H E]]]
         end.
  inversion E; subst; clear E.
  apply dateOrNow_normal in H.
  apply numberOrZero_normal in H0, H1, H2, H3, H4.
  unfold Strict.prepared, Strict.coerced, Permissive.dated; data_proj.
  repeat split; assumption.
Qed.





End DefaultFacts.



(** ** Acceptance by the deployed create endpoint *)

Section AcceptFacts.
Context {D : Driver}.

Lemma isNumberValue_inv v :
  TestResult.isNumberValue v = true -> exists n, v = JNum n /\ num_isNaN n = false.
Proof.
  destruct v; simpl; try discriminate. intros H.
  exists n. split; [reflexivity |]. apply negb_true_iff. exact H.
Qed.

(** Validation keeps well-typed data as they are. *)
Lemma validate_wellTyped data :
  TestResult.wellTyped data -> TestResult.validate data = inl data.
Proof.
  destruct data as [u t [mc fs fc ms] [ds bt bl bd d1 d2 d3 d4] sr di].
  unfold TestResult.wellTyped, TestResult.isNumberArray, TestResult.isStringValue;
    data_proj.
  intros [[s [-> Hs]] [[t' ->] [[l1 [-> A1]] [[l2 [-> A2]] [[l3 [-> A3]] [[l4 [-> A4]]
          [N0 [Ht [[sl ->] [[sd ->] [N1 [N2 [N3 N4]]]]]]]]]]]]].
  apply isNumberValue_inv in N0, N1, N2, N3, N4.
  destruct N0 as [n0 [-> N0]]. destruct N1 as [n1 [-> N1]].
  destruct N2 as [n2 [-> N2]]. destruct N3 as [n3 [-> N3]].
  destruct N4 as [n4 [-> N4]].
  assert (T : truthy (JStr s) = true).
  { simpl. apply negb_true_iff. apply String.eqb_neq. exact Hs. }
  unfold TestResult.validate, TestResult.castPath, TestResult.requiredString,
    TestResult.cast; data_proj.
  rewrite A1, A2, A3, A4, N0, N1, N2, N3, N4.
  cbn [fst snd isNullish orb app]. rewrite T. cbn [negb app].
  destruct Ht as [-> | [st ->]]; reflexivity.
Qed.

End AcceptFacts.

Section AcceptedFacts.
Context {B : Builtins} {D : Driver}.

Lemma dateOrNow_ok env v (u : unit) :
  truthy v = false \/ (exists t, DateFromValue v = Some (Some t)) ->
  exists t, dateOrNow env v u = (Normal (JDate (Some t)), u).
Proof.
  unfold dateOrNow, newDate, liftOption. intros [F | [t T]].
  - rewrite F. eexists. reflexivity.
  - destruct (truthy v); [rewrite T |]; eexists; reflexivity.
Qed.

Lemma callFilter_ok v p (u : unit) :
  truthy v = false \/ Array_isArray v = true ->
  exists items,
    Permissive.callFilter (or_else v (JArr [])) p u
    = (Normal (JArr (filter p items)), u).
Proof.
  unfold or_else. intros [F | A].
  - rewrite F. exists []. reflexivity.
  - destruct v; try discriminate A. exists items. reflexivity.
Qed.

Lemma numberOrZero_ok v n (u : unit) :
  ToNumber v = Some n -> numberOrZero v u = (Normal (JNum (orZero n)), u).
Proof.
  unfold numberOrZero, liftOption, bind. intros ->. reflexivity.
Qed.

Lemma label_wellTyped v dflt :
  truthy v = false \/ (exists s, v = JStr s) ->
  dflt = JNull \/ TestResult.isStringValue dflt ->
  or_else v dflt = JNull \/ TestResult.isStringValue (or_else v dflt).
Proof.
  unfold or_else. intros [F | [s ->]] Hd.
  - rewrite F. exact Hd.
  - destruct (truthy (JStr s)); [right; exists s; reflexivity | exact Hd].
Qed.

Lemma label_string v dflt :
  truthy v = false \/ (exists s, v = JStr s) ->
  TestResult.isStringValue (or_else v (JStr dflt)).
Proof.
  unfold or_else. intros [F | [s ->]].
  - rewrite F. exists dflt. reflexivity.
  - destruct (truthy (JStr s)); [exists s | exists dflt]; reflexivity.
Qed.

(** A preparable payload is prepared without exception. *)
Lemma preparable_prepared env payload :
  Permissive.preparable payload ->
  exists t l1 l2 l3 l4 n0 n1 n2 n3 n4,
    fst (Permissive.testResultData env payload tt)
    = Normal
        (mkData (getProp payload "userId") (JDate (Some t))
           (mkResults (JArr (filter Permissive.isPositiveTime l1))
                      (JArr (filter Permissive.isPositiveTime l2))
                      (JArr (filter Permissive.isPositiveTime l3))
                      (JArr (filter Permissive.isPositiveTime l4)))
           (mkAnalysis (JNum (orZero n0))
              (or_else (optChain (getProp payload "analysis") "biasType") JNull)
              (or_else (optChain (getProp payload "analysis") "biasLevel")
                       (JStr Permissive.noBiasLabel))
              (or_else (optChain (getProp payload "analysis") "biasDirection")
                       (JStr ""))
              (JNum (orZero n1)) (JNum (orZero n2))
              (JNum (orZero n3)) (JNum (orZero n4)))
           (or_else (getProp payload "surveyResponses") (JObj []))
           (or_else (getProp payload "deviceInfo") (JObj []))).
Proof.
  intros [Hd [Hr Hn]].
  destruct (dateOrNow_ok env _ tt Hd) as [t Ed].
  destruct (callFilter_ok _ Permissive.isPositiveTime tt
              (Hr "maleComputer" (or_introl eq_refl))) as [l1 E1].
  destruct (callFilter_ok _ Permissive.isPositiveTime tt
              (Hr "femaleSkincare" (or_intror (or_introl eq_refl)))) as [l2 E2].
  destruct (callFilter_ok _ Permissive.isPositiveTime tt
              (Hr "femaleComputer" (or_intror (or_intror (or_introl eq_refl)))))
    as [l3 E3].
  destruct (callFilter_ok _ Permissive.isPositiveTime tt
              (Hr "maleSkincare"
                  (or_intror (or_intror (or_intror (or_introl eq_refl))))))
    as [l4 E4].
  destruct (Hn "dScore" (or_introl eq_refl)) as [n0 N0].
  destruct (Hn "d1Score" (or_intror (or_introl eq_refl))) as [n1 N1].
  destruct (Hn "d2Score" (or_intror (or_intror (or_introl eq_refl)))) as [n2 N2].
  destruct (Hn "d3Score"
               (or_intror (or_intror (or_intror (or_introl eq_refl))))) as [n3 N3].
  destruct (Hn "d4Score"
               (or_intror (or_intror (or_intror (or_intror (or_introl eq_refl))))))
    as [n4 N4].
  apply (numberOrZero_ok _ _ tt) in N0, N1, N2, N3, N4.
  exists t, l1, l2, l3, l4, n0, n1, n2, n3, n4.
  unfold Permissive.testResultData.
  rewrite (bind_normal _ _ _ _ _ Ed).
  rewrite (bind_normal _ _ _ _ _ E1).
  rewrite (bind_normal _ _ _ _ _ E2).
  rewrite (bind_normal _ _ _ _ _ E3).
  rewrite (bind_normal _ _ _ _ _ E4).
  rewrite (bind_normal _ _ _ _ _ N0).
  rewrite (bind_normal _ _ _ _ _ N1).
  rewrite (bind_normal _ _ _ _ _ N2).
  rewrite (bind_normal _ _ _ _ _ N3).
  rewrite (bind_normal _ _ _ _ _ N4).
  reflexivity.
Qed.

(** An acceptable payload is prepared without exception, into well-typed
    data. *)
Lemma acceptable_prepared env payload :
  Permissive.acceptable payload ->
  exists data,
    fst (Permissive.testResultData env payload tt) = Normal data
    /\ TestResult.wellTyped data.
Proof.
  intros [[s [Hu Hs]] [Hp Hl]].
  destruct (preparable_prepared env payload Hp)
    as [t [l1 [l2 [l3 [l4 [n0 [n1 [n2 [n3 [n4 E]]]]]]]]]].
  eexists. split; [exact E |].
  unfold TestResult.wellTyped, TestResult.isNumberArray; data_proj.
  assert (Z0 : forall n, TestResult.isNumberValue (JNum (orZero n)) = true).
  { intros n. simpl. rewrite orZero_number. reflexivity. }
  repeat apply conj; try apply Z0.
  - exists s. split; assumption.
  - exists t. reflexivity.
  - eexists. split; [reflexivity | apply positive_are_numbers].
  - eexists. split; [reflexivity | apply positive_are_numbers].
  - eexists. split; [reflexivity | apply positive_are_numbers].
  - eexists. split; [reflexivity | apply positive_are_numbers].
  - apply label_wellTyped; [apply Hl; simpl; tauto | left; reflexivity].
  - apply label_string. apply Hl. simpl; tauto.
  - apply label_string. apply Hl. simpl; tauto.
Qed.

(** With a ready connection, no storage fault on the write and a fresh
    identifier, an acceptable payload is stored and answered 201. *)
Lemma acceptable_created env payload st :
  readyState env = 1 ->
  fault env SaveOp = None ->
  existsb (TestResult.hasDrawnId (newId env)) st = false ->
  Permissive.acceptable payload ->
  exists data,
    fst (Permissive.testResultData env payload tt) = Normal data
    /\ TestResult.wellTyped data
    /\ Permissive.post env payload st
       = (Normal (created (TestResult.newDoc env data)),
          (st ++ [TestResult.newDoc env data])%list).
Proof.
  intros R F X A.
  destruct (acceptable_prepared env payload A) as [data [P W]].
  exists data. split; [exact P |]. split; [exact W |].
  destruct A as [[s [Hu Hs]] _].
  assert (N : isNullish payload = false).
  { destruct payload; try reflexivity; discriminate Hu. }
  rewrite post_eq, R, N, Hu, P. cbn [negb Z.eqb Pos.eqb].
  assert (T : truthy (JStr s) = true).
  { simpl. apply negb_true_iff. apply String.eqb_neq. exact Hs. }
  rewrite T. cbn [negb].
  unfold TestResult.save. rewrite (validate_wellTyped data W), F, X. reflexivity.
Qed.

End AcceptedFacts.

(** C9, as stated, fails on the deployed create endpoint: a payload with a
    truthy userId whose results.maleComputer is a number is not accepted;
    the call of [filter] on the number throws, and the answer is 500
    ATLAS_SAVE_ERROR with nothing written. *)
Lemma deployed_create_rejects_scalar_sequence :
  truthy (getProp Reference.scalarResultPayload "userId") = true
  /\ Server.app (B := Reference.runtime) (D := Reference.driver)
       (Reference.healthy Reference.id1 1000)
       (Server.createRequest Reference.scalarResultPayload)
     = inl (Permissive.post (B := Reference.runtime) (D := Reference.driver)
              (Reference.healthy Reference.id1 1000) Reference.scalarResultPayload)
  /\ Permissive.post (B := Reference.runtime) (D := Reference.driver)
       (Reference.healthy Reference.id1 1000) Reference.scalarResultPayload []
     = (Normal (Permissive.errorResponse (Reference.healthy Reference.id1 1000)
                  (TypeError "filter is not a function")), [])
  /\ status (Permissive.errorResponse (Reference.healthy Reference.id1 1000)
               (TypeError "filter is not a function")) = 500
  /\ errorCode (Permissive.errorResponse (Reference.healthy Reference.id1 1000)
                  (TypeError "filter is not a function")) = JStr "ATLAS_SAVE_ERROR".
Proof. repeat split. Qed.

(** C9 (amended). The server entry point mounts the permissive router at
    /api/test-results, so the deployed create endpoint is the permissive
    handler; it never answers MISSING_RESULTS, MISSING_ANALYSIS or
    INVALID_RESULTS_STRUCTURE.  With a ready connection it accepts (201)
    every payload with a truthy userId whose four result fields are each
    absent or a sequence and whose testDate and scores convert without
    exception, whatever else the shape of results and analysis, whenever the
    save of the prepared record succeeds; and the save does succeed (no
    storage fault, fresh identifier) when moreover userId is a non-empty
    string, testDate is absent or a valid date and the labels are absent or
    strings.  Defaults are back-filled: when results is absent the four
    sequences are stored empty, when analysis is absent the scores are stored
    as 0, biasType as null, biasLevel as the default label and biasDirection
    as the empty string. *)
Theorem deployed_create_is_permissive {B : Builtins} {D : Driver}
  (env : Env) (payload : JSValue) (st : Store) :
  Server.app env (Server.createRequest payload) = inl (Permissive.post env payload)
  /\ (forall r st',
        Permissive.post env payload st = (Normal r, st') ->
        errorCode r <> JStr "MISSING_RESULTS"
        /\ errorCode r <> JStr "MISSING_ANALYSIS"
        /\ errorCode r <> JStr "INVALID_RESULTS_STRUCTURE")
  /\ (readyState env = 1 ->
      truthy (getProp payload "userId") = true ->
      Permissive.preparable payload ->
      exists data,
        fst (Permissive.testResultData env payload tt) = Normal data
        /\ Permissive.prepared env payload data
        /\ forall d st',
             TestResult.save env data st = (Normal d, st') ->
             Permissive.post env payload st = (Normal (created d), st')
             /\ status (created d) = 201)
  /\ (readyState env = 1 ->
      fault env SaveOp = None ->
      existsb (TestResult.hasId (newId env)) st = false ->
      Permissive.acceptable payload ->
      exists d,
        Permissive.post env payload st = (Normal (created d), (st ++ [d])%list)
        /\ status (created d) = 201
        /\ userId (doc_data d) = getProp payload "userId"
        /\ (isNullish (getProp payload "results") = true ->
            forall name, In name TestResult.resultNames ->
            TestResult.resultOf d name = JArr [])
        /\ (isNullish (getProp payload "analysis") = true ->
            (forall name, In name TestResult.scoreNames ->
             TestResult.analysisOf d name = JInt 0)
            /\ TestResult.analysisOf d "biasType" = JNull
            /\ TestResult.analysisOf d "biasLevel" = JStr Permissive.noBiasLabel
            /\ TestResult.analysisOf d "biasDirection" = JStr "")).
Proof.
  split; [reflexivity | split; [| split]].
  - intros r st' H.
    assert (K : forall e, errorCode (Permissive.errorResponse env e) <> JStr "MISSING_RESULTS"
                          /\ errorCode (Permissive.errorResponse env e) <> JStr "MISSING_ANALYSIS"
                          /\ errorCode (Permissive.errorResponse env e)
                             <> JStr "INVALID_RESULTS_STRUCTURE").
    { intros e. destruct (errorResponse_code env e) as [X | [X | [X | X]]];
        rewrite X; repeat split; discriminate. }
    destruct (post_cases env payload st) as [P1 | [P2 | [P3 | P4]]].
    + destruct P1 as [_ E]. rewrite E in H. inversion H; subst.
      repeat split; discriminate.
    + destruct P2 as [_ [_ [e E]]]. rewrite E in H. inversion H; subst. apply K.
    + destruct P3 as [_ [_ [_ E]]]. rewrite E in H. inversion H; subst.
      repeat split; discriminate.
    + destruct P4 as [_ [_ [_ [[e [_ E]] | [data [_ [[e [_ E]] | [stored [_ [_ [_ E]]]]]]]]]]];
        rewrite E in H; inversion H; subst; try apply K.
      repeat split; discriminate.
  - intros R U Hp.
    destruct (preparable_prepared env payload Hp)
      as [t [l1 [l2 [l3 [l4 [n0 [n1 [n2 [n3 [n4 E]]]]]]]]]].
    eexists. split; [exact E |].
    split; [apply permissive_prepared; exact E |].
    intros d st' Hs.
    assert (N : isNullish payload = false).
    { destruct payload; try reflexivity; discriminate U. }
    rewrite post_eq, R, N, U, E. cbn [negb Z.eqb Pos.eqb].
    rewrite Hs. split; reflexivity.
  - intros R F X A.
    destruct (acceptable_created env payload st R F (drawn_fresh _ _ X) A)
      as [data [P [_ E]]].
    exists (TestResult.newDoc env data). split; [exact E |].
    split; [reflexivity |].
    apply permissive_prepared in P.
    destruct P as [Pu [_ [P1 [P2 [P3 [P4 [Pd [Pt [Pl [Pb [Q1 [Q2 [Q3 [Q4 _]]]]]]]]]]]]]].
    split; [exact Pu |]. split.
    + intros N name I.
      assert (G : forall nm value,
                 Permissive.filtered (getProp payload "results") nm value ->
                 value = JArr []).
      { intros nm value [items [Ei Ev]]. unfold optChain in Ei. rewrite N in Ei.
        unfold or_else in Ei. simpl in Ei. inversion Ei; subst. reflexivity. }
      apply G in P1, P2, P3, P4.
      unfold TestResult.resultNames in I. simpl in I.
      destruct I as [I | [I | [I | [I | []]]]]; subst name;
        unfold TestResult.resultOf, TestResult.newDoc; simpl; assumption.
    + intros N.
      assert (G : forall nm value,
                 Permissive.coerced (getProp payload "analysis") nm value ->
                 value = JInt 0).
      { intros nm value [n [En Ev]]. unfold optChain in En. rewrite N in En.
        simpl in En. inversion En; subst. reflexivity. }
      apply G in Pd, Q1, Q2, Q3, Q4.
      unfold optChain in Pt, Pl, Pb. rewrite N in Pt, Pl, Pb.
      unfold or_else in Pt, Pl, Pb. simpl in Pt, Pl, Pb.
      repeat split; try assumption.
      intros name I. unfold TestResult.scoreNames in I. simpl in I.
      destruct I as [I | [I | [I | [I | [I | []]]]]]; subst name;
        unfold TestResult.analysisOf, TestResult.newDoc; simpl; assumption.
Qed.

Lemma userOnly_acceptable :
  Permissive.acceptable (B := Reference.runtime) Reference.userOnlyPayload.
Proof.
  unfold Permissive.acceptable, Permissive.preparable. repeat apply conj.
  - exists "u1". split; [reflexivity | discriminate].
  - left. reflexivity.
  - intros name _. left. reflexivity.
  - intros name _. exists NaN. reflexivity.
  - intros name _. left. reflexivity.
Defined.

Lemma deployed_create_is_permissive_witness :
  exists d,
    Permissive.post (B := Reference.runtime) (D := Reference.driver)
      (Reference.healthy Reference.id1 1000) Reference.userOnlyPayload []
    = (Normal (created d), ([] ++ [d])%list)
    /\ status (created d) = 201
    /\ userId (doc_data d) = getProp Reference.userOnlyPayload "userId"
    /\ (isNullish (getProp Reference.userOnlyPayload "results") = true ->
        forall name, In name TestResult.resultNames ->
        TestResult.resultOf d name = JArr [])
    /\ (isNullish (getProp Reference.userOnlyPayload "analysis") = true ->
        (forall name, In name TestResult.scoreNames ->
         TestResult.analysisOf d name = JInt 0)
        /\ TestResult.analysisOf d "biasType" = JNull
        /\ TestResult.analysisOf d "biasLevel" = JStr Permissive.noBiasLabel
        /\ TestResult.analysisOf d "biasDirection" = JStr "").
Proof.
  exact (proj2 (proj2 (proj2 (deployed_create_is_permissive
                                (B := Reference.runtime) (D := Reference.driver)
                                (Reference.healthy Reference.id1 1000)
                                Reference.userOnlyPayload [])))
               eq_refl eq_refl eq_refl userOnly_acceptable).
Defined.

(** ** Create, then get by id *)

Section RoundTripFacts.
Context {B : Builtins} {D : Driver}.

Lemma optChain_getProp v k : optChain v k = getProp v k.
Proof. destruct v; reflexivity. Qed.

Lemma filter_all {A} (p : A -> bool) l : forallb p l = true -> filter p l = l.
Proof.
  induction l as [| x l IH]; simpl; [reflexivity |].
  intros H. apply andb_true_iff in H. destruct H as [Hx Hl].
  rewrite Hx, (IH Hl). reflexivity.
Qed.

Lemma valid_acceptable payload :
  Permissive.validPayload payload -> Permissive.acceptable payload.
Proof.
  intros [Hu [Hd [Hr [_ [Hn [Ht Hl]]]]]].
  unfold Permissive.acceptable, Permissive.preparable.
  repeat apply conj; try assumption.
  - intros name I. right. rewrite optChain_getProp.
    destruct (Hr name I) as [items [E _]]. rewrite E. reflexivity.
  - intros name I. rewrite optChain_getProp.
    destruct (Hn name I) as [E | E].
    + rewrite E. exists NaN. reflexivity.
    + destruct (getProp (getProp payload "analysis") name);
        try discriminate E. exists n. reflexivity.
  - intros name I. rewrite optChain_getProp. simpl in I.
    destruct I as [I | [I | [I | []]]]; subst name.
    + destruct Ht as [E | [E | [s E]]]; rewrite E;
        [left; reflexivity | left; reflexivity | right; exists s; reflexivity].
    + destruct (Hl "biasLevel" (or_introl eq_refl)) as [E | [s E]]; rewrite E;
        [left; reflexivity | right; exists s; reflexivity].
    + destruct (Hl "biasDirection" (or_intror (or_introl eq_refl))) as [E | [s E]];
        rewrite E; [left; reflexivity | right; exists s; reflexivity].
Qed.

Lemma find_appended id st d :
  existsb (TestResult.hasId id) st = false ->
  TestResult.hasId id d = true ->
  find (TestResult.hasId id) (st ++ [d]) = Some d.
Proof.
  intros X H. induction st as [| x st IH]; simpl in *.
  - rewrite H. reflexivity.
  - apply orb_false_elim in X. destruct X as [X1 X2].
    rewrite X1. apply IH. exact X2.
Qed.

Lemma castId_wellFormed id :
  TestResult.isObjectIdString id = true -> TestResult.castId id = Some id.
Proof. unfold TestResult.castId. intros ->. reflexivity. Qed.

Lemma getById_found env id st d :
  TestResult.isObjectIdString id = true ->
  fault env FindByIdOp = None ->
  find (TestResult.hasId id) st = Some d ->
  Permissive.getById env id st = (Normal (Permissive.found d), st).
Proof.
  intros V F L.
  unfold Permissive.getById, tryCatch, Permissive.getByIdTry, bind,
    TestResult.findById.
  rewrite (castId_wellFormed id V). unfold TestResult.findByObjectId.
  rewrite F, L. reflexivity.
Qed.


(** A stored score is the submitted number. *)
Lemma coerced_same v value :
  TestResult.isNumberValue v = true ->
  (exists n, ToNumber v = Some n /\ value = JNum (orZero n)) ->
  sameValue value v.
Proof.
  intros N [n [T ->]]. destruct v; try discriminate N.
  simpl in T. inversion T; subst n0. simpl in N. apply negb_true_iff in N.
  unfold orZero. rewrite N. simpl.
  destruct n as [q | | |]; simpl; try exact I; try discriminate N.
  destruct (Z.eqb_spec (Qnum q) 0) as [Z0 | Z0]; simpl.
  - unfold Qeq. simpl. rewrite Z0. reflexivity.
  - apply Qeq_refl.
Qed.


End RoundTripFacts.

Lemma emptyLevel_valid :
  Permissive.validPayload (B := Reference.runtime) Reference.emptyLevelPayload.
Proof.
  unfold Permissive.validPayload. repeat apply conj.
  - exists "u1". split; [reflexivity | discriminate].
  - left. reflexivity.
  - intros name I. simpl in I.
    destruct I as [I | [I | [I | [I | []]]]]; subst name;
      eexists; split; reflexivity.
  - eexists. reflexivity.
  - intros name I. simpl in I.
    destruct I as [I | [I | [I | [I | [I | []]]]]]; subst name;
      [right | left | left | left | left]; reflexivity.
  - right. right. exists "male-tech". reflexivity.
  - intros name I. simpl in I.
    destruct I as [I | [I | []]]; subst name;
      [right; exists ""; reflexivity | left; reflexivity].
Qed.

(** C2, as stated, fails for the round trip: a valid payload (non-empty
    userId, four sequences of positive numbers, an analysis object) whose
    biasLevel is the empty string is answered 201, and the get by the
    returned id yields a record whose biasLevel is the default label, not the
    submitted empty string. *)
Lemma roundtrip_loses_empty_biasLevel :
  Permissive.validPayload (B := Reference.runtime) Reference.emptyLevelPayload
  /\ Permissive.post (B := Reference.runtime) (D := Reference.driver)
       (Reference.healthy Reference.id1 1000) Reference.emptyLevelPayload []
     = (Normal (created Reference.emptyLevelDoc), [Reference.emptyLevelDoc])
  /\ status (created Reference.emptyLevelDoc) = 201
  /\ Permissive.getById (D := Reference.driver)
       (Reference.healthy Reference.id2 2000) Reference.id1 [Reference.emptyLevelDoc]
     = (Normal (Permissive.found Reference.emptyLevelDoc), [Reference.emptyLevelDoc])
  /\ getProp (getProp Reference.emptyLevelPayload "analysis") "biasLevel" = JStr ""
  /\ getProp (getProp (recordOf (Permissive.found Reference.emptyLevelDoc)) "analysis")
       "biasLevel"
     = JStr Permissive.noBiasLabel
  /\ String.eqb Permissive.noBiasLabel "" = false.
Proof.
  split; [exact emptyLevel_valid |]. repeat split.
Qed.

(** C2 (amended). For every valid payload (non-empty string userId, four
    sequences of positive numbers, an analysis object with typed fields), with
    a ready connection, no storage fault and a fresh well-formed identifier,
    create answers 201 with the generated id and the submitted userId echoed
    back unchanged, and a subsequent get by the returned id answers 200 with a
    record whose four result sequences are exactly the submitted ones and
    whose analysis reproduces every submitted field of the record layout,
    provided the submitted biasType and biasLevel are not the empty string
    (an empty biasType is stored as null, an empty biasLevel as the default
    label; fields that were not submitted are back-filled with defaults). *)
Theorem create_then_get_roundtrip {B : Builtins} {D : Driver}
  (env env2 : Env) (payload : JSValue) (st : Store) :
  Permissive.validPayload payload ->
  Permissive.nonEmptyLabels payload ->
  readyState env = 1 ->
  fault env SaveOp = None ->
  existsb (TestResult.hasId (newId env)) st = false ->
  TestResult.isObjectIdString (newId env) = true ->
  fault env2 FindByIdOp = None ->
  exists d,
    Permissive.post env payload st = (Normal (created d), (st ++ [d])%list)
    /\ status (created d) = 201
    /\ getProp (recordOf (created d)) "id" = JStr (newId env)
    /\ getProp (recordOf (created d)) "userId" = getProp payload "userId"
    /\ Permissive.getById env2 (newId env) (st ++ [d])%list
       = (Normal (Permissive.found d), (st ++ [d])%list)
    /\ status (Permissive.found d) = 200
    /\ (forall name, In name TestResult.resultNames ->
        getProp (getProp (recordOf (Permissive.found d)) "results") name
        = getProp (getProp payload "results") name)
    /\ (forall name, In name TestResult.analysisNames ->
        getProp (getProp payload "analysis") name <> JUndefined ->
        sameValue
          (getProp (getProp (recordOf (Permissive.found d)) "analysis") name)
          (getProp (getProp payload "analysis") name)).
Proof.
  intros V L R F X O F2.
  destruct (acceptable_created env payload st R F (drawn_fresh _ _ X)
              (valid_acceptable _ V))
    as [data [P [_ E]]].
  apply permissive_prepared in P.
  destruct P as [Pu [_ [P1 [P2 [P3 [P4 [Pd [Pt [Pl [Pb [Q1 [Q2 [Q3 [Q4 _]]]]]]]]]]]]]].
  destruct V as [_ [_ [Hr [_ [Hn [Ht Hl]]]]]].
  exists (TestResult.newDoc env data).
  split; [exact E |]. split; [reflexivity |]. split; [reflexivity |].
  split; [exact Pu |]. split.
  { apply getById_found; try assumption.
    apply find_appended; [exact X |].
    unfold TestResult.hasId, TestResult.newDoc; simpl. apply String.eqb_refl. }
  split; [reflexivity |]. split.
  - assert (G : forall name value,
               In name TestResult.resultNames ->
               Permissive.filtered (getProp payload "results") name value ->
               value = getProp (getProp payload "results") name).
    { intros name value I [items' [Ei Ev]].
      destruct (Hr name I) as [items [Eg Ep]].
      rewrite optChain_getProp, Eg in Ei. unfold or_else in Ei. simpl in Ei.
      inversion Ei; subst items'. rewrite Ev, Eg, (filter_all _ _ Ep). reflexivity. }
    intros name I.
    change (TestResult.resultOf (TestResult.newDoc env data) name
            = getProp (getProp payload "results") name).
    pose proof I as I'. unfold TestResult.resultNames in I'. simpl in I'.
    destruct I' as [I' | [I' | [I' | [I' | []]]]]; subst name;
      unfold TestResult.resultOf, TestResult.newDoc; simpl;
      apply G; assumption.
  - assert (S : forall name value,
               In name TestResult.scoreNames ->
               getProp (getProp payload "analysis") name <> JUndefined ->
               Permissive.coerced (getProp payload "analysis") name value ->
               sameValue value (getProp (getProp payload "analysis") name)).
    { intros name value I U C. unfold Permissive.coerced in C.
      rewrite optChain_getProp in C.
      destruct (Hn name I) as [Eu | En]; [contradiction |].
      apply coerced_same; assumption. }
    destruct L as [L1 L2].
    rewrite optChain_getProp in Pt, Pl, Pb.
    intros name I U.
    change (sameValue (TestResult.analysisOf (TestResult.newDoc env data) name)
                      (getProp (getProp payload "analysis") name)).
    unfold TestResult.analysisNames in I. simpl in I.
    destruct I as [I | [I | [I | [I | [I | [I | [I | [I | []]]]]]]]]; subst name;
      unfold TestResult.analysisOf, TestResult.newDoc; simpl;
      try (apply S; [simpl; tauto | exact U | assumption]).
    + rewrite Pt. destruct Ht as [Eh | [Eh | [s Eh]]]; [contradiction | |].
      * rewrite Eh. reflexivity.
      * rewrite Eh in *. unfold or_else. simpl.
        destruct (String.eqb_spec s ""); [subst s; contradiction |]. reflexivity.
    + rewrite Pl.
      destruct (Hl "biasLevel" (or_introl eq_refl)) as [Eh | [s Eh]];
        [contradiction |].
      rewrite Eh in *. unfold or_else. simpl.
      destruct (String.eqb_spec s ""); [subst s; contradiction |]. reflexivity.
    + rewrite Pb.
      destruct (Hl "biasDirection" (or_intror (or_introl eq_refl))) as [Eh | [s Eh]];
        [contradiction |].
      rewrite Eh. unfold or_else. simpl.
      destruct (String.eqb_spec s ""); [subst s |]; reflexivity.
Qed.

Lemma example_valid :
  Permissive.validPayload (B := Reference.runtime) Reference.examplePayload.
Proof.
  unfold Permissive.validPayload. repeat apply conj.
  - exists "u1". split; [reflexivity | discriminate].
  - left. reflexivity.
  - intros name I. simpl in I.
    destruct I as [I | [I | [I | [I | []]]]]; subst name;
      eexists; split; reflexivity.
  - eexists. reflexivity.
  - intros name I. simpl in I.
    destruct I as [I | [I | [I | [I | [I | []]]]]]; subst name;
      [right | left | left | left | left]; reflexivity.
  - right. right. exists "male-tech". reflexivity.
  - intros name I. simpl in I.
    destruct I as [I | [I | []]]; subst name;
      [right; exists "weak"; reflexivity | left; reflexivity].
Qed.

Lemma example_labels : Permissive.nonEmptyLabels Reference.examplePayload.
Proof. split; discriminate. Qed.

(** The example of the specification: created at [id1], read back. *)
Lemma create_then_get_roundtrip_witness :
  exists d,
    Permissive.post (B := Reference.runtime) (D := Reference.driver)
      (Reference.healthy Reference.id1 1000) Reference.examplePayload []
    = (Normal (created d), ([] ++ [d])%list)
    /\ status (created d) = 201
    /\ getProp (recordOf (created d)) "id"
       = JStr (newId (Reference.healthy Reference.id1 1000))
    /\ getProp (recordOf (created d)) "userId"
       = getProp Reference.examplePayload "userId"
    /\ Permissive.getById (D := Reference.driver)
         (Reference.healthy Reference.id2 2000)
         (newId (Reference.healthy Reference.id1 1000)) ([] ++ [d])%list
       = (Normal (Permissive.found d), ([] ++ [d])%list)
    /\ status (Permissive.found d) = 200
    /\ (forall name, In name TestResult.resultNames ->
        getProp (getProp (recordOf (Permissive.found d)) "results") name
        = getProp (getProp Reference.examplePayload "results") name)
    /\ (forall name, In name TestResult.analysisNames ->
        getProp (getProp Reference.examplePayload "analysis") name <> JUndefined ->
        sameValue
          (getProp (getProp (recordOf (Permissive.found d)) "analysis") name)
          (getProp (getProp Reference.examplePayload "analysis") name)).
Proof.
  exact (create_then_get_roundtrip
           (B := Reference.runtime) (D := Reference.driver)
           (Reference.healthy Reference.id1 1000)
           (Reference.healthy Reference.id2 2000)
           Reference.examplePayload []
           example_valid example_labels eq_refl eq_refl eq_refl eq_refl eq_refl).
Defined.

(** ** Get by id *)

Section GetFacts.
Context {D : Driver}.









End GetFacts.




(** ** Counts *)

Section CountFacts.
Context {B : Builtins} {D : Driver}.

Lemma filter_true {A} (l : list A) : filter (fun _ => true) l = l.
Proof. induction l as [| x l IH]; simpl; [| rewrite IH]; reflexivity. Qed.

(** [router.get('/count/all')] when neither count meets a storage fault. *)
Lemma countAll_eq env st :
  fault env CountOp = None ->
  fault env CountSinceOp = None ->
  Permissive.countAll env st
  = (Normal (Permissive.counted
               (Z.of_nat (List.length st))
               (Z.of_nat (List.length
                            (filter (TestResult.createdSince (startOfDay (now env))) st)))),
     st).
Proof.
  intros F1 F2.
  unfold Permissive.countAll, tryCatch, Permissive.countAllTry, bind,
    TestResult.countDocuments, TestResult.countSince, TestResult.condition.
  rewrite F1, F2, filter_true. reflexivity.
Qed.

(** Requests that are all answered 201 append one document each, created
    at the write time of its request. *)
Lemma createAll_appends requests :
  forall st0 rs st,
    Permissive.createAll requests st0 = (Normal rs, st) ->
    (forall r, In r rs -> status r = 201) ->
    exists news,
      st = (st0 ++ news)%list
      /\ List.length news = List.length requests
      /\ Forall2 (fun req d => createdAt d = writeTime (fst req)) requests news.
Proof.
  induction requests as [| [env payload] rest IH]; intros st0 rs st H S.
  - simpl in H. inversion H; subst. exists []. rewrite app_nil_r.
    repeat split. constructor.
  - simpl in H.
    apply bind_normal_inv in H. destruct H as [r [st1 [H1 H]]].
    apply bind_normal_inv in H. destruct H as [rs' [st2 [H2 H]]].
    inversion H; subst; clear H.
    assert (S1 : status r = 201) by (apply S; left; reflexivity).
    destruct (post_created env payload st0 r st1 H1 S1)
      as [data [stored [_ [_ [_ [_ [_ [_ E]]]]]]]].
    destruct (IH st1 rs' st H2) as [news [E2 [L F]]].
    { intros r' I. apply S. right. exact I. }
    exists (TestResult.newDoc env stored :: news). subst st1 st.
    rewrite <- app_assoc. repeat split.
    + simpl. rewrite L. reflexivity.
    + constructor; [reflexivity | exact F].
Qed.

Lemma created_today_all since requests news :
  Forall2 (fun (req : Env * JSValue) d => createdAt d = writeTime (fst req))
          requests news ->
  (forall env payload, In (env, payload) requests -> since <= writeTime env) ->
  filter (TestResult.createdSince since) news = news.
Proof.
  intros F. induction F as [| [env payload] d requests news E F IH]; intros H.
  - reflexivity.
  - simpl. unfold TestResult.createdSince at 1. simpl in E. rewrite E.
    destruct (Z.leb_spec since (writeTime env)) as [_ | C].
    + rewrite IH; [reflexivity |]. intros e p I. apply (H e p). right. exact I.
    + exfalso. specialize (H env payload (or_introl eq_refl)). lia.
Qed.

Lemma created_before_none since st0 :
  (forall d, In d st0 -> createdAt d < since) ->
  filter (TestResult.createdSince since) st0 = [].
Proof.
  intros H. induction st0 as [| x st0 IH]; simpl; [reflexivity |].
  unfold TestResult.createdSince at 1.
  destruct (Z.leb_spec since (createdAt x)) as [C | _].
  - exfalso. specialize (H x (or_introl eq_refl)). lia.
  - apply IH. intros d I. apply H. right. exact I.
Qed.

End CountFacts.

(** C6. When neither count meets a storage fault, countAll answers 200
    with success true and a data object whose total is the number of stored
    records and whose today is the number of records whose creation timestamp
    is at or after the start of the current calendar day in server-local
    time, so today is at most total; and after N create requests that were
    all answered 201, each written within the current calendar day, total is
    the earlier count plus N (at least N) and today is the earlier count of
    the day plus N, that is N when no earlier record is of the day. *)
Theorem count_all_counts {B : Builtins} {D : Driver} (env : Env) (st : Store) :
  fault env CountOp = None ->
  fault env CountSinceOp = None ->
  exists r total today,
    Permissive.countAll env st = (Normal r, st)
    /\ status r = 200
    /\ getProp (body r) "success" = JBool true
    /\ getProp (getProp (body r) "data") "total" = JInt total
    /\ getProp (getProp (body r) "data") "today" = JInt today
    /\ total = Z.of_nat (List.length st)
    /\ today = Z.of_nat (List.length
                          (filter (fun d => startOfDay (now env) <=? createdAt d) st))
    /\ today <= total
    /\ forall requests st0 rs,
         Permissive.createAll requests st0 = (Normal rs, st) ->
         (forall r, In r rs -> status r = 201) ->
         (forall e p, In (e, p) requests -> startOfDay (now env) <= writeTime e) ->
         total = Z.of_nat (List.length st0) + Z.of_nat (List.length requests)
         /\ total >= Z.of_nat (List.length requests)
         /\ today
            = Z.of_nat (List.length
                          (filter (fun d => startOfDay (now env) <=? createdAt d) st0))
              + Z.of_nat (List.length requests)
         /\ ((forall d, In d st0 -> createdAt d < startOfDay (now env)) ->
             today = Z.of_nat (List.length requests)).
Proof.
  intros F1 F2. do 3 eexists.
  split; [apply countAll_eq; assumption |].
  split; [reflexivity |]. split; [reflexivity |]. split; [reflexivity |].
  split; [reflexivity |]. split; [reflexivity |]. split; [reflexivity |].
  split.
  - apply inj_le. apply filter_length_le.
  - intros requests st0 rs H S T.
    destruct (createAll_appends requests st0 rs st H S) as [news [E [L F]]].
    subst st.
    change (fun d => startOfDay (now env) <=? createdAt d)
      with (TestResult.createdSince (startOfDay (now env))).
    rewrite filter_app, !length_app, !Nat2Z.inj_add.
    rewrite (created_today_all _ _ _ F T), L.
    repeat split; try lia.
    intros O. rewrite (created_before_none _ _ O). simpl. lia.
Qed.

(** One record of the day in the collection: total 1, today 1. *)
Lemma count_all_counts_witness :
  exists r total today,
    Permissive.countAll (B := Reference.runtime) (D := Reference.driver)
      (Reference.healthy Reference.id2 3000) [Reference.exampleDoc]
    = (Normal r, [Reference.exampleDoc])
    /\ status r = 200
    /\ getProp (body r) "success" = JBool true
    /\ getProp (getProp (body r) "data") "total" = JInt total
    /\ getProp (getProp (body r) "data") "today" = JInt today
    /\ total = Z.of_nat (List.length [Reference.exampleDoc])
    /\ today = Z.of_nat (List.length
                          (filter (fun d =>
                                     startOfDay (Builtins := Reference.runtime)
                                       (now (Reference.healthy Reference.id2 3000))
                                     <=? createdAt d)
                                  [Reference.exampleDoc]))
    /\ today <= total
    /\ forall requests st0 rs,
         Permissive.createAll (B := Reference.runtime) (D := Reference.driver)
           requests st0 = (Normal rs, [Reference.exampleDoc]) ->
         (forall r, In r rs -> status r = 201) ->
         (forall e p, In (e, p) requests ->
                      startOfDay (Builtins := Reference.runtime)
                        (now (Reference.healthy Reference.id2 3000)) <= writeTime e) ->
         total = Z.of_nat (List.length st0) + Z.of_nat (List.length requests)
         /\ total >= Z.of_nat (List.length requests)
         /\ today
            = Z.of_nat (List.length
                          (filter (fun d =>
                                     startOfDay (Builtins := Reference.runtime)
                                       (now (Reference.healthy Reference.id2 3000))
                                     <=? createdAt d)
                                  st0))
              + Z.of_nat (List.length requests)
         /\ ((forall d, In d st0 ->
                        createdAt d < startOfDay (Builtins := Reference.runtime)
                                        (now (Reference.healthy Reference.id2 3000))) ->
             today = Z.of_nat (List.length requests)).
Proof.
  exact (count_all_counts (B := Reference.runtime) (D := Reference.driver)
           (Reference.healthy Reference.id2 3000) [Reference.exampleDoc]
           eq_refl eq_refl).
Defined.

(** ** The list endpoint *)

Section SortFacts.
Variable rank : Doc -> Z.








End SortFacts.



(** ** Pagination arithmetic *)

Section PageFacts.





End PageFacts.

Section ListFacts.
Context {B : Builtins} {D : Driver}.









(** A [skip] below zero: the database rejects the query, whatever the driver
    does with the values left to it, and the handler answers 500. *)
Lemma getList_negative_skip env query st np nl :
  ToNumber (withDefault (getProp query "page") (JInt 1)) = Some np ->
  ToNumber (withDefault (getProp query "limit") (JInt 20)) = Some nl ->
  TestResult.isNegative (num_mul (num_sub np (num_of_Z 1)) nl) = true ->
  Permissive.getList env query st = (Normal Permissive.queryError, st).
Proof.
  intros Tp Tl N.
  unfold Permissive.getList, tryCatch, Permissive.getListTry.
  unfold bind at 1. unfold toNumber at 1. rewrite Tp. cbn [liftOption ret].
  unfold bind at 1. unfold toNumber at 1. rewrite Tl. cbn [liftOption ret].
  unfold bind at 1. unfold TestResult.find.
  destruct (fault env FindOp); [reflexivity |].
  destruct (TestResult.condition _) as [selects | msg]; [| reflexivity].
  unfold TestResult.window.
  assert (Z0 : num_to_nat (num_mul (num_sub np (num_of_Z 1)) nl) = None).
  { destruct (num_mul (num_sub np (num_of_Z 1)) nl) as [q | | |];
      try reflexivity. simpl in N. apply Z.ltb_lt in N. cbn [num_to_nat].
    destruct (Z.leb_spec 0 (Qnum q)); [lia | reflexivity]. }
  rewrite Z0, N. reflexivity.
Qed.

End ListFacts.




(** The list of the specification: limit 20, page 1, empty collection. *)
Example list_empty_collection :
  Permissive.getList (B := Reference.runtime) (D := Reference.driver)
    (Reference.healthy Reference.id1 1000)
    (JObj [("limit", JStr "20"); ("page", JStr "1")]) []
  = (Normal (Permissive.listed [] (num_of_Z 1) (num_of_Z 20) 0), [])
  /\ getProp (body (Permissive.listed [] (num_of_Z 1) (num_of_Z 20) 0)) "data" = JArr []
  /\ getProp (body (Permissive.listed [] (num_of_Z 1) (num_of_Z 20) 0)) "pagination"
     = JObj [("page", JInt 1); ("limit", JInt 20); ("total", JInt 0); ("pages", JInt 0)].
Proof. repeat split. Qed.

(** ** The submission client *)

Section ClientFacts.
Context {B : Builtins}.
Variable browser : Client.Browser.

Lemma checkApiHealth_eq st :
  Client.checkApiHealth browser st
  = (Normal (Client.healthProbe browser), Client.sent Client.healthRequest st).
Proof.
  unfold Client.checkApiHealth, tryCatch, bind, Client.fetch, Client.healthProbe,
    Client.sent.
  destruct (Client.network browser Client.healthRequest) as [msg | r];
    [reflexivity |].
  destruct (Client.resp_ok r); [| reflexivity].
  unfold Client.responseJson, liftOption.
  destruct (JSON_parse (Client.resp_text r)); reflexivity.
Qed.

Lemma testAtlasConnection_eq st :
  Client.testAtlasConnection browser st
  = (Normal (Client.atlasProbe browser), Client.sent Client.atlasRequest st).
Proof.
  unfold Client.testAtlasConnection, tryCatch, Client.atlasProbe, Client.sent.
  unfold bind at 1. unfold Client.fetch.
  destruct (Client.network browser Client.atlasRequest) as [msg | r];
    [reflexivity |].
  destruct (Client.resp_ok r); [| reflexivity].
  unfold bind, Client.responseJson, liftOption, getPropChecked.
  destruct (JSON_parse (Client.resp_text r)) as [v |]; [| reflexivity].
  cbn [ret andb]. destruct (isNullish v); reflexivity.
Qed.

Lemma getOrCreateUserId_eq st :
  Client.getOrCreateUserId browser st
  = (Normal (Client.userIdOf browser st),
     Client.mkClientState (Client.requests st) (Some (Client.userIdOf browser st))).
Proof.
  unfold Client.getOrCreateUserId, Client.userIdOf.
  destruct st as [reqs [u |]]; cbn [Client.localStorage_userId Client.requests];
    [| reflexivity].
  destruct (truthy (JStr u)); reflexivity.
Qed.



Lemma steady_ret {S A} (a : A) : steady (S := S) (ret a).
Proof. intros st. reflexivity. Qed.

Lemma steady_throw {S A} e : steady (S := S) (A := A) (throw e).
Proof. intros st. reflexivity. Qed.

Lemma steady_bind {S A C} (m : Eff S A) (k : A -> Eff S C) :
  steady m -> (forall a, steady (k a)) -> steady (bind m k).
Proof.
  intros Hm Hk st. unfold bind. specialize (Hm st).
  destruct (m st) as [[a | e] st1]; simpl in Hm; subst st1.
  - apply Hk.
  - reflexivity.
Qed.

Lemma steady_tryCatch {S A} (m : Eff S A) (h : JSError -> Eff S A) :
  steady m -> (forall e, steady (h e)) -> steady (tryCatch m h).
Proof.
  intros Hm Hh st. unfold tryCatch. specialize (Hm st).
  destruct (m st) as [[a | e] st1]; simpl in Hm; subst st1.
  - reflexivity.
  - apply Hh.
Qed.

Lemma steady_liftOption {S A} (o : option A) e : steady (S := S) (liftOption o e).
Proof. destruct o; [apply steady_ret | apply steady_throw]. Qed.

Lemma steady_getPropChecked {S} v k : steady (S := S) (getPropChecked v k).
Proof.
  unfold getPropChecked. destruct (isNullish v);
    [apply steady_throw | apply steady_ret].
Qed.

Lemma steady_statusError r errorData : steady (Client.statusError r errorData).
Proof.
  assert (G : forall fallback, steady (Client.detail errorData fallback)).
  { intros fallback. unfold Client.detail. apply steady_bind.
    - apply steady_getPropChecked.
    - intros a. apply steady_liftOption. }
  unfold Client.statusError.
  destruct (Client.resp_status r =? 400);
    [| destruct (Client.resp_status r =? 409);
       [| destruct (Client.resp_status r =? 503)]];
    (apply steady_bind; [apply G | intros; apply steady_ret]).
Qed.

Lemma steady_saveCatch e : steady (Client.saveCatch e).
Proof.
  unfold Client.saveCatch.
  destruct (String.eqb (err_name e) "TypeError"
            && Client.includes "fetch" (err_message e)); apply steady_throw.
Qed.

(** What follows the create request changes nothing. *)
Lemma steady_after_create r :
  steady
    (tryCatch
       (if negb (Client.resp_ok r) then
          msg <- Client.statusError r (Client.errorDataOf r) ;;
          throw (Client.ErrorOf msg)
        else
          result <- Client.responseJson r ;;
          getPropChecked result "success" ;;;
          ret result)
       Client.saveCatch).
Proof.
  apply steady_tryCatch; [| apply steady_saveCatch].
  destruct (negb (Client.resp_ok r)).
  - apply steady_bind; [apply steady_statusError | intros; apply steady_throw].
  - apply steady_bind; [apply steady_liftOption |].
    intros a. apply steady_bind; [apply steady_getPropChecked |].
    intros; apply steady_ret.
Qed.

(** [saveTestResults] up to the create request. *)
Lemma saveTestResults_probes data st :
  Client.saveTestResults browser data st =
  let st0 := Client.mkClientState (Client.requests st)
               (Some (Client.userIdOf browser st)) in
  let payload := Client.buildPayload browser (Client.userIdOf browser st) data in
  if negb (Client.healthProbe browser) then
    (Throw (Client.ErrorOf ("Atlas 儲存失敗: " ++ Client.healthUnreachable)),
     Client.sent Client.healthRequest st0)
  else if negb (Client.atlasProbe browser) then
    (Throw (Client.ErrorOf ("Atlas 儲存失敗: " ++ Client.atlasUnreachable)),
     Client.sent Client.atlasRequest (Client.sent Client.healthRequest st0))
  else
    match Client.network browser (Client.createRequest payload) with
    | Client.Rejected msg =>
        Client.saveCatch (TypeError msg)
          (Client.sent (Client.createRequest payload)
             (Client.sent Client.atlasRequest (Client.sent Client.healthRequest st0)))
    | Client.Fulfilled r =>
        tryCatch
          (if negb (Client.resp_ok r) then
             msg <- Client.statusError r (Client.errorDataOf r) ;;
             throw (Client.ErrorOf msg)
           else
             result <- Client.responseJson r ;;
             getPropChecked result "success" ;;;
             ret result)
          Client.saveCatch
          (Client.sent (Client.createRequest payload)
             (Client.sent Client.atlasRequest (Client.sent Client.healthRequest st0)))
    end.
Proof.
  unfold Client.saveTestResults. unfold tryCatch at 1. unfold Client.saveTry.
  unfold bind at 1. rewrite getOrCreateUserId_eq.
  unfold bind at 1. rewrite checkApiHealth_eq.
  destruct (Client.healthProbe browser); cbn [negb]; [| reflexivity].
  unfold bind at 1. rewrite testAtlasConnection_eq.
  destruct (Client.atlasProbe browser); cbn [negb]; [| reflexivity].
  cbv zeta.
  unfold bind at 1. unfold Client.fetch at 1.
  fold (Client.sent
          (Client.createRequest
             (Client.buildPayload browser (Client.userIdOf browser st) data))
          (Client.sent Client.atlasRequest
             (Client.sent Client.healthRequest
                (Client.mkClientState (Client.requests st)
                   (Some (Client.userIdOf browser st)))))).
  destruct (Client.network browser
              (Client.createRequest
                 (Client.buildPayload browser (Client.userIdOf browser st) data)))
    as [msg | r]; [reflexivity |].
  unfold tryCatch, Client.errorDataOf. reflexivity.
Qed.

End ClientFacts.


(** A run against a service that answers the create 409: three requests in
    order, and the error of a duplicate. *)
Example client_run_duplicate :
  Client.saveTestResults (B := Reference.runtime) Reference.duplicateBrowser
    Reference.exampleData Reference.freshClient
  = (Throw (Client.ErrorOf ("Atlas 儲存失敗: " ++ "重複資料: " ++ "此測試結果已存在")),
     Client.mkClientState
       [Client.healthRequest; Client.atlasRequest;
        Client.createRequest (B := Reference.runtime)
          (Client.buildPayload Reference.duplicateBrowser "user_1000_abc1234"
             Reference.exampleData)]
       (Some "user_1000_abc1234")).
Proof. reflexivity. Qed.

(** A run against a service whose storage probe fails: two requests, no
    create, and the error about the storage. *)
Example client_run_no_storage :
  Client.saveTestResults (B := Reference.runtime) Reference.noStorageBrowser
    Reference.exampleData Reference.freshClient
  = (Throw (Client.ErrorOf ("Atlas 儲存失敗: " ++ Client.atlasUnreachable)),
     Client.mkClientState
       [Client.healthRequest; Client.atlasRequest]
       (Some "user_1000_abc1234")).
Proof. reflexivity. Qed.

(** One create of the example payload in an empty collection, then the
    counts of the same day: total 1, today 1. *)
Example count_after_one_create :
  Permissive.createAll (B := Reference.runtime) (D := Reference.driver)
    [(Reference.healthy Reference.id1 1000, Reference.examplePayload)] []
  = (Normal [created Reference.exampleDoc], [Reference.exampleDoc])
  /\ Permissive.countAll (B := Reference.runtime) (D := Reference.driver)
       (Reference.healthy Reference.id2 3000) [Reference.exampleDoc]
     = (Normal (Permissive.counted 1 1), [Reference.exampleDoc]).
Proof. split; reflexivity. Qed.

(** ** Further properties of the handlers and of the client *)

(** X1. The deployed create handler always answers and never throws; an
    answer other than 201 leaves the collection as it was, and a 201 answer
    comes with exactly one record appended. *)
Theorem create_always_answers {B : Builtins} {D : Driver}
  (env : Env) (payload : JSValue) (st : Store) :
  exists r st',
    Permissive.post env payload st = (Normal r, st')
    /\ ((status r =? 201) = false -> st' = st)
    /\ ((status r =? 201) = true -> exists d, st' = (st ++ [d])%list /\ r = created d).
Proof.
  assert (K : forall e, (status (Permissive.errorResponse env e) =? 201) = false).
  { intros e. apply Z.eqb_neq. apply errorResponse_status. }
  destruct (post_cases env payload st) as [P1 | [P2 | [P3 | P4]]].
  - destruct P1 as [_ E]. rewrite E. do 2 eexists.
    split; [reflexivity |]. split; [reflexivity | discriminate].
  - destruct P2 as [_ [_ [e E]]]. rewrite E. do 2 eexists.
    split; [reflexivity |]. split; [reflexivity |]. rewrite K. discriminate.
  - destruct P3 as [_ [_ [_ E]]]. rewrite E. do 2 eexists.
    split; [reflexivity |]. split; [reflexivity | discriminate].
  - destruct P4 as [_ [_ [_ [[e [_ E]] | [data [_ [[e [_ E]] | [stored [_ [_ [_ E]]]]]]]]]]];
      rewrite E; do 2 eexists; (split; [reflexivity |]).
    + split; [reflexivity |]. rewrite K. discriminate.
    + split; [reflexivity |]. rewrite K. discriminate.
    + split; [discriminate |]. intros _. eexists. split; reflexivity.
Qed.

(** The steps of the object literal throw type errors only. *)
Lemma dateOrNow_cases {B : Builtins} env v (u : unit) :
  (exists w, dateOrNow env v u = (Normal w, u))
  \/ (exists msg, dateOrNow env v u = (Throw (TypeError msg), u)).
Proof.
  unfold dateOrNow, newDate, liftOption.
  destruct (truthy v); [| left; eexists; reflexivity].
  destruct (DateFromValue v); simpl;
    [left | right]; eexists; reflexivity.
Qed.

Lemma numberOrZero_cases {B : Builtins} v (u : unit) :
  (exists w, numberOrZero v u = (Normal w, u))
  \/ (exists msg, numberOrZero v u = (Throw (TypeError msg), u)).
Proof.
  unfold numberOrZero, liftOption, bind.
  destruct (ToNumber v); simpl; [left | right]; eexists; reflexivity.
Qed.

Lemma strict_literal_throws {B : Builtins} env payload e :
  fst (Strict.testResultData env payload tt) = Throw e ->
  exists msg, e = TypeError msg.
Proof.
  unfold Strict.testResultData. cbv zeta.
  unfold bind at 1.
  destruct (dateOrNow_cases env (getProp payload "testDate") tt)
    as [[w ->] | [msg ->]];
    [| intros H; inversion H; eexists; reflexivity].
  repeat (unfold bind at 1;
          match goal with
          | |- context [numberOrZero ?v tt] =>
              destruct (numberOrZero_cases v tt) as [[? ->] | [? ->]];
              [| intros H; inversion H; eexists; reflexivity]
          end).
  intros H. discriminate H.
Qed.

(** The [catch] block of the strict create handler on a type error. *)
Lemma strict_postCatch_typeError {B : Builtins} {D : Driver} env msg st :
  Strict.postCatch env (TypeError msg) st
  = (Normal (mkResponse 500
               (JObj [("success", JBool false);
                      ("message", JStr "伺服器內部錯誤");
                      ("error", JStr "INTERNAL_SERVER_ERROR");
                      ("details",
                       if development env then JStr msg else JUndefined)])),
     st).
Proof. reflexivity. Qed.

(** X2. The strict router stores nothing.  Its create handler always
    answers, with 400 or 500, and leaves the collection as it was; a request
    that passes the four checks (userId, results and analysis given, the four
    result fields arrays) is answered 500 with success false and the code
    INTERNAL_SERVER_ERROR, and so is a request without a body: the import of
    the model in models/TestResult.ts names that file itself, so the
    [TestResult] the handler constructs is the router, and the construction
    throws before anything is written. *)
Theorem strict_create_never_stores {B : Builtins} {D : Driver}
  (env : Env) (payload : JSValue) (st : Store) :
  exists r,
    Strict.post env payload st = (Normal r, st)
    /\ (status r = 400 \/ status r = 500)
    /\ (isNullish payload = true
        \/ (truthy (getProp payload "userId") = true
            /\ truthy (getProp payload "results") = true
            /\ truthy (getProp payload "analysis") = true
            /\ forall name, In name Strict.requiredArrays ->
                 Array_isArray (getProp (getProp payload "results") name) = true) ->
        status r = 500
        /\ getProp (body r) "success" = JBool false
        /\ errorCode r = JStr "INTERNAL_SERVER_ERROR").
Proof.
  rewrite strict_post_eq.
  destruct (isNullish payload) eqn:N.
  { rewrite strict_postCatch_typeError. eexists. split; [reflexivity |].
    split; [right; reflexivity |]. intros _. repeat split. }
  destruct (truthy (getProp payload "userId")) eqn:U; cbn [negb].
  2:{ eexists. split; [reflexivity |]. split; [left; reflexivity |].
      intros [H | [H _]]; discriminate H. }
  destruct (truthy (getProp payload "results")) eqn:R; cbn [negb].
  2:{ eexists. split; [reflexivity |]. split; [left; reflexivity |].
      intros [H | [_ [H _]]]; discriminate H. }
  destruct (truthy (getProp payload "analysis")) eqn:A; cbn [negb].
  2:{ eexists. split; [reflexivity |]. split; [left; reflexivity |].
      intros [H | [_ [_ [H _]]]]; discriminate H. }
  destruct (Strict.firstNonArray (getProp payload "results")) as [name |] eqn:F.
  { eexists. split; [reflexivity |]. split; [left; reflexivity |].
    intros [H | [_ [_ [_ H]]]]; [discriminate H |].
    exfalso. unfold Strict.firstNonArray in F. apply find_some in F.
    destruct F as [F1 F2]. rewrite (H name F1) in F2. discriminate F2. }
  destruct (fst (Strict.testResultData env payload tt)) as [data | e] eqn:P.
  - rewrite strict_postCatch_typeError. eexists. split; [reflexivity |].
    split; [right; reflexivity |]. intros _. repeat split.
  - destruct (strict_literal_throws env payload e P) as [msg ->].
    rewrite strict_postCatch_typeError. eexists. split; [reflexivity |].
    split; [right; reflexivity |]. intros _. repeat split.
Qed.

(** The example payload of the specification on the strict router: 500, and
    the collection stays empty. *)
Example strict_run_example :
  Strict.post (B := Reference.runtime) (D := Reference.driver)
    (Reference.healthy Reference.id1 1000) Reference.examplePayload []
  = (Normal (mkResponse 500
               (JObj [("success", JBool false);
                      ("message", JStr "伺服器內部錯誤");
                      ("error", JStr "INTERNAL_SERVER_ERROR");
                      ("details", JUndefined)])),
     []).
Proof. reflexivity. Qed.

(** The same fault in the permissive router is swallowed: the answer is
    201. *)
Example permissive_verify_fault_is_swallowed :
  Permissive.post (B := Reference.runtime) (D := Reference.driver)
    (Reference.verifyFails Reference.id1 1000) Reference.bareAnalysisPayload []
  = (Normal (created Reference.bareAnalysisDoc), [Reference.bareAnalysisDoc]).
Proof. reflexivity. Qed.

Lemma userIdOf_stored {B : Builtins} (browser : Client.Browser)
  (st st' : Client.ClientState) :
  Client.localStorage_userId st' = Some (Client.userIdOf browser st) ->
  Client.userIdOf browser st' = Client.userIdOf browser st.
Proof.
  intros H. unfold Client.userIdOf at 1. rewrite H.
  destruct (truthy (JStr (Client.userIdOf browser st))) eqn:T; [reflexivity |].
  unfold Client.userIdOf in *.
  destruct (Client.localStorage_userId st) as [u |]; [| reflexivity].
  destruct (truthy (JStr u)) eqn:U; [congruence | reflexivity].
Qed.

(** X3. Whatever the outcome of a submission, the user identifier it used is
    the one local storage holds afterwards, and a later submission uses the
    same identifier. *)
Theorem client_user_id_is_stable {B : Builtins}
  (browser : Client.Browser) (data : Client.TestResultData) (st : Client.ClientState) :
  exists c st',
    Client.saveTestResults browser data st = (c, st')
    /\ Client.localStorage_userId st' = Some (Client.userIdOf browser st)
    /\ Client.userIdOf browser st' = Client.userIdOf browser st.
Proof.
  assert (G : forall c st',
             Client.saveTestResults browser data st = (c, st') ->
             Client.localStorage_userId st' = Some (Client.userIdOf browser st)).
  { intros c st'. rewrite saveTestResults_probes. cbv zeta.
    destruct (Client.healthProbe browser); cbn [negb].
    2:{ intros E. inversion E. reflexivity. }
    destruct (Client.atlasProbe browser); cbn [negb].
    2:{ intros E. inversion E. reflexivity. }
    destruct (Client.network browser _) as [msg | r].
    - intros E.
      match type of E with
      | ?m ?s = _ => pose proof (steady_saveCatch (TypeError msg) s) as S
      end.
      rewrite E in S. simpl in S. subst st'. reflexivity.
    - intros E.
      match type of E with
      | ?m ?s = _ => pose proof (steady_after_create r s) as S
      end.
      rewrite E in S. simpl in S. subst st'. reflexivity. }
  destruct (Client.saveTestResults browser data st) as [c st'] eqn:E.
  exists c, st'. split; [reflexivity |].
  split; [exact (G c st' eq_refl) |].
  apply userIdOf_stored. exact (G c st' eq_refl).
Qed.

(** X4. When both probes pass and the create request gets no response, the
    error raised carries the network guidance text when the failure message
    mentions fetch, and the message behind the general prefix otherwise. *)
Theorem client_network_failure {B : Builtins}
  (browser : Client.Browser) (data : Client.TestResultData)
  (st : Client.ClientState) (msg : string) :
  Client.healthProbe browser = true ->
  Client.atlasProbe browser = true ->
  Client.network browser
    (Client.createRequest
       (Client.buildPayload browser (Client.userIdOf browser st) data))
  = Client.Rejected msg ->
  fst (Client.saveTestResults browser data st)
  = Throw (Client.ErrorOf
             (if Client.includes "fetch" msg then Client.networkFailure
              else "Atlas 儲存失敗: " ++ msg)).
Proof.
  intros H A N. rewrite saveTestResults_probes. cbv zeta.
  rewrite H, A, N. cbn [negb].
  unfold Client.saveCatch. cbn [err_name err_message TypeError].
  unfold TypeError. cbn [err_name err_message String.eqb].
  destruct (Client.includes "fetch" msg); reflexivity.
Qed.

Lemma client_network_failure_witness :
  fst (Client.saveTestResults (B := Reference.runtime) Reference.offlineBrowser
         Reference.exampleData Reference.freshClient)
  = Throw (Client.ErrorOf
             (if Client.includes "fetch" "Failed to fetch" then Client.networkFailure
              else "Atlas 儲存失敗: " ++ "Failed to fetch")).
Proof.
  exact (client_network_failure (B := Reference.runtime) Reference.offlineBrowser
           Reference.exampleData Reference.freshClient "Failed to fetch"
           eq_refl eq_refl eq_refl).
Defined.

(** ** The answers of the deployed create handler *)

Lemma errorResponse_pairs {B : Builtins} {D : Driver} env e :
  In (status (Permissive.errorResponse env e), errorCode (Permissive.errorResponse env e))
     [(400, JStr "VALIDATION_ERROR"); (409, JStr "DUPLICATE_ENTRY");
      (503, JStr "ATLAS_CONNECTION_ERROR"); (500, JStr "ATLAS_SAVE_ERROR")].
Proof.
  unfold Permissive.errorResponse.
  destruct (String.eqb (err_name e) "ValidationError"); [left; reflexivity |].
  destruct (is11000 (err_code e)); [right; left; reflexivity |].
  destruct (String.eqb (err_name e) "MongoNetworkError"
            || String.eqb (err_name e) "MongooseServerSelectionError");
    [right; right; left; reflexivity | right; right; right; left; reflexivity].
Qed.

(** X5. The deployed create handler answers with one of seven pairs of
    status and error code, and with nothing else: 201 without a code, 400
    with MISSING_USER_ID or VALIDATION_ERROR, 409 with DUPLICATE_ENTRY, 503
    with DATABASE_NOT_CONNECTED or ATLAS_CONNECTION_ERROR, 500 with
    ATLAS_SAVE_ERROR. *)
Theorem create_answers_catalogue {B : Builtins} {D : Driver}
  (env : Env) (payload : JSValue) (st : Store) :
  exists r st',
    Permissive.post env payload st = (Normal r, st')
    /\ In (status r, errorCode r)
          [(201, JUndefined);
           (400, JStr "MISSING_USER_ID"); (400, JStr "VALIDATION_ERROR");
           (409, JStr "DUPLICATE_ENTRY");
           (503, JStr "DATABASE_NOT_CONNECTED"); (503, JStr "ATLAS_CONNECTION_ERROR");
           (500, JStr "ATLAS_SAVE_ERROR")].
Proof.
  assert (K : forall e,
             In (status (Permissive.errorResponse env e),
                 errorCode (Permissive.errorResponse env e))
                [(201, JUndefined);
                 (400, JStr "MISSING_USER_ID"); (400, JStr "VALIDATION_ERROR");
                 (409, JStr "DUPLICATE_ENTRY");
                 (503, JStr "DATABASE_NOT_CONNECTED"); (503, JStr "ATLAS_CONNECTION_ERROR");
                 (500, JStr "ATLAS_SAVE_ERROR")]).
  { intros e. destruct (errorResponse_pairs env e) as [H | [H | [H | [H | []]]]];
      rewrite <- H; simpl; tauto. }
  destruct (post_cases env payload st) as [P1 | [P2 | [P3 | P4]]].
  - destruct P1 as [_ E]. rewrite E. do 2 eexists. split; [reflexivity |].
    simpl. tauto.
  - destruct P2 as [_ [_ [e E]]]. rewrite E. do 2 eexists.
    split; [reflexivity | apply K].
  - destruct P3 as [_ [_ [_ E]]]. rewrite E. do 2 eexists.
    split; [reflexivity |]. simpl. tauto.
  - destruct P4 as [_ [_ [_ [[e [_ E]] | [data [_ [[e [_ E]] | [stored [_ [_ [_ E]]]]]]]]]]];
      rewrite E; do 2 eexists; (split; [reflexivity |]); try apply K.
    simpl. tauto.
Qed.

(** ** The two catch blocks *)

Lemma detailEntries_cases {B : Builtins} {D : Driver} fields (st : Store) :
  (exists entries, Strict.detailEntries fields st = (Normal entries, st))
  \/ (exists t, Strict.detailEntries fields st = (Throw t, st)
                /\ exists k v, In (k, v) fields /\ isNullish v = true).
Proof.
  induction fields as [| [k v] rest IH].
  - left. eexists. reflexivity.
  - cbn [Strict.detailEntries]. unfold bind, ret, throw.
    destruct (isNullish v) eqn:N.
    + right. eexists. split; [reflexivity |]. exists k, v. split; [left; reflexivity | exact N].
    + destruct IH as [[entries E] | [t [E [k' [v' [I N']]]]]]; rewrite E.
      * left. eexists. reflexivity.
      * right. eexists. split; [reflexivity |]. exists k', v'.
        split; [right; exact I | exact N'].
Qed.

(** X6. The catch blocks of the two create handlers test the same
    conditions in a different order.  An error that is both a duplicate key
    (code 11000) and a ValidationError is answered 400 VALIDATION_ERROR by
    the permissive handler and 409 DUPLICATE_ENTRY by the strict one; on
    every other error the two answer with the same status, with the same
    code unless the status is 500, or the strict block throws, which it does
    only for a ValidationError whose errors, or one entry of them, is null or
    undefined; the permissive block answers 400 there.  Neither block writes
    to the collection. *)
Theorem catch_blocks_precedence {B : Builtins} {D : Driver}
  (env : Env) (e : JSError) (st : Store) :
  if is11000 (err_code e) && String.eqb (err_name e) "ValidationError" then
    status (Permissive.errorResponse env e) = 400
    /\ errorCode (Permissive.errorResponse env e) = JStr "VALIDATION_ERROR"
    /\ exists r, Strict.postCatch env e st = (Normal r, st)
                 /\ status r = 409 /\ errorCode r = JStr "DUPLICATE_ENTRY"
  else
    match Strict.postCatch env e st with
    | (Normal r, st') =>
        st' = st
        /\ status r = status (Permissive.errorResponse env e)
        /\ (if status r =? 500
            then errorCode r = JStr "INTERNAL_SERVER_ERROR"
                 /\ errorCode (Permissive.errorResponse env e) = JStr "ATLAS_SAVE_ERROR"
            else errorCode r = errorCode (Permissive.errorResponse env e))
    | (Throw _, st') =>
        st' = st
        /\ String.eqb (err_name e) "ValidationError" = true
        /\ status (Permissive.errorResponse env e) = 400
        /\ (isNullish (err_errors e) = true
            \/ exists k v, In (k, v) (match err_errors e with
                                      | JObj fields => fields
                                      | _ => []
                                      end)
                           /\ isNullish v = true)
    end.
Proof.
  unfold Strict.postCatch, Permissive.errorResponse.
  destruct (is11000 (err_code e)) eqn:C;
    destruct (String.eqb (err_name e) "ValidationError") eqn:V; cbn [andb].
  - split; [reflexivity |]. split; [reflexivity |].
    eexists. split; [reflexivity |]. split; reflexivity.
  - cbn [ret]. split; [reflexivity |]. split; reflexivity.
  - unfold Strict.validationDetails.
    destruct (err_errors e) as [| | b | n | s | t | items | fields] eqn:Er;
      try (cbn [throw bind]; unfold bind, throw;
           split; [reflexivity |]; split; [reflexivity |];
           split; [reflexivity |]; left; reflexivity);
      try (unfold bind, ret; split; [reflexivity |]; split; reflexivity).
    unfold bind at 1. unfold bind at 1.
    destruct (detailEntries_cases fields st) as [[entries E] | [t [E X]]]; rewrite E.
    + cbn [ret]. split; [reflexivity |]. split; reflexivity.
    + split; [reflexivity |]. split; [reflexivity |]. split; [reflexivity |].
      right. exact X.
  - destruct (String.eqb (err_name e) "MongoNetworkError"
              || String.eqb (err_name e) "MongooseServerSelectionError");
      cbn [ret]; (split; [reflexivity |]); split; try reflexivity.
    split; reflexivity.
Qed.

(** ** The object literals of the two create handlers *)

Section TwoLiterals.
Context {B : Builtins} {D : Driver}.

Lemma truthy_not_nullish v : truthy v = true -> isNullish v = false.
Proof. destruct v; simpl; congruence. Qed.

Lemma firstNonArray_none results :
  Strict.firstNonArray results = None ->
  forall name, In name Strict.requiredArrays ->
  exists items, getProp results name = JArr items.
Proof.
  unfold Strict.firstNonArray, Strict.requiredArrays. cbn [find].
  intros H name I.
  destruct (getProp results "maleComputer") eqn:E1; try discriminate H;
  destruct (getProp results "femaleSkincare") eqn:E2; try discriminate H;
  destruct (getProp results "femaleComputer") eqn:E3; try discriminate H;
  destruct (getProp results "maleSkincare") eqn:E4; try discriminate H.
  destruct I as [<- | [<- | [<- | [<- | []]]]]; eexists; eassumption.
Qed.

Lemma permissive_of_strict env payload data :
  Strict.firstNonArray (getProp payload "results") = None ->
  Strict.testResultData env payload tt = (Normal data, tt) ->
  Permissive.testResultData env payload tt
  = (Normal
       (mkData (userId data) (testDate data)
          (mkResults
             (JArr (filter Permissive.isPositiveTime
                      (Permissive.submittedSequence payload "maleComputer")))
             (JArr (filter Permissive.isPositiveTime
                      (Permissive.submittedSequence payload "femaleSkincare")))
             (JArr (filter Permissive.isPositiveTime
                      (Permissive.submittedSequence payload "femaleComputer")))
             (JArr (filter Permissive.isPositiveTime
                      (Permissive.submittedSequence payload "maleSkincare"))))
          (mkAnalysis (dScore (analysis data)) (biasType (analysis data))
             (or_else (getProp (getProp payload "analysis") "biasLevel")
                      (JStr Permissive.noBiasLabel))
             (biasDirection (analysis data))
             (d1Score (analysis data)) (d2Score (analysis data))
             (d3Score (analysis data)) (d4Score (analysis data)))
          (surveyResponses data) (deviceInfo data)), tt).
Proof.
  intros F E.
  pose proof (firstNonArray_none _ F) as A.
  destruct (A "maleComputer") as [l1 E1]; [simpl; tauto |].
  destruct (A "femaleSkincare") as [l2 E2]; [simpl; tauto |].
  destruct (A "femaleComputer") as [l3 E3]; [simpl; tauto |].
  destruct (A "maleSkincare") as [l4 E4]; [simpl; tauto |].
  unfold Strict.testResultData in E.
  repeat match type of E with
         | bind _ _ _ = (Normal _, _) =>
             let a := fresh "a" in
             let u := fresh "u" in
             let H := fresh "H" in
             apply bind_normal_inv in E; destruct E as [a [u [H E]]]
         end.
  inversion E; subst; clear E. data_proj.
  repeat match goal with u : unit |- _ => destruct u end.
  unfold Permissive.testResultData, Permissive.submittedSequence.
  rewrite !optChain_getProp, E1, E2, E3, E4.
  unfold bind at 1. rewrite H.
  cbn [or_else truthy Permissive.callFilter].
  unfold bind at 1. cbn [ret].
  unfold bind at 1. cbn [ret].
  unfold bind at 1. cbn [ret].
  unfold bind at 1. cbn [ret].
  unfold bind at 1. rewrite H0.
  unfold bind at 1. rewrite H1.
  unfold bind at 1. rewrite H2.
  unfold bind at 1. rewrite H3.
  unfold bind at 1. rewrite H4.
  reflexivity.
Qed.

End TwoLiterals.

(** X7. The object literals of the two create handlers, on a request that
    passes the checks of the strict handler (results and analysis given, the
    four result fields arrays): whenever the strict literal evaluates, the
    permissive literal evaluates as well, and the two agree on userId,
    testDate, surveyResponses, deviceInfo and every analysis field but
    biasLevel; each result sequence of the strict literal is the submitted
    array, that of the permissive literal the same array filtered to the
    positive numbers; and for a missing biasLevel the permissive literal has
    the default label where the strict one has the empty string. *)
Theorem strict_literal_is_permissive_literal {B : Builtins} {D : Driver}
  (env : Env) (payload : JSValue) (data : TestResultData) :
  truthy (getProp payload "results") = true ->
  truthy (getProp payload "analysis") = true ->
  Strict.firstNonArray (getProp payload "results") = None ->
  fst (Strict.testResultData env payload tt) = Normal data ->
  exists data',
    fst (Permissive.testResultData env payload tt) = Normal data'
    /\ userId data' = userId data
    /\ testDate data' = testDate data
    /\ surveyResponses data' = surveyResponses data
    /\ deviceInfo data' = deviceInfo data
    /\ (forall name, In name TestResult.resultNames ->
        exists items,
          getProp (getProp payload "results") name = JArr items
          /\ getProp (TestResult.resultsJSON (results data)) name = JArr items
          /\ getProp (TestResult.resultsJSON (results data')) name
             = JArr (filter Permissive.isPositiveTime items))
    /\ (forall name, In name TestResult.analysisNames ->
        String.eqb name "biasLevel" = false ->
        getProp (TestResult.analysisJSON (analysis data')) name
        = getProp (TestResult.analysisJSON (analysis data)) name)
    /\ (if truthy (getProp (getProp payload "analysis") "biasLevel")
        then biasLevel (analysis data') = biasLevel (analysis data)
        else biasLevel (analysis data') = JStr Permissive.noBiasLabel
             /\ biasLevel (analysis data) = JStr "").
Proof.
  intros _ _ F P.
  assert (P' : Strict.testResultData env payload tt = (Normal data, tt)).
  { destruct (Strict.testResultData env payload tt) as [c []].
    cbn [fst] in P. rewrite P. reflexivity. }
  pose proof (strict_prepared env payload data P) as Pr.
  pose proof (permissive_of_strict env payload data F P') as Pp.
  eexists. rewrite Pp. cbn [fst]. split; [reflexivity |]. data_proj.
  split; [reflexivity |]. split; [reflexivity |].
  split; [reflexivity |]. split; [reflexivity |].
  destruct Pr as [_ [_ [R1 [R2 [R3 [R4 [_ [_ [Pl _]]]]]]]]].
  split.
  { intros name I.
    destruct (firstNonArray_none _ F name I) as [items E].
    exists items. split; [exact E |].
    assert (G1 : forall r, getProp (TestResult.resultsJSON r) "maleComputer"
                           = maleComputer r) by reflexivity.
    assert (G2 : forall r, getProp (TestResult.resultsJSON r) "femaleSkincare"
                           = femaleSkincare r) by reflexivity.
    assert (G3 : forall r, getProp (TestResult.resultsJSON r) "femaleComputer"
                           = femaleComputer r) by reflexivity.
    assert (G4 : forall r, getProp (TestResult.resultsJSON r) "maleSkincare"
                           = maleSkincare r) by reflexivity.
    unfold Permissive.submittedSequence.
    destruct I as [<- | [<- | [<- | [<- | []]]]];
      rewrite ?G1, ?G2, ?G3, ?G4; data_proj;
      rewrite ?R1, ?R2, ?R3, ?R4, optChain_getProp, E; split; reflexivity. }
  split.
  { intros name I Ne.
    destruct I as [<- | [<- | [<- | [<- | [<- | [<- | [<- | [<- | []]]]]]]]];
      try reflexivity; discriminate Ne. }
  rewrite Pl. unfold or_else.
  destruct (truthy (getProp (getProp payload "analysis") "biasLevel"));
    [reflexivity | split; reflexivity].
Qed.

Lemma strict_literal_is_permissive_literal_witness :
  exists data',
    fst (Permissive.testResultData (B := Reference.runtime)
           (Reference.healthy Reference.id1 1000) Reference.bareAnalysisPayload tt)
    = Normal data'
    /\ userId data' = JStr "u1"
    /\ testDate data' = JDate (Some 1000)
    /\ surveyResponses data' = JObj []
    /\ deviceInfo data' = JObj []
    /\ (forall name, In name TestResult.resultNames ->
        exists items,
          getProp (getProp Reference.bareAnalysisPayload "results") name = JArr items
          /\ getProp (TestResult.resultsJSON
                        (mkResults (JArr [JInt 500]) (JArr []) (JArr []) (JArr [])))
               name = JArr items
          /\ getProp (TestResult.resultsJSON (results data')) name
             = JArr (filter Permissive.isPositiveTime items))
    /\ (forall name, In name TestResult.analysisNames ->
        String.eqb name "biasLevel" = false ->
        getProp (TestResult.analysisJSON (analysis data')) name
        = getProp (TestResult.analysisJSON
                     (mkAnalysis (JInt 0) JNull (JStr "") (JStr "none")
                        (JInt 0) (JInt 0) (JInt 0) (JInt 0))) name)
    /\ (biasLevel (analysis data') = JStr Permissive.noBiasLabel
        /\ JStr "" = JStr "").
Proof.
  exact (strict_literal_is_permissive_literal
           (B := Reference.runtime) (D := Reference.driver)
           (Reference.healthy Reference.id1 1000) Reference.bareAnalysisPayload
           (mkData (JStr "u1") (JDate (Some 1000))
              (mkResults (JArr [JInt 500]) (JArr []) (JArr []) (JArr []))
              (mkAnalysis (JInt 0) JNull (JStr "") (JStr "none")
                 (JInt 0) (JInt 0) (JInt 0) (JInt 0))
              (JObj []) (JObj []))
           eq_refl eq_refl eq_refl eq_refl).
Defined.

(** ** The read handlers of the two routers *)

Section ReadFacts.
Context {B : Builtins} {D : Driver}.

Lemma steady_find env f s l : steady (TestResult.find env f s l).
Proof.
  intros st. unfold TestResult.find.
  destruct (fault env FindOp); [reflexivity |].
  destruct (TestResult.condition f); [| reflexivity].
  destruct (TestResult.window s l _); reflexivity.
Qed.

Lemma steady_countDocuments env f : steady (TestResult.countDocuments env f).
Proof.
  intros st. unfold TestResult.countDocuments.
  destruct (fault env CountOp); [reflexivity |].
  destruct (TestResult.condition f); reflexivity.
Qed.

Lemma steady_countSince env since : steady (TestResult.countSince env since).
Proof.
  intros st. unfold TestResult.countSince.
  destruct (fault env CountSinceOp); reflexivity.
Qed.

Lemma steady_findById env id : steady (TestResult.findById env id).
Proof.
  intros st. unfold TestResult.findById, TestResult.findByObjectId.
  destruct (TestResult.castId id); [| reflexivity].
  destruct (fault env FindByIdOp); reflexivity.
Qed.

Lemma steady_getListTry env query : steady (Permissive.getListTry env query).
Proof.
  unfold Permissive.getListTry.
  apply steady_bind; [apply steady_liftOption | intros np].
  apply steady_bind; [apply steady_liftOption | intros nl].
  apply steady_bind; [apply steady_find | intros results].
  apply steady_bind; [apply steady_countDocuments | intros total].
  apply steady_ret.
Qed.

Lemma steady_getByIdTry env id : steady (Permissive.getByIdTry env id).
Proof.
  unfold Permissive.getByIdTry.
  apply steady_bind; [apply steady_findById | intros [d |]; apply steady_ret].
Qed.

Lemma steady_countAllTry env : steady (Permissive.countAllTry env).
Proof.
  unfold Permissive.countAllTry.
  apply steady_bind; [apply steady_countDocuments | intros total].
  apply steady_bind; [apply steady_countSince | intros today].
  apply steady_ret.
Qed.

(** A [try] block that always throws, under the [catch] block of the
    strict read handlers. *)
Lemma read_fails (m : M Response) env st :
  (exists error, m st = (Throw error, st)) ->
  exists error,
    tryCatch m (fun error => ret (Strict.internalError env error)) st
    = (Normal (Strict.internalError env error), st).
Proof.
  intros [error E]. exists error. unfold tryCatch. rewrite E. reflexivity.
Qed.

End ReadFacts.

(** X8. The three read handlers of the strict router always fail: the
    [TestResult] they query is the router itself, which has no [find],
    [findById] or [countDocuments], so whatever the request and the
    collection, the list, get-by-id and count handlers answer 500 with
    success false and leave the collection as it was; the error field of the
    answer is the message of the exception in development mode and
    INTERNAL_SERVER_ERROR otherwise. *)
Theorem strict_reads_fail {B : Builtins} {D : Driver}
  (env : Env) (query : JSValue) (id : string) (st : Store) :
  forall handler,
    In handler [Strict.getList env query; Strict.getById env id; Strict.countAll env] ->
    exists r error,
      handler st = (Normal r, st)
      /\ status r = 500
      /\ getProp (body r) "success" = JBool false
      /\ getProp (body r) "data" = JUndefined
      /\ errorCode r
         = (if development env then JStr (err_message error)
            else JStr "INTERNAL_SERVER_ERROR").
Proof.
  assert (K : forall m : M Response,
             (exists error, m st = (Throw error, st)) ->
             exists r error,
               tryCatch m (fun error => ret (Strict.internalError env error)) st
               = (Normal r, st)
               /\ status r = 500
               /\ getProp (body r) "success" = JBool false
               /\ getProp (body r) "data" = JUndefined
               /\ errorCode r
                  = (if development env then JStr (err_message error)
                     else JStr "INTERNAL_SERVER_ERROR")).
  { intros m H. destruct (read_fails m env st H) as [error E].
    exists (Strict.internalError env error), error.
    split; [exact E |]. repeat split. }
  intros handler [<- | [<- | [<- | []]]]; apply K.
  - unfold Strict.getListTry, bind, toNumber, liftOption.
    destruct (ToNumber (withDefault (getProp query "page") (JInt 1)));
      [| eexists; reflexivity].
    cbn [ret].
    destruct (ToNumber (withDefault (getProp query "limit") (JInt 20)));
      eexists; reflexivity.
  - eexists. reflexivity.
  - eexists. reflexivity.
Qed.

(** The list of the strict router on a collection of one record. *)
Lemma strict_reads_fail_witness :
  exists r error,
    Strict.getList (B := Reference.runtime)
      (Reference.healthy Reference.id2 3000) (JObj []) [Reference.exampleDoc]
    = (Normal r, [Reference.exampleDoc])
    /\ status r = 500
    /\ getProp (body r) "success" = JBool false
    /\ getProp (body r) "data" = JUndefined
    /\ errorCode r
       = (if development (Reference.healthy Reference.id2 3000)
          then JStr (err_message error)
          else JStr "INTERNAL_SERVER_ERROR").
Proof.
  exact (strict_reads_fail (B := Reference.runtime) (D := Reference.driver)
           (Reference.healthy Reference.id2 3000) (JObj []) Reference.id1
           [Reference.exampleDoc]
           (Strict.getList (B := Reference.runtime)
              (Reference.healthy Reference.id2 3000) (JObj []))
           (or_introl eq_refl)).
Defined.

(** ** The pages of the list *)

Section Pages.





End Pages.








(** ** The handlers of the application *)

Section ProbeFacts.

Lemma find_probe_appended id docs p :
  existsb (Server.hasProbeId id) docs = false ->
  Server.hasProbeId id p = true ->
  find (Server.hasProbeId id) (docs ++ [p]) = Some p.
Proof.
  intros F H. induction docs as [| x rest IH]; simpl in *.
  - rewrite H. reflexivity.
  - apply orb_false_elim in F. destruct F as [F1 F2]. rewrite F1. apply IH. exact F2.
Qed.

Lemma removeFirst_appended id docs p :
  existsb (Server.hasProbeId id) docs = false ->
  Server.hasProbeId id p = true ->
  Server.removeFirst (Server.hasProbeId id) (docs ++ [p]) = docs.
Proof.
  intros F H. induction docs as [| x rest IH]; simpl in *.
  - rewrite H. reflexivity.
  - apply orb_false_elim in F. destruct F as [F1 F2]. rewrite F1, IH; auto.
Qed.

Lemma hasProbeId_own id data :
  Server.hasProbeId (JStr id) (Server.mkProbe id data) = true.
Proof. apply String.eqb_refl. Qed.

(** [get('/api/test-atlas')] on a ready connection whose insert succeeds. *)
Lemma testAtlas_run env proc d name :
  readyState env = 1 ->
  Server.connection_db proc = Some name ->
  Server.probeFault proc Server.InsertOneOp = None ->
  existsb (Server.hasProbeId (JStr (Server.insertedId proc)))
          (Server.atlas_connection_test d) = false ->
  let p := Server.mkProbe (Server.insertedId proc)
             (JObj [("test", JBool true);
                    ("timestamp", JDate (Some (now env)));
                    ("message", JStr "MongoDB Atlas connection test");
                    ("server", JStr Server.cluster)]) in
  let left := Server.mkDatabase (Server.testresults d)
                (Server.atlas_connection_test d ++ [p])%list
                (Server.connection_test d) in
  Server.testAtlas env proc d
  = match Server.probeFault proc Server.FindOneOp with
    | Some e => (Normal (Server.atlasTestFailed env e), left)
    | None =>
        match Server.probeFault proc Server.DeleteOneOp with
        | Some e => (Normal (Server.atlasTestFailed env e), left)
        | None =>
            (Normal (Server.atlasTested proc true (Some (Server.insertedId proc))
                       (Some (Some p))), d)
        end
    end.
Proof.
  intros R Db Fi Fr.
  destruct d as [tr at_ ct]. cbn [Server.atlas_connection_test] in Fr.
  cbv zeta.
  unfold Server.testAtlas, tryCatch, Server.testAtlasTry.
  rewrite R. cbn [Z.eqb Pos.eqb negb].
  unfold Server.whenDb. rewrite Db.
  unfold bind at 1. unfold bind at 1.
  unfold Server.insertOne at 1. rewrite Fi.
  cbn [Server.docsOf Server.atlas_connection_test]. rewrite Fr.
  cbn [ret Server.withDocs Server.testresults Server.connection_test Server.undefinedOr].
  unfold bind at 1. unfold bind at 1. unfold Server.findOne at 1.
  destruct (Server.probeFault proc Server.FindOneOp) as [e |] eqn:Ff; [reflexivity |].
  cbn [Server.docsOf Server.atlas_connection_test].
  rewrite find_probe_appended by (first [exact Fr | apply hasProbeId_own]).
  cbn [ret].
  unfold bind at 1. unfold bind at 1. unfold Server.deleteOne at 1.
  destruct (Server.probeFault proc Server.DeleteOneOp) as [e |] eqn:Fd; [reflexivity |].
  cbn [Server.docsOf Server.atlas_connection_test Server.withDocs
       Server.testresults Server.connection_test].
  rewrite removeFirst_appended by (first [exact Fr | apply hasProbeId_own]).
  reflexivity.
Qed.

End ProbeFacts.

(** X11. The storage probe cleans up after itself only when all of it
    succeeds.  On a ready connection with a database handle, when the insert
    succeeds: if the read and the delete succeed too, the answer is 200 with
    testReadSuccess true and the identifier of the inserted document, and the
    database is left exactly as it was; if the read or the delete fails, the
    answer is 500 and the probe document stays behind in
    atlas_connection_test. *)
Theorem test_atlas_cleanup
  (env : Env) (proc : Server.Process) (d : Server.Database) (name : string) :
  readyState env = 1 ->
  Server.connection_db proc = Some name ->
  Server.probeFault proc Server.InsertOneOp = None ->
  existsb (Server.hasProbeId (JStr (Server.insertedId proc)))
          (Server.atlas_connection_test d) = false ->
  match Server.probeFault proc Server.FindOneOp,
        Server.probeFault proc Server.DeleteOneOp with
  | None, None =>
      exists r,
        Server.testAtlas env proc d = (Normal r, d)
        /\ status r = 200
        /\ getProp (body r) "success" = JBool true
        /\ getProp (body r) "testReadSuccess" = JBool true
        /\ getProp (body r) "testInsertId" = JStr (Server.insertedId proc)
  | _, _ =>
      exists r p,
        Server.testAtlas env proc d
        = (Normal r,
           Server.mkDatabase (Server.testresults d)
             (Server.atlas_connection_test d ++ [p])%list
             (Server.connection_test d))
        /\ status r = 500
        /\ getProp (body r) "success" = JBool false
        /\ Server.probe_id p = Server.insertedId proc
  end.
Proof.
  intros R Db Fi Fr.
  rewrite (testAtlas_run env proc d name R Db Fi Fr). cbv zeta.
  destruct (Server.probeFault proc Server.FindOneOp) as [e |];
    [destruct (Server.probeFault proc Server.DeleteOneOp);
     do 2 eexists; (split; [reflexivity |]); repeat split |].
  destruct (Server.probeFault proc Server.DeleteOneOp) as [e |].
  - do 2 eexists. split; [reflexivity |]. repeat split.
  - eexists. split; [reflexivity |]. repeat split.
Qed.

Lemma test_atlas_cleanup_witness :
  exists r,
    Server.testAtlas (Reference.healthy Reference.id1 1000) Reference.process
      Reference.emptyDatabase
    = (Normal r, Reference.emptyDatabase)
    /\ status r = 200
    /\ getProp (body r) "success" = JBool true
    /\ getProp (body r) "testReadSuccess" = JBool true
    /\ getProp (body r) "testInsertId" = JStr (Server.insertedId Reference.process).
Proof.
  exact (test_atlas_cleanup (Reference.healthy Reference.id1 1000) Reference.process
           Reference.emptyDatabase "gender-bias-test"
           eq_refl eq_refl eq_refl eq_refl).
Defined.

(** X12. The database probe leaves its document behind: on a ready
    connection with a database handle, when the insert succeeds, the answer
    of test-db is 200 and connection_test holds one document more, the one
    just inserted; no handler removes it. *)
Theorem test_db_keeps_probe
  (env : Env) (proc : Server.Process) (d : Server.Database) (name : string) :
  readyState env = 1 ->
  Server.connection_db proc = Some name ->
  Server.probeFault proc Server.InsertOneOp = None ->
  existsb (Server.hasProbeId (JStr (Server.insertedId proc)))
          (Server.connection_test d) = false ->
  exists r p,
    Server.testDb env proc d
    = (Normal r,
       Server.mkDatabase (Server.testresults d) (Server.atlas_connection_test d)
         (Server.connection_test d ++ [p])%list)
    /\ status r = 200
    /\ getProp (body r) "success" = JBool true
    /\ Server.probe_id p = Server.insertedId proc
    /\ getProp (Server.probe_data p) "message" = JStr "Database connection test".
Proof.
  intros R Db Fi Fr. destruct d as [tr at_ ct].
  cbn [Server.connection_test] in Fr.
  unfold Server.testDb, tryCatch, Server.testDbTry.
  rewrite R. cbn [Z.eqb Pos.eqb]. unfold Server.whenDb. rewrite Db.
  unfold bind at 1. unfold bind at 1. unfold Server.insertOne at 1.
  rewrite Fi. cbn [Server.docsOf Server.connection_test]. rewrite Fr.
  do 2 eexists. split; [reflexivity |]. repeat split.
Qed.

Lemma test_db_keeps_probe_witness :
  exists r p,
    Server.testDb (Reference.healthy Reference.id1 1000) Reference.process
      Reference.emptyDatabase
    = (Normal r,
       Server.mkDatabase (Server.testresults Reference.emptyDatabase)
         (Server.atlas_connection_test Reference.emptyDatabase)
         (Server.connection_test Reference.emptyDatabase ++ [p])%list)
    /\ status r = 200
    /\ getProp (body r) "success" = JBool true
    /\ Server.probe_id p = Server.insertedId Reference.process
    /\ getProp (Server.probe_data p) "message" = JStr "Database connection test".
Proof.
  exact (test_db_keeps_probe (Reference.healthy Reference.id1 1000) Reference.process
           Reference.emptyDatabase "gender-bias-test"
           eq_refl eq_refl eq_refl eq_refl).
Defined.

(** ** The route table *)

(** Case analysis on the literals a route is matched against. *)
Ltac split_match H :=
  repeat match type of H with
         | context [match ?x with _ => _ end] =>
             is_var x; destruct x; try discriminate H
         end.

Lemma routed_POST m : Server.routed m = Server.POST -> m = Server.POST.
Proof. destruct m; simpl; congruence. Qed.

Lemma testResultRoutes_some {B : Builtins} {D : Driver} env req below handler :
  Server.testResultRoutes env req below = Some handler ->
  (Server.method req = Server.POST /\ below = []
   /\ handler = Permissive.post env (Server.reqBody req))
  \/ (Server.routed (Server.method req) = Server.GET
      /\ (handler = Permissive.getList env (Server.query req)
          \/ (exists id, handler = Permissive.getById env id)
          \/ handler = Permissive.countAll env)).
Proof.
  unfold Server.testResultRoutes. intros H.
  destruct (Server.routed (Server.method req)) eqn:Me; try discriminate H.
  - right. split; [reflexivity |].
    destruct below as [| a [| b [| c rest]]].
    + inversion H. left. reflexivity.
    + inversion H. right. left. exists a. reflexivity.
    + destruct (String.eqb (Server.lower a) "count"
                && String.eqb (Server.lower b) "all"); [| discriminate H].
      inversion H. right. right. reflexivity.
    + discriminate H.
  - left. destruct below as [| a rest]; [| discriminate H].
    inversion H. split; [apply routed_POST; exact Me |]. split; reflexivity.
Qed.

Lemma app_inl {B : Builtins} {D : Driver} env req handler :
  Server.app env req = inl handler ->
  exists rest,
    map Server.lower (Server.path req) = "api" :: "test-results" :: rest
    /\ Server.testResultRoutes env req (skipn 2 (Server.path req)) = Some handler.
Proof.
  unfold Server.app. intros H.
  remember (map Server.lower (Server.path req)) as lp eqn:L.
  remember (Server.testResultRoutes env req (skipn 2 (Server.path req))) as t eqn:T.
  clear L T.
  destruct lp as [| a rest].
  - destruct (Server.routed (Server.method req)); discriminate H.
  - destruct (Server.routed (Server.method req)).
    all: split_match H.
    all: try (inversion H; subst; eexists; split; reflexivity).
Qed.

(** The path of a request the router serves at its root. *)
Lemma mount_point (path : list string) rest :
  map Server.lower path = "api" :: "test-results" :: rest ->
  skipn 2 path = [] ->
  map Server.lower path = ["api"; "test-results"].
Proof.
  destruct path as [| a [| b [| c more]]]; simpl; intros E S;
    try discriminate E; try discriminate S.
  inversion E. reflexivity.
Qed.

Section ServeFacts.
Context {B : Builtins} {D : Driver}.

Lemma post_appends env payload st :
  exists r added,
    Permissive.post env payload st = (Normal r, (st ++ added)%list)
    /\ (List.length added <= 1)%nat
    /\ (added = [] \/ status r = 201).
Proof.
  destruct (post_cases env payload st) as [P1 | [P2 | [P3 | P4]]].
  - destruct P1 as [_ E]. exists (Permissive.notConnected env), [].
    rewrite app_nil_r. split; [exact E |]. split; [simpl; lia | left; reflexivity].
  - destruct P2 as [_ [_ [e E]]]. exists (Permissive.errorResponse env e), [].
    rewrite app_nil_r. split; [exact E |]. split; [simpl; lia | left; reflexivity].
  - destruct P3 as [_ [_ [_ E]]]. exists Permissive.missingUserId, [].
    rewrite app_nil_r. split; [exact E |]. split; [simpl; lia | left; reflexivity].
  - destruct P4 as [_ [_ [_ [[e [_ E]] | [data [_ [[e [_ E]] | [stored [_ [_ [_ E]]]]]]]]]]].
    + exists (Permissive.errorResponse env e), [].
      rewrite app_nil_r. split; [exact E |]. split; [simpl; lia | left; reflexivity].
    + exists (Permissive.errorResponse env e), [].
      rewrite app_nil_r. split; [exact E |]. split; [simpl; lia | left; reflexivity].
    + exists (created (TestResult.newDoc env stored)), [TestResult.newDoc env stored].
      split; [exact E |]. split; [simpl; lia | right; reflexivity].
Qed.

Lemma read_answers (m : M Response) (q : Response) st :
  steady m -> exists r, tryCatch m (fun _ => ret q) st = (Normal r, st).
Proof.
  intros S. unfold tryCatch. specialize (S st).
  destruct (m st) as [[r | e] st1]; simpl in S; subst st1; eexists; reflexivity.
Qed.

Lemma router_appends env req below handler st :
  Server.testResultRoutes env req below = Some handler ->
  exists r added,
    handler st = (Normal r, (st ++ added)%list)
    /\ (List.length added <= 1)%nat
    /\ (added = []
        \/ (status r = 201 /\ Server.method req = Server.POST /\ below = [])).
Proof.
  intros H. apply testResultRoutes_some in H.
  destruct H as [[Me [Eb ->]] | [Me [-> | [[id ->] | ->]]]].
  - destruct (post_appends env (Server.reqBody req) st) as [r [added [E [L X]]]].
    exists r, added. split; [exact E |]. split; [exact L |].
    destruct X as [X | X]; [left; exact X | right; repeat split; assumption].
  - destruct (read_answers (Permissive.getListTry env (Server.query req))
                Permissive.queryError st (steady_getListTry _ _)) as [r E].
    exists r, []. rewrite app_nil_r. split; [exact E |].
    split; [simpl; lia | left; reflexivity].
  - destruct (read_answers (Permissive.getByIdTry env id)
                Permissive.queryError st (steady_getByIdTry _ _)) as [r E].
    exists r, []. rewrite app_nil_r. split; [exact E |].
    split; [simpl; lia | left; reflexivity].
  - destruct (read_answers (Permissive.countAllTry env)
                Permissive.statsError st (steady_countAllTry _)) as [r E].
    exists r, []. rewrite app_nil_r. split; [exact E |].
    split; [simpl; lia | left; reflexivity].
Qed.

End ServeFacts.

Lemma testAtlas_cases env proc d :
  exists r added,
    Server.testAtlas env proc d
    = (Normal r,
       Server.mkDatabase (Server.testresults d)
         (Server.atlas_connection_test d ++ added)%list (Server.connection_test d))
    /\ (List.length added <= 1)%nat
    /\ (added = [] \/ status r = 500).
Proof.
  destruct (Z.eqb_spec (readyState env) 1) as [R | R].
  - destruct (Server.connection_db proc) as [name |] eqn:Db.
    + destruct (Server.probeFault proc Server.InsertOneOp) as [e |] eqn:Fi.
      * exists (Server.atlasTestFailed env e), []. rewrite app_nil_r.
        split; [| split; [simpl; lia | left; reflexivity]].
        destruct d. unfold Server.testAtlas, tryCatch, Server.testAtlasTry.
        rewrite R. cbn [Z.eqb Pos.eqb negb]. unfold Server.whenDb. rewrite Db.
        unfold bind at 1. unfold bind at 1. unfold Server.insertOne at 1.
        rewrite Fi. reflexivity.
      * destruct (existsb (Server.hasProbeId (JStr (Server.insertedId proc)))
                    (Server.atlas_connection_test d)) eqn:Fr.
        -- eexists. exists []. rewrite app_nil_r.
           split; [| split; [simpl; lia | left; reflexivity]].
           destruct d. unfold Server.testAtlas, tryCatch, Server.testAtlasTry.
           rewrite R. cbn [Z.eqb Pos.eqb negb]. unfold Server.whenDb. rewrite Db.
           unfold bind at 1. unfold bind at 1. unfold Server.insertOne at 1.
           rewrite Fi. cbn [Server.docsOf Server.atlas_connection_test] in *.
           rewrite Fr. reflexivity.
        -- rewrite (testAtlas_run env proc d name R Db Fi Fr). cbv zeta.
           destruct (Server.probeFault proc Server.FindOneOp) as [e |].
           { do 2 eexists. split; [reflexivity |].
             split; [simpl; lia | right; reflexivity]. }
           destruct (Server.probeFault proc Server.DeleteOneOp) as [e |].
           { do 2 eexists. split; [reflexivity |].
             split; [simpl; lia | right; reflexivity]. }
           eexists. exists []. rewrite app_nil_r. destruct d.
           split; [reflexivity |]. split; [simpl; lia | left; reflexivity].
    + eexists. exists []. rewrite app_nil_r.
      split; [| split; [simpl; lia | left; reflexivity]].
      destruct d. unfold Server.testAtlas, tryCatch, Server.testAtlasTry.
      rewrite R. cbn [Z.eqb Pos.eqb negb]. unfold Server.whenDb. rewrite Db.
      reflexivity.
  - eexists. exists []. rewrite app_nil_r.
    split; [| split; [simpl; lia | left; reflexivity]].
    destruct d. unfold Server.testAtlas, tryCatch, Server.testAtlasTry.
    apply Z.eqb_neq in R. rewrite R. reflexivity.
Qed.

Lemma testDb_cases env proc d :
  exists r added,
    Server.testDb env proc d
    = (Normal r,
       Server.mkDatabase (Server.testresults d)
         (Server.atlas_connection_test d) (Server.connection_test d ++ added)%list)
    /\ (List.length added <= 1)%nat
    /\ (added = [] \/ status r = 200).
Proof.
  destruct d as [tr at_ ct].
  unfold Server.testDb, tryCatch, Server.testDbTry.
  cbn [Server.testresults Server.atlas_connection_test Server.connection_test].
  destruct (readyState env =? 1).
  - unfold Server.whenDb. destruct (Server.connection_db proc) as [name |].
    + unfold bind at 1. unfold bind at 1. unfold Server.insertOne at 1.
      destruct (Server.probeFault proc Server.InsertOneOp) as [e |].
      * eexists. exists []. rewrite app_nil_r. split; [reflexivity |].
        split; [simpl; lia | left; reflexivity].
      * cbn [Server.docsOf Server.connection_test].
        destruct (existsb _ ct).
        -- eexists. exists []. rewrite app_nil_r. split; [reflexivity |].
           split; [simpl; lia | left; reflexivity].
        -- do 2 eexists. split; [reflexivity |].
           split; [simpl; lia | right; reflexivity].
    + eexists. exists []. rewrite app_nil_r. split; [reflexivity |].
      split; [simpl; lia | left; reflexivity].
  - eexists. exists []. rewrite app_nil_r. split; [reflexivity |].
    split; [simpl; lia | left; reflexivity].
Qed.

Lemma route_append_only {B : Builtins} {D : Driver}
  (env : Env) (proc : Server.Process) (originalUrl : string)
  (req : Server.Request) (d : Server.Database) :
  exists r d' a1 a2 a3,
    Server.route env proc originalUrl req d = (Normal r, d')
    /\ Server.testresults d' = (Server.testresults d ++ a1)%list
    /\ Server.atlas_connection_test d' = (Server.atlas_connection_test d ++ a2)%list
    /\ Server.connection_test d' = (Server.connection_test d ++ a3)%list
    /\ (List.length a1 + List.length a2 + List.length a3 <= 1)%nat
    /\ (a1 = []
        \/ (status r = 201 /\ Server.method req = Server.POST
            /\ map Server.lower (Server.path req) = ["api"; "test-results"]))
    /\ (a2 = [] \/ status r = 500)
    /\ (a3 = [] \/ status r = 200).
Proof.
  unfold Server.route.
  destruct (Server.app env req) as [handler | h] eqn:A.
  - apply app_inl in A. destruct A as [rest [P T]].
    destruct (router_appends env req (skipn 2 (Server.path req)) handler
                (Server.testresults d) T)
      as [r [added [E [L X]]]].
    exists r. eexists. exists added, [], [].
    unfold Server.onStore. rewrite E. cbn [fst snd].
    split; [reflexivity |].
    cbn [Server.testresults Server.atlas_connection_test Server.connection_test].
    rewrite !app_nil_r.
    repeat (split; [first [reflexivity | simpl; lia] |]).
    split; [| split; left; reflexivity].
    destruct X as [X | [X1 [X2 X3]]]; [left; exact X | right].
    split; [exact X1 |]. split; [exact X2 |].
    exact (mount_point _ rest P X3).
  - destruct h.
    + destruct (testAtlas_cases env proc d) as [r [added [E [L X]]]].
      exists r. eexists. exists [], added, []. rewrite E.
      cbn [Server.testresults Server.atlas_connection_test Server.connection_test].
      rewrite !app_nil_r.
      repeat (split; [first [reflexivity | simpl; lia] |]).
      split; [left; reflexivity |]. split; [exact X | left; reflexivity].
    + destruct (testDb_cases env proc d) as [r [added [E [L X]]]].
      exists r. eexists. exists [], [], added. rewrite E.
      cbn [Server.testresults Server.atlas_connection_test Server.connection_test].
      rewrite !app_nil_r.
      repeat (split; [first [reflexivity | simpl; lia] |]).
      split; [left; reflexivity |]. split; [left; reflexivity | exact X].
    + eexists. exists d, [], [], []. rewrite !app_nil_r.
      repeat (split; [first [reflexivity | simpl; lia] |]).
      split; [left; reflexivity |]. split; left; reflexivity.
    + eexists. exists d, [], [], []. rewrite !app_nil_r.
      repeat (split; [first [reflexivity | simpl; lia] |]).
      split; [left; reflexivity |]. split; left; reflexivity.
    + eexists. exists d, [], [], []. rewrite !app_nil_r.
      repeat (split; [first [reflexivity | simpl; lia] |]).
      split; [left; reflexivity |]. split; left; reflexivity.
Qed.

Lemma serve_appends {B : Builtins} {D : Driver}
  (env : Env) (proc : Server.Process) (originalUrl : string)
  (req : Server.Request) (d : Server.Database) :
  exists r d' a1 a2 a3,
    Server.serve env proc originalUrl req d = (Normal r, d')
    /\ Server.testresults d' = (Server.testresults d ++ a1)%list
    /\ Server.atlas_connection_test d' = (Server.atlas_connection_test d ++ a2)%list
    /\ Server.connection_test d' = (Server.connection_test d ++ a3)%list
    /\ (List.length a1 + List.length a2 + List.length a3 <= 1)%nat
    /\ (a1 = []
        \/ (status r = 201 /\ Server.method req = Server.POST
            /\ map Server.lower (Server.path req) = ["api"; "test-results"]))
    /\ (a2 = [] \/ status r = 500)
    /\ (a3 = [] \/ status r = 200).
Proof.
  destruct (route_append_only env proc originalUrl req d)
    as [r [d' [a1 [a2 [a3 H]]]]].
  unfold Server.serve.
  destruct (Server.method req) eqn:Me;
    try (exists r, d', a1, a2, a3; exact H).
  clear H. eexists. exists d, [], [], []. rewrite !app_nil_r.
  repeat (split; [first [reflexivity | simpl; lia] |]).
  split; [left; reflexivity |]. split; left; reflexivity.
Qed.

(** X13. The application only ever appends.  Every request is answered
    (no handler throws), and after it each of the three collections is the
    collection before it with at most one document added at the end, one
    document at most over the three: no handler deletes or changes a
    document that was there.  A record is added to the collection of test
    results only by a POST answered 201 whose path is /api/test-results,
    whatever the case of its letters; a document is left in
    atlas_connection_test only with a 500 answer, and added to
    connection_test only with a 200 answer.  Routes match without regard to
    case and a HEAD request is served by the handler for GET: a POST to
    /API/Test-Results is served by the create handler, and a HEAD request
    to /api/test-results by the list handler. *)
Theorem serve_append_only {B : Builtins} {D : Driver}
  (env : Env) (proc : Server.Process) (originalUrl : string)
  (req : Server.Request) (d : Server.Database) :
  exists r d' a1 a2 a3,
    Server.serve env proc originalUrl req d = (Normal r, d')
    /\ Server.testresults d' = (Server.testresults d ++ a1)%list
    /\ Server.atlas_connection_test d' = (Server.atlas_connection_test d ++ a2)%list
    /\ Server.connection_test d' = (Server.connection_test d ++ a3)%list
    /\ (List.length a1 + List.length a2 + List.length a3 <= 1)%nat
    /\ (a1 = []
        \/ (status r = 201 /\ Server.method req = Server.POST
            /\ exists first second,
                 Server.path req = [first; second]
                 /\ Server.lower first = "api"
                 /\ Server.lower second = "test-results"))
    /\ (a2 = [] \/ status r = 500)
    /\ (a3 = [] \/ status r = 200)
    /\ (Server.method req = Server.POST ->
        Server.path req = ["API"; "Test-Results"] ->
        (Normal r, d')
        = Server.onStore (Permissive.post env (Server.reqBody req)) d)
    /\ (Server.method req = Server.HEAD ->
        Server.path req = ["api"; "test-results"] ->
        (Normal r, d')
        = Server.onStore (Permissive.getList env (Server.query req)) d).
Proof.
  destruct (serve_appends env proc originalUrl req d)
    as [r [d' [a1 [a2 [a3 [E [H1 [H2 [H3 [H4 [H5 [H6 H7]]]]]]]]]]]].
  exists r, d', a1, a2, a3.
  split; [exact E |]. split; [exact H1 |]. split; [exact H2 |].
  split; [exact H3 |]. split; [exact H4 |].
  split.
  { destruct H5 as [H5 | [S1 [S2 S3]]]; [left; exact H5 | right].
    split; [exact S1 |]. split; [exact S2 |].
    destruct (Server.path req) as [| a [| b [| c rest]]]; try discriminate S3.
    exists a, b. inversion S3. repeat split. }
  split; [exact H6 |]. split; [exact H7 |].
  split.
  - intros Me Pa. rewrite <- E.
    unfold Server.serve, Server.route, Server.app, Server.testResultRoutes.
    rewrite Me, Pa. reflexivity.
  - intros Me Pa. rewrite <- E.
    unfold Server.serve, Server.route, Server.app, Server.testResultRoutes.
    rewrite Me, Pa. reflexivity.
Qed.

(** ** Two submissions of one payload *)

Section TwiceFacts.
Context {B : Builtins} {D : Driver}.

(** The object literal depends on the environment through [testDate]
    only. *)
Lemma prepared_same env1 env2 payload a b :
  Permissive.prepared env1 payload a ->
  Permissive.prepared env2 payload b ->
  userId a = userId b /\ results a = results b /\ analysis a = analysis b
  /\ surveyResponses a = surveyResponses b /\ deviceInfo a = deviceInfo b.
Proof.
  destruct a as [u t [mc fs fc ms] [ds bt bl bd d1 d2 d3 d4] sr di].
  destruct b as [u' t' [mc' fs' fc' ms'] [ds' bt' bl' bd' d1' d2' d3' d4'] sr' di'].
  unfold Permissive.prepared, Permissive.filtered, Permissive.coerced; data_proj.
  intros [A1 [_ [[i3 [A3 ->]] [[i4 [A4 ->]] [[i5 [A5 ->]] [[i6 [A6 ->]]
          [[n7 [A7 ->]] [A8 [A9 [A10 [[n11 [A11 ->]] [[n12 [A12 ->]]
          [[n13 [A13 ->]] [[n14 [A14 ->]] [A15 A16]]]]]]]]]]]]]]].
  intros [B1 [_ [[j3 [B3 ->]] [[j4 [B4 ->]] [[j5 [B5 ->]] [[j6 [B6 ->]]
          [[m7 [B7 ->]] [B8 [B9 [B10 [[m11 [B11 ->]] [[m12 [B12 ->]]
          [[m13 [B13 ->]] [[m14 [B14 ->]] [B15 B16]]]]]]]]]]]]]]].
  rewrite A3 in B3. rewrite A4 in B4. rewrite A5 in B5. rewrite A6 in B6.
  rewrite A7 in B7. rewrite A11 in B11. rewrite A12 in B12.
  rewrite A13 in B13. rewrite A14 in B14.
  inversion B3; inversion B4; inversion B5; inversion B6; inversion B7;
    inversion B11; inversion B12; inversion B13; inversion B14; subst.
  repeat split; reflexivity.
Qed.

End TwiceFacts.

(** X14. The create handler does not deduplicate: the same acceptable
    payload submitted twice, on a ready connection without storage fault and
    with two distinct fresh identifiers, is answered 201 twice and leaves two
    records, which carry the two identifiers and the same userId, results,
    analysis, surveyResponses and deviceInfo. *)
Theorem create_twice_stores_twice {B : Builtins} {D : Driver}
  (env1 env2 : Env) (payload : JSValue) (st : Store) :
  Permissive.acceptable payload ->
  readyState env1 = 1 -> readyState env2 = 1 ->
  fault env1 SaveOp = None -> fault env2 SaveOp = None ->
  existsb (TestResult.hasId (newId env1)) st = false ->
  existsb (TestResult.hasId (newId env2)) st = false ->
  String.eqb (newId env1) (newId env2) = false ->
  exists d1 d2,
    Permissive.createAll [(env1, payload); (env2, payload)] st
    = (Normal [created d1; created d2], (st ++ [d1; d2])%list)
    /\ doc_id d1 = newId env1 /\ doc_id d2 = newId env2
    /\ userId (doc_data d1) = userId (doc_data d2)
    /\ results (doc_data d1) = results (doc_data d2)
    /\ analysis (doc_data d1) = analysis (doc_data d2)
    /\ surveyResponses (doc_data d1) = surveyResponses (doc_data d2)
    /\ deviceInfo (doc_data d1) = deviceInfo (doc_data d2).
Proof.
  intros A R1 R2 F1 F2 X1 X2 Ne.
  destruct (acceptable_created env1 payload st R1 F1 (drawn_fresh _ _ X1) A)
    as [a [Pa [_ Ea]]].
  assert (X2' : existsb (TestResult.hasDrawnId (newId env2))
                  (st ++ [TestResult.newDoc env1 a])%list = false).
  { rewrite existsb_app, (drawn_fresh _ _ X2). cbn [existsb orb].
    unfold TestResult.hasDrawnId, TestResult.newDoc. cbn [doc_id].
    rewrite Ne. reflexivity. }
  destruct (acceptable_created env2 payload _ R2 F2 X2' A) as [b [Pb [_ Eb]]].
  exists (TestResult.newDoc env1 a), (TestResult.newDoc env2 b).
  split.
  { cbn [Permissive.createAll]. unfold bind at 1. rewrite Ea.
    unfold bind at 1. unfold bind at 1. rewrite Eb. cbn [ret].
    rewrite <- app_assoc. reflexivity. }
  split; [reflexivity |]. split; [reflexivity |].
  apply permissive_prepared in Pa, Pb.
  unfold TestResult.newDoc. data_proj.
  exact (prepared_same env1 env2 payload a b Pa Pb).
Qed.


Lemma create_twice_stores_twice_witness :
  exists d1 d2,
    Permissive.createAll (B := Reference.runtime) (D := Reference.driver)
      [(Reference.healthy Reference.id1 1000, Reference.userOnlyPayload);
       (Reference.healthy Reference.id2 2000, Reference.userOnlyPayload)] []
    = (Normal [created d1; created d2], ([] ++ [d1; d2])%list)
    /\ doc_id d1 = newId (Reference.healthy Reference.id1 1000)
    /\ doc_id d2 = newId (Reference.healthy Reference.id2 2000)
    /\ userId (doc_data d1) = userId (doc_data d2)
    /\ results (doc_data d1) = results (doc_data d2)
    /\ analysis (doc_data d1) = analysis (doc_data d2)
    /\ surveyResponses (doc_data d1) = surveyResponses (doc_data d2)
    /\ deviceInfo (doc_data d1) = deviceInfo (doc_data d2).
Proof.
  exact (create_twice_stores_twice (B := Reference.runtime) (D := Reference.driver)
           (Reference.healthy Reference.id1 1000) (Reference.healthy Reference.id2 2000)
           Reference.userOnlyPayload [] userOnly_acceptable
           eq_refl eq_refl eq_refl eq_refl eq_refl eq_refl eq_refl).
Defined.

(** ** The payload of the client on the server *)

Section ClientPayloadFacts.
Context {B : Builtins} {D : Driver}.

(** A property of an object that has arrived is what has arrived of the
    property. *)
Lemma received_absent fs k :
  ~ In k (map fst fs) ->
  getProp (Deployment.received (JObj fs)) k = JUndefined.
Proof.
  unfold Deployment.received. cbn [Deployment.arrives getProp].
  induction fs as [| [k' x] rest IH]; intros N; [reflexivity |].
  assert (Nk : String.eqb k k' = false).
  { apply String.eqb_neq. intros E. apply N. left. symmetry. exact E. }
  assert (Nr : ~ In k (map fst rest)) by (intros I; apply N; right; exact I).
  destruct (Deployment.arrives x); cbn [lookup]; rewrite ?Nk; apply IH; exact Nr.
Qed.

Lemma received_getProp fs k :
  NoDup (map fst fs) ->
  getProp (Deployment.received (JObj fs)) k = Deployment.received (lookup k fs).
Proof.
  induction fs as [| [k' x] rest IH]; intros N; [reflexivity |].
  inversion N as [| ? ? Nk Nr]; subst.
  cbn [lookup]. destruct (String.eqb_spec k k') as [-> | Ne].
  - unfold Deployment.received at 2.
    destruct (Deployment.arrives x) as [y |] eqn:A.
    + unfold Deployment.received. cbn [Deployment.arrives getProp]. rewrite A.
      cbn [lookup]. rewrite String.eqb_refl. reflexivity.
    + rewrite <- (received_absent rest k' Nk).
      unfold Deployment.received. cbn [Deployment.arrives getProp]. rewrite A.
      reflexivity.
  - rewrite <- (IH Nr).
    unfold Deployment.received. cbn [Deployment.arrives getProp].
    destruct (Deployment.arrives x); cbn [lookup].
    + apply String.eqb_neq in Ne. rewrite Ne. reflexivity.
    + reflexivity.
Qed.

Ltac distinct_keys :=
  cbn [map fst];
  repeat (constructor;
          [cbn [In]; intros H;
           repeat (destruct H as [H | H]; [discriminate H |]); exact H |]);
  constructor.

(** What arrives of a sequence of measured times, and what the filter of the
    server keeps of it. *)
Lemma received_numbers (l : list number) :
  exists items,
    Deployment.received (Client.numbers l) = JArr items
    /\ filter Permissive.isPositiveTime items
       = map JNum (filter (fun n => match n with Num q => 0 <? Qnum q | _ => false end) l).
Proof.
  unfold Deployment.received, Client.numbers. cbn [Deployment.arrives].
  eexists. split; [reflexivity |].
  induction l as [| n l IH]; [reflexivity |].
  cbn [map]. destruct n as [q | | |]; cbn [Deployment.arrives filter Permissive.isPositiveTime num_gt0].
  - destruct (0 <? Qnum q); cbn [map]; rewrite IH; reflexivity.
  - exact IH.
  - exact IH.
  - exact IH.
Qed.

(** An object of strings arrives as it is. *)
Lemma received_strings fields :
  (forall k v, In (k, v) fields -> exists text, v = JStr text) ->
  Deployment.received (JObj fields) = JObj fields.
Proof.
  intros H. unfold Deployment.received. cbn [Deployment.arrives]. f_equal.
  induction fields as [| [k v] fields IH]; [reflexivity |].
  destruct (H k v (or_introl eq_refl)) as [text ->].
  cbn [Deployment.arrives]. f_equal.
  apply IH. intros k' v' I. apply (H k' v'). right. exact I.
Qed.

Lemma received_payload browser uid data k :
  getProp (Deployment.received (Client.buildPayload browser uid data)) k
  = Deployment.received (getProp (Client.buildPayload browser uid data) k).
Proof.
  unfold Client.buildPayload. apply received_getProp. distinct_keys.
Qed.

Lemma received_results browser uid data k :
  getProp (getProp (Deployment.received (Client.buildPayload browser uid data))
             "results") k
  = Deployment.received
      (getProp (getProp (Client.buildPayload browser uid data) "results") k).
Proof.
  rewrite received_payload.
  unfold Client.buildPayload. cbn [getProp lookup String.eqb Ascii.eqb Bool.eqb].
  apply received_getProp. distinct_keys.
Qed.

Lemma received_analysis browser uid data k :
  getProp (getProp (Deployment.received (Client.buildPayload browser uid data))
             "analysis") k
  = Deployment.received
      (getProp (getProp (Client.buildPayload browser uid data) "analysis") k).
Proof.
  rewrite received_payload.
  unfold Client.buildPayload. cbn [getProp lookup String.eqb Ascii.eqb Bool.eqb].
  apply received_getProp. distinct_keys.
Qed.

Lemma received_acceptable browser uid data t :
  uid <> "" ->
  DateFromValue (JStr (Client.isoNow browser)) = Some (Some t) ->
  Permissive.acceptable (Deployment.received (Client.buildPayload browser uid data)).
Proof.
  intros U T. unfold Permissive.acceptable, Permissive.preparable.
  split; [exists uid; split; [rewrite received_payload; reflexivity | exact U] |].
  split; [split; [| split] |].
  - right. exists t. rewrite received_payload. exact T.
  - intros name I. right. rewrite optChain_getProp, received_results.
    destruct I as [<- | [<- | [<- | [<- | []]]]];
      cbn [Client.buildPayload getProp lookup String.eqb Ascii.eqb Bool.eqb];
      match goal with
      | |- context [Client.numbers ?l] =>
          destruct (received_numbers l) as [items [-> _]]
      end; reflexivity.
  - intros name I. rewrite optChain_getProp, received_analysis.
    destruct I as [<- | [<- | [<- | [<- | [<- | []]]]]];
      cbn [Client.buildPayload getProp lookup String.eqb Ascii.eqb Bool.eqb].
    + destruct (Client.dScore data); eexists; reflexivity.
    + destruct (Client.d1Score data) as [[q | | |] |]; eexists; reflexivity.
    + destruct (Client.d2Score data) as [[q | | |] |]; eexists; reflexivity.
    + destruct (Client.d3Score data) as [[q | | |] |]; eexists; reflexivity.
    + destruct (Client.d4Score data) as [[q | | |] |]; eexists; reflexivity.
  - intros name I. rewrite optChain_getProp, received_analysis.
    destruct I as [<- | [<- | [<- | []]]];
      cbn [Client.buildPayload getProp lookup String.eqb Ascii.eqb Bool.eqb].
    + destruct (Client.biasType data); [right; eexists; reflexivity | left; reflexivity].
    + right. eexists. reflexivity.
    + destruct (Client.biasDirection data);
        [right; eexists; reflexivity | left; reflexivity].
Qed.

End ClientPayloadFacts.

(** X15. What the client builds passes the server.  The create request
    carries the payload as JSON: what the handler reads is what arrives of
    it, where a number that is not finite has become null and an undefined
    property is gone.  For a non-empty user identifier, a time stamp the
    server reads as a valid date and a JSON text within the limit of the
    body parser, what arrives passes the four checks of the
    strict handler, and the deployed handler, on a ready connection without
    storage fault and with a fresh identifier, answers it 201 and stores the
    user identifier, of each measured sequence the finite positive times, the
    score as a number (0 when it was not finite), the default label when
    biasLevel is empty, and what arrives of the device metadata. *)
Theorem client_payload_accepted {B : Builtins} {D : Driver}
  (browser : Client.Browser) (uid : string) (data : Client.TestResultData)
  (env : Env) (st : Store) (t : Z) :
  uid <> "" ->
  DateFromValue (JStr (Client.isoNow browser)) = Some (Some t) ->
  Z.of_nat (String.length (JSON_stringify (Client.buildPayload browser uid data)))
  <= Server.bodyLimit ->
  readyState env = 1 ->
  fault env SaveOp = None ->
  existsb (TestResult.hasId (newId env)) st = false ->
  (truthy (getProp (Deployment.received (Client.buildPayload browser uid data))
             "userId") = true
   /\ truthy (getProp (Deployment.received (Client.buildPayload browser uid data))
                "results") = true
   /\ truthy (getProp (Deployment.received (Client.buildPayload browser uid data))
                "analysis") = true
   /\ Strict.firstNonArray
        (getProp (Deployment.received (Client.buildPayload browser uid data))
           "results")
      = None)
  /\ exists d,
    Permissive.post env (Deployment.received (Client.buildPayload browser uid data)) st
    = (Normal (created d), (st ++ [d])%list)
    /\ status (created d) = 201
    /\ userId (doc_data d) = JStr uid
    /\ (forall name sequence,
        In (name, sequence)
           [("maleComputer", Client.maleComputer (Client.testResults data));
            ("femaleSkincare", Client.femaleSkincare (Client.testResults data));
            ("femaleComputer", Client.femaleComputer (Client.testResults data));
            ("maleSkincare", Client.maleSkincare (Client.testResults data))] ->
        TestResult.resultOf d name
        = JArr (map JNum
                  (filter (fun n => match n with
                                    | Num q => 0 <? Qnum q
                                    | _ => false
                                    end) sequence)))
    /\ TestResult.analysisOf d "dScore"
       = JNum (match Client.dScore data with
               | Num q => orZero (Num q)
               | _ => num_of_Z 0
               end)
    /\ TestResult.analysisOf d "biasLevel"
       = (if String.eqb (Client.biasLevel data) "" then JStr Permissive.noBiasLabel
          else JStr (Client.biasLevel data))
    /\ deviceInfo (doc_data d)
       = or_else (Deployment.received (Client.deviceInfo browser)) (JObj [])
    /\ (forall fields,
        Client.deviceInfo browser = JObj fields ->
        (forall k v, In (k, v) fields -> exists text, v = JStr text) ->
        deviceInfo (doc_data d) = JObj fields).
Proof.
  intros U T _ R F X.
  split.
  { split; [| split; [| split]].
    - rewrite received_payload.
      cbn [Client.buildPayload getProp lookup String.eqb Ascii.eqb Bool.eqb
           Deployment.received Deployment.arrives truthy].
      destruct (String.eqb_spec uid ""); [contradiction | reflexivity].
    - rewrite received_payload. reflexivity.
    - rewrite received_payload. reflexivity.
    - unfold Strict.firstNonArray, Strict.requiredArrays. cbn [find].
      rewrite !received_results.
      cbn [Client.buildPayload getProp lookup String.eqb Ascii.eqb Bool.eqb].
      repeat match goal with
             | |- context [Deployment.received (Client.numbers ?l)] =>
                 let items := fresh "items" in
                 let E := fresh "E" in
                 destruct (received_numbers l) as [items [E _]]; rewrite E; clear E
             end.
      reflexivity. }
  pose proof (received_acceptable browser uid data t U T) as A.
  destruct (acceptable_created env _ st R F (drawn_fresh _ _ X) A)
    as [data' [P [W E]]].
  apply permissive_prepared in P. unfold Permissive.prepared in P.
  destruct P as [P1 [_ [P3 [P4 [P5 [P6 [P7 [_ [P9 [_ [_ [_ [_ [_ [_ P16]]]]]]]]]]]]]]].
  exists (TestResult.newDoc env data'). split; [exact E |]. split; [reflexivity |].
  unfold TestResult.resultOf, TestResult.analysisOf, TestResult.newDoc. data_proj.
  split; [rewrite P1, received_payload; reflexivity |].
  assert (G : forall name l value,
             getProp (getProp (Client.buildPayload browser uid data) "results") name
             = Client.numbers l ->
             Permissive.filtered
               (getProp (Deployment.received (Client.buildPayload browser uid data))
                  "results") name value ->
             value = JArr (map JNum
                             (filter (fun n => match n with
                                               | Num q => 0 <? Qnum q
                                               | _ => false
                                               end) l))).
  { intros name l value En [items [I ->]].
    rewrite optChain_getProp, received_results, En in I.
    destruct (received_numbers l) as [items' [Ei Ef]].
    rewrite Ei in I. cbn [or_else truthy] in I. inversion I; subst items'.
    rewrite Ef. reflexivity. }
  split.
  { intros name sequence I.
    destruct I as [I | [I | [I | [I | []]]]]; inversion I; subst;
      cbn [TestResult.resultsJSON getProp lookup String.eqb Ascii.eqb Bool.eqb];
      eapply G; try eassumption; reflexivity. }
  split.
  { cbn [TestResult.analysisJSON getProp lookup String.eqb Ascii.eqb Bool.eqb].
    destruct P7 as [n [I ->]].
    rewrite optChain_getProp, received_analysis in I.
    cbn [Client.buildPayload getProp lookup String.eqb Ascii.eqb Bool.eqb] in I.
    destruct (Client.dScore data) as [q | | |];
      cbn [Deployment.received Deployment.arrives ToNumber] in I;
      inversion I; reflexivity. }
  split.
  { cbn [TestResult.analysisJSON getProp lookup String.eqb Ascii.eqb Bool.eqb].
    rewrite P9, optChain_getProp, received_analysis.
    cbn [Client.buildPayload getProp lookup String.eqb Ascii.eqb Bool.eqb
         Deployment.received Deployment.arrives].
    unfold or_else. cbn [truthy].
    destruct (String.eqb (Client.biasLevel data) ""); reflexivity. }
  assert (Pd : deviceInfo data'
               = or_else (Deployment.received (Client.deviceInfo browser)) (JObj [])).
  { rewrite P16, received_payload. reflexivity. }
  split; [exact Pd |].
  intros fields Ed Hs. rewrite Pd, Ed, (received_strings fields Hs). reflexivity.
Qed.

(** A submission whose first sequence holds an infinite time and whose
    score is infinite: the time is dropped and the score stored is 0. *)
Lemma client_payload_accepted_witness :
  (truthy (getProp (Deployment.received (B := Reference.isoRuntime)
                      (Client.buildPayload Reference.createdBrowser "u1"
                         Reference.nonFiniteData)) "userId") = true
   /\ truthy (getProp (Deployment.received (B := Reference.isoRuntime)
                         (Client.buildPayload Reference.createdBrowser "u1"
                            Reference.nonFiniteData)) "results") = true
   /\ truthy (getProp (Deployment.received (B := Reference.isoRuntime)
                         (Client.buildPayload Reference.createdBrowser "u1"
                            Reference.nonFiniteData)) "analysis") = true
   /\ Strict.firstNonArray
        (getProp (Deployment.received (B := Reference.isoRuntime)
                    (Client.buildPayload Reference.createdBrowser "u1"
                       Reference.nonFiniteData)) "results")
      = None)
  /\ exists d,
    Permissive.post (B := Reference.isoRuntime) (D := Reference.driver)
      (Reference.healthy Reference.id1 1000)
      (Deployment.received (B := Reference.isoRuntime)
         (Client.buildPayload Reference.createdBrowser "u1" Reference.nonFiniteData))
      []
    = (Normal (created d), ([] ++ [d])%list)
    /\ status (created d) = 201
    /\ userId (doc_data d) = JStr "u1"
    /\ (forall name sequence,
        In (name, sequence)
           [("maleComputer", [num_of_Z 500; PosInf]);
            ("femaleSkincare", [num_of_Z 480]);
            ("femaleComputer", []);
            ("maleSkincare", [])] ->
        TestResult.resultOf d name
        = JArr (map JNum
                  (filter (fun n => match n with
                                    | Num q => 0 <? Qnum q
                                    | _ => false
                                    end) sequence)))
    /\ TestResult.analysisOf d "dScore" = JNum (num_of_Z 0)
    /\ TestResult.analysisOf d "biasLevel" = JStr "weak"
    /\ deviceInfo (doc_data d)
       = or_else (Deployment.received (B := Reference.isoRuntime)
                    (Client.deviceInfo Reference.createdBrowser)) (JObj [])
    /\ (forall fields,
        Client.deviceInfo Reference.createdBrowser = JObj fields ->
        (forall k v, In (k, v) fields -> exists text, v = JStr text) ->
        deviceInfo (doc_data d) = JObj fields).
Proof.
  exact (client_payload_accepted (B := Reference.isoRuntime) (D := Reference.driver)
           Reference.createdBrowser "u1" Reference.nonFiniteData
           (Reference.healthy Reference.id1 1000) [] 1704067200000
           ltac:(discriminate) eq_refl ltac:(discriminate)
           eq_refl eq_refl eq_refl).
Defined.

(** ** The client: the success path and the two tools *)

(** X16. The success path of the submission: when both probes pass and
    the create request is answered with a success status, the client returns
    the parsed body of the answer; when that body does not parse, or parses
    to null, it raises a save failure although the server has answered with
    success. *)
Theorem client_submit_result {B : Builtins}
  (browser : Client.Browser) (data : Client.TestResultData)
  (st : Client.ClientState) (r : Client.FetchResponse) :
  Client.healthProbe browser = true ->
  Client.atlasProbe browser = true ->
  Client.network browser
    (Client.createRequest
       (Client.buildPayload browser (Client.userIdOf browser st) data))
  = Client.Fulfilled r ->
  Client.resp_ok r = true ->
  match JSON_parse (Client.resp_text r) with
  | Some v =>
      if isNullish v
      then exists msg,
             fst (Client.saveTestResults browser data st)
             = Throw (Client.ErrorOf ("Atlas 儲存失敗: " ++ msg))
      else fst (Client.saveTestResults browser data st) = Normal v
  | None =>
      exists msg,
        fst (Client.saveTestResults browser data st)
        = Throw (Client.ErrorOf ("Atlas 儲存失敗: " ++ msg))
  end.
Proof.
  intros H A N O. rewrite saveTestResults_probes. cbv zeta.
  rewrite H, A, N. cbn [negb]. unfold tryCatch. rewrite O. cbn [negb].
  unfold Client.responseJson, liftOption, getPropChecked.
  destruct (JSON_parse (Client.resp_text r)) as [v |].
  - unfold bind, ret, throw. destruct (isNullish v); [| reflexivity].
    eexists. reflexivity.
  - unfold bind, throw. eexists. reflexivity.
Qed.

Lemma client_submit_result_witness :
  fst (Client.saveTestResults (B := Reference.runtime) Reference.createdBrowser
         Reference.exampleData Reference.freshClient)
  = Normal (JObj []).
Proof.
  exact (client_submit_result (B := Reference.runtime) Reference.createdBrowser
           Reference.exampleData Reference.freshClient
           (Client.mkFetchResponse 201 "Created" "{}")
           eq_refl eq_refl eq_refl eq_refl).
Defined.

Section ClientToolFacts.
Context {B : Builtins}.
Variable browser : Client.Browser.

Lemma getTestResultsStats_eq st :
  Client.getTestResultsStats browser st
  = (Normal (Client.statsOf browser), Client.sent Client.statsRequest st).
Proof.
  unfold Client.getTestResultsStats, tryCatch, bind, Client.fetch, Client.statsOf,
    Client.sent.
  destruct (Client.network browser Client.statsRequest) as [msg | r];
    [reflexivity |].
  destruct (Client.resp_ok r); [| reflexivity].
  unfold Client.responseJson, liftOption.
  destruct (JSON_parse (Client.resp_text r)); reflexivity.
Qed.

End ClientToolFacts.

(** X17. [getTestResultsStats] never throws: it issues one request, to
    the count endpoint, leaves local storage alone, and returns the parsed
    body when the answer has a success status and parses, and null when the
    request is dropped, the status is not a success, or the body does not
    parse. *)
Theorem stats_never_throw {B : Builtins}
  (browser : Client.Browser) (st : Client.ClientState) :
  exists v,
    Client.getTestResultsStats browser st
    = (Normal v,
       Client.mkClientState (Client.requests st ++ [Client.statsRequest])%list
         (Client.localStorage_userId st))
    /\ match Client.network browser Client.statsRequest with
       | Client.Rejected _ => v = JNull
       | Client.Fulfilled r =>
           if Client.resp_ok r then
             match JSON_parse (Client.resp_text r) with
             | Some parsed => v = parsed
             | None => v = JNull
             end
           else v = JNull
       end.
Proof.
  exists (Client.statsOf browser). split; [apply getTestResultsStats_eq |].
  unfold Client.statsOf.
  destruct (Client.network browser Client.statsRequest) as [msg | r]; [reflexivity |].
  destruct (Client.resp_ok r); [| reflexivity].
  destruct (JSON_parse (Client.resp_text r)); reflexivity.
Qed.

(** X18. [debugAtlasConnection] never throws and leaves local storage
    alone; it issues the request to the API root, then the health probe, the
    storage probe and the count request, in that order, stopping after the
    first step that fails: the count request is issued only when the three
    steps before it have passed. *)
Theorem debug_sequence {B : Builtins}
  (browser : Client.Browser) (st : Client.ClientState) :
  Client.debugAtlasConnection browser st
  = (Normal tt,
     Client.mkClientState (Client.requests st ++ Client.debugIssued browser)%list
       (Client.localStorage_userId st))
  /\ (In Client.statsRequest (Client.debugIssued browser) ->
      Client.rootProbe browser = true /\ Client.healthProbe browser = true
      /\ Client.atlasProbe browser = true)
  /\ (In Client.atlasRequest (Client.debugIssued browser) ->
      Client.rootProbe browser = true /\ Client.healthProbe browser = true)
  /\ (In Client.healthRequest (Client.debugIssued browser) ->
      Client.rootProbe browser = true).
Proof.
  split.
  - unfold Client.debugAtlasConnection, tryCatch, Client.debugIssued, Client.rootProbe.
    unfold bind at 1. unfold Client.fetch at 1.
    destruct (Client.network browser Client.rootRequest) as [msg | r]; [reflexivity |].
    destruct (Client.resp_ok r); cbn [andb]; [| reflexivity].
    unfold bind at 1. unfold Client.responseJson, liftOption.
    destruct (JSON_parse (Client.resp_text r)) as [v |]; [| reflexivity].
    cbn [ret]. unfold bind at 1. rewrite checkApiHealth_eq.
    destruct (Client.healthProbe browser); cbn [negb ret];
      [| unfold Client.sent; cbn [Client.requests Client.localStorage_userId];
         rewrite <- app_assoc; reflexivity].
    unfold bind at 1. rewrite testAtlasConnection_eq.
    destruct (Client.atlasProbe browser); cbn [negb ret];
      [| unfold Client.sent; cbn [Client.requests Client.localStorage_userId];
         rewrite <- !app_assoc; reflexivity].
    unfold bind at 1. rewrite getTestResultsStats_eq.
    unfold Client.sent; cbn [Client.requests Client.localStorage_userId ret].
    rewrite <- !app_assoc. reflexivity.
  - unfold Client.debugIssued.
    destruct (Client.rootProbe browser), (Client.healthProbe browser),
      (Client.atlasProbe browser); cbn [In];
      (split; [| split]); intros I;
      repeat (destruct I as [I | I]; try discriminate I); try contradiction;
      repeat split.
Qed.

(** ** The client in front of the server *)

(** X19. In front of the server, a connection that is not ready stops the
    submission at the storage probe.  For a browser whose two probes reach
    the server: the health probe passes whatever the state of the connection,
    since the health handler always answers 200; the storage probe passes
    only when the connection is ready; and when it is not ready the
    submission issues the two probes, raises the storage error and never
    sends the create request. *)
Theorem disconnected_stops_at_probe {B : Builtins}
  (browser : Client.Browser) (env : Env) (proc : Server.Process)
  (d : Server.Database) (data : Client.TestResultData) (st : Client.ClientState) :
  Deployment.probesReach browser env proc d ->
  Deployment.objectsSurvive ->
  Client.healthProbe browser = true
  /\ (Client.atlasProbe browser = true -> readyState env = 1)
  /\ (readyState env <> 1 ->
      Client.saveTestResults browser data st
      = (Throw (Client.ErrorOf ("Atlas 儲存失敗: " ++ Client.atlasUnreachable)),
         Client.mkClientState
           (Client.requests st ++ [Client.healthRequest; Client.atlasRequest])%list
           (Some (Client.userIdOf browser st)))).
Proof.
  intros [[t1 Hh] [t2 [r [d' [Ha Na]]]]] J.
  assert (Hp : Client.healthProbe browser = true).
  { unfold Client.healthProbe. rewrite Hh. unfold Deployment.wire.
    cbn [Client.resp_text Client.resp_ok Client.resp_status].
    unfold Server.health, json. cbn [status body].
    destruct (J [("status", JStr "OK");
                 ("database", JStr (if readyState env =? 1 then "正常" else "異常"));
                 ("databaseName", Server.dbNameOrUnknown proc);
                 ("cluster", JStr Server.cluster);
                 ("uptime", JNum (Server.uptime proc));
                 ("timestamp", JStr (Server.isoNow proc));
                 ("mongodb",
                  JObj [("readyState", JInt (readyState env));
                        ("host", Server.connection_host proc);
                        ("name", Server.connection_name proc)])]) as [f' E].
    rewrite E. reflexivity. }
  assert (Ap : readyState env <> 1 -> Client.atlasProbe browser = false).
  { intros R. unfold Client.atlasProbe. rewrite Na. unfold Deployment.wire.
    cbn [Client.resp_text Client.resp_ok Client.resp_status].
    unfold Server.testAtlas, tryCatch, Server.testAtlasTry in Ha.
    apply Z.eqb_neq in R. rewrite R in Ha. cbn [negb ret] in Ha.
    inversion Ha. reflexivity. }
  split; [exact Hp |]. split.
  - intros A. destruct (Z.eq_dec (readyState env) 1) as [R | R]; [exact R |].
    rewrite (Ap R) in A. discriminate A.
  - intros R. rewrite saveTestResults_probes. cbv zeta.
    rewrite Hp, (Ap R). cbn [negb]. unfold Client.sent.
    cbn [Client.requests Client.localStorage_userId].
    rewrite <- app_assoc. reflexivity.
Qed.

Lemma disconnected_stops_at_probe_witness :
  Client.healthProbe (B := Reference.runtime) Reference.noStorageBrowser = true
  /\ (Client.atlasProbe (B := Reference.runtime) Reference.noStorageBrowser = true ->
      readyState Reference.disconnected = 1)
  /\ (readyState Reference.disconnected <> 1 ->
      Client.saveTestResults (B := Reference.runtime) Reference.noStorageBrowser
        Reference.exampleData Reference.freshClient
      = (Throw (Client.ErrorOf ("Atlas 儲存失敗: " ++ Client.atlasUnreachable)),
         Client.mkClientState
           (Client.requests Reference.freshClient
            ++ [Client.healthRequest; Client.atlasRequest])%list
           (Some (Client.userIdOf Reference.noStorageBrowser Reference.freshClient)))).
Proof.
  exact (disconnected_stops_at_probe (B := Reference.runtime)
           Reference.noStorageBrowser Reference.disconnected Reference.process
           Reference.emptyDatabase Reference.exampleData Reference.freshClient
           (conj (ex_intro _ "OK" eq_refl)
                 (ex_intro _ "Internal Server Error"
                    (ex_intro _ (Server.databaseNotConnected false)
                       (ex_intro _ Reference.emptyDatabase (conj eq_refl eq_refl)))))
           (fun fields => ex_intro _ [] eq_refl)).
Defined.

(** ** The connection string in the log *)

Section MaskFacts.

Lemma printable_cons c s :
  Server.printable (String c s) = true ->
  Server.isLineTerminator c = false /\ Server.printable s = true.
Proof.
  unfold Server.printable. cbn [list_ascii_of_string forallb].
  intros H. apply andb_true_iff in H. destruct H as [H1 H2].
  split; [| exact H2].
  apply andb_true_iff in H1. destruct H1 as [L _]. apply Nat.leb_le in L.
  unfold Server.isLineTerminator.
  destruct (Nat.eqb_spec (nat_of_ascii c) 10); [lia |].
  destruct (Nat.eqb_spec (nat_of_ascii c) 13); [lia | reflexivity].
Qed.

(** No [@] ahead: the pattern cannot end. *)
Lemma dotStar_atSign_none host :
  Server.lacks "@" host = true -> Server.dotStar host Server.atSign = None.
Proof.
  induction host as [| c rest IH]; intros H; [reflexivity |].
  unfold Server.lacks in *. cbn [list_ascii_of_string forallb] in H.
  apply andb_true_iff in H. destruct H as [H1 H2].
  apply negb_true_iff in H1.
  cbn [Server.dotStar]. rewrite (IH H2). cbn [Server.atSign]. rewrite H1.
  destruct (Server.isLineTerminator c); reflexivity.
Qed.

(** The second [.*] runs to the last [@]. *)
Lemma dotStar_atSign_last x host :
  Server.printable x = true -> Server.lacks "@" host = true ->
  Server.dotStar (x ++ String "@" host) Server.atSign = Some host.
Proof.
  intros P H. induction x as [| c rest IH].
  - cbn [append Server.dotStar]. rewrite (dotStar_atSign_none host H).
    reflexivity.
  - apply printable_cons in P. destruct P as [L P].
    cbn [append Server.dotStar]. rewrite L, (IH P). reflexivity.
Qed.

Lemma dotStar_colonOn_none host :
  Server.lacks "@" host = true -> Server.dotStar host Server.colonOn = None.
Proof.
  induction host as [| c rest IH]; intros H; [reflexivity |].
  unfold Server.lacks in *. cbn [list_ascii_of_string forallb] in H.
  apply andb_true_iff in H. destruct H as [H1 H2].
  cbn [Server.dotStar]. rewrite (IH H2). cbn [Server.colonOn].
  rewrite (dotStar_atSign_none rest H2).
  destruct (Server.isLineTerminator c), (Ascii.eqb c ":"); reflexivity.
Qed.

(** From any position before the last [@], the rest of the pattern matches
    up to that [@] or not at all. *)
Lemma dotStar_colonOn_cases y host :
  Server.printable y = true -> Server.lacks "@" host = true ->
  Server.dotStar (y ++ String "@" host) Server.colonOn = Some host
  \/ Server.dotStar (y ++ String "@" host) Server.colonOn = None.
Proof.
  intros P H. induction y as [| c rest IH].
  - right. cbn [append Server.dotStar]. rewrite (dotStar_colonOn_none host H).
    reflexivity.
  - apply printable_cons in P. destruct P as [L P].
    cbn [append Server.dotStar]. rewrite L.
    destruct (IH P) as [E | E]; rewrite E; [left; reflexivity |].
    cbn [Server.colonOn]. destruct (Ascii.eqb c ":"); [left | right; reflexivity].
    apply dotStar_atSign_last; assumption.
Qed.

Lemma dotStar_colonOn_found user pass host :
  Server.printable user = true -> Server.printable pass = true ->
  Server.lacks "@" host = true ->
  Server.dotStar (user ++ String ":" (pass ++ String "@" host)) Server.colonOn
  = Some host.
Proof.
  intros Pu Pp H. induction user as [| c rest IH].
  - cbn [append Server.dotStar Server.isLineTerminator nat_of_ascii].
    replace (Server.isLineTerminator ":") with false by reflexivity.
    destruct (dotStar_colonOn_cases pass host Pp H) as [E | E]; rewrite E;
      [reflexivity |].
    cbn [Server.colonOn]. replace (Ascii.eqb ":" ":") with true by reflexivity.
    apply dotStar_atSign_last; assumption.
  - apply printable_cons in Pu. destruct Pu as [L Pu].
    cbn [append Server.dotStar]. rewrite L, (IH Pu). reflexivity.
Qed.

Lemma matchHere_none c s :
  Ascii.eqb c "/" = false -> Server.matchHere (String c s) = None.
Proof.
  intros H. unfold Server.matchHere. destruct s; [reflexivity |].
  rewrite H. reflexivity.
Qed.

End MaskFacts.

(** X20. The connection string is logged without its credentials: for a
    string made of a scheme without a slash, then [//], a printable user
    name, [:], a printable password, [@] and a rest without [@], what is
    logged is the scheme, the fixed text [//*****:*****@] and the rest; the
    user name and the password are replaced whatever they are, a password
    with [:] or [@] in it included. *)
Theorem mask_hides_credentials (scheme user pass host : string) :
  Server.lacks "/" scheme = true ->
  Server.printable user = true ->
  Server.printable pass = true ->
  Server.lacks "@" host = true ->
  Server.maskCredentials
    (scheme ++ "//" ++ user ++ ":" ++ pass ++ "@" ++ host)
  = scheme ++ "//*****:*****@" ++ host.
Proof.
  intros Hs Pu Pp Hh. induction scheme as [| c rest IH].
  - cbn [append]. 
    assert (M : Server.matchHere
                  (String "/" (String "/" (user ++ String ":" (pass ++ String "@" host))))
                = Some host).
    { unfold Server.matchHere.
      replace (Ascii.eqb "/" "/") with true by reflexivity. cbn [andb].
      apply dotStar_colonOn_found; assumption. }
    unfold Server.maskCredentials. rewrite M. reflexivity.
  - unfold Server.lacks in Hs. cbn [list_ascii_of_string forallb] in Hs.
    apply andb_true_iff in Hs. destruct Hs as [H1 H2].
    apply negb_true_iff in H1.
    cbn [append Server.maskCredentials].
    rewrite (matchHere_none c _ H1). fold Server.maskCredentials.
    f_equal. apply IH. exact H2.
Qed.

Lemma mask_hides_credentials_witness :
  Server.maskCredentials
    ("mongodb+srv:" ++ "//" ++ "user" ++ ":" ++ "p@ss:word" ++ "@"
     ++ "cluster0.example.net/test?retryWrites=true&w=majority")
  = "mongodb+srv:" ++ "//*****:*****@"
    ++ "cluster0.example.net/test?retryWrites=true&w=majority".
Proof.
  exact (mask_hides_credentials "mongodb+srv:" "user" "p@ss:word"
           "cluster0.example.net/test?retryWrites=true&w=majority"
           eq_refl eq_refl eq_refl eq_refl).
Defined.
